(** * Manufacturing platform: ingestion pipeline

    A shallow embedding of the TypeScript services behind the sensor-data
    ingestion endpoint:

    - [services/anomalyService.ts]  threshold-band anomaly detection;
    - [services/tenantService.ts]   tenant resolution, cache and configuration;
    - [services/storageService.ts]  three-tier storage fan-out and S3 keys;
    - [lambdas/ingestSensorData/handler.ts]  the HTTP handler;
    - [services/alertNotificationService.ts]  notification of critical alerts;
    - [lambdas/getEquipmentStatus/handler.ts]  the health rating of an equipment;
    - [lambdas/getEquipmentMetrics/handler.ts]  the inline detector of the fast
      alert handler.

    Conventions of the embedding.

    - A JSON number is a finite IEEE double; every finite double is a
      rational, and the comparisons the code performs on doubles agree with
      the comparisons on their exact values, so measurements are [Q].
    - An optional property ([temperature?: number]) is an [option]; [None] is
      JavaScript's [undefined].  The identity fields of a reading are options
      too, because the handler receives them unchecked from [JSON.parse].
    - A JavaScript object used as a dictionary (headers, query parameters,
      [process.env], the tenant cache) is a [gmap string _].
    - Code with effects runs in the monad [M] over a [World]: a clock tape for
      [Date.now()], the process-wide tenant cache, the pending timers and a
      trace of console lines and calls to external clients. *)

From Stdlib Require Import Ascii String QArith Lqa.
From stdpp Require Import gmap strings list pretty.

Local Open Scope string_scope.
Local Open Scope list_scope.
Local Open Scope Z_scope.

(** ** JavaScript helpers *)

Module JS.

(** Truthiness of a possibly undefined string: [undefined] and [''] are
    falsy. *)
Definition truthy (o : option string) : bool :=
  match o with
  | Some s => negb (String.eqb s "")
  | None => false
  end.

(** [a || b] on possibly undefined strings. *)
Definition or (a b : option string) : option string :=
  if truthy a then a else b.

(** Template-literal rendering of a possibly undefined string. *)
Definition show (o : option string) : string := default "undefined" o.

(** [s.split(c)] for a one-character separator: always at least one piece. *)
Fixpoint split (c : ascii) (s : string) : list string :=
  match s with
  | EmptyString => [EmptyString]
  | String a s' =>
      if Ascii.eqb a c then EmptyString :: split c s'
      else match split c s' with
           | p :: ps => String a p :: ps
           | [] => [String a EmptyString]
           end
  end.

(** [s.replace(pat, rep)] with a string pattern: the first occurrence only. *)
Fixpoint replace (pat rep s : string) : string :=
  if String.prefix pat s then
    rep +:+ String.substring (String.length pat)
                             (String.length s - String.length pat) s
  else match s with
       | EmptyString => EmptyString
       | String a s' => String a (replace pat rep s')
       end.

(** [s.padStart(n, '0')]. *)
Definition padStart0 (n : nat) (s : string) : string :=
  String.concat "" (replicate (n - String.length s) "0") +:+ s.

(** A JavaScript number that is an integer or [NaN] (the getters of an
    invalid [Date] return [NaN]). *)
Definition Int := option Z.

Definition Int_add (a : Int) (k : Z) : Int := (λ z, z + k) <$> a.

(** [String(n)]. *)
Definition Int_toString (a : Int) : string :=
  match a with
  | Some z => pretty z
  | None => "NaN"
  end.

(** [a > b] and [a < b] on finite numbers. *)
Definition gt (a b : Q) : bool := negb (Qle_bool a b).
Definition lt (a b : Q) : bool := negb (Qle_bool b a).

End JS.

(** ** models/Anomaly.ts, models/SensorData.ts *)

Inductive AnomalyType :=
| HIGH_TEMPERATURE
| CRITICAL_TEMPERATURE
| HIGH_VIBRATION
| CRITICAL_VIBRATION
| ABNORMAL_PRESSURE
| CRITICAL_PRESSURE
| POWER_SPIKE
| EQUIPMENT_OFFLINE.

(** The string each enum member stands for. *)
Definition AnomalyType_value (t : AnomalyType) : string :=
  match t with
  | HIGH_TEMPERATURE => "high_temperature"
  | CRITICAL_TEMPERATURE => "critical_temperature"
  | HIGH_VIBRATION => "high_vibration"
  | CRITICAL_VIBRATION => "critical_vibration"
  | ABNORMAL_PRESSURE => "abnormal_pressure"
  | CRITICAL_PRESSURE => "critical_pressure"
  | POWER_SPIKE => "power_spike"
  | EQUIPMENT_OFFLINE => "equipment_offline"
  end.

Inductive Severity := low | medium | high | critical.

#[global] Instance AnomalyType_eq_dec : EqDecision AnomalyType.
Proof. solve_decision. Defined.

#[global] Instance Severity_eq_dec : EqDecision Severity.
Proof. solve_decision. Defined.

(** The optional [resolved] and [resolved_at] are never set on the
    ingestion path and are left out. *)
Record Anomaly := {
  a_type : AnomalyType;
  a_equipment_id : option string;
  a_timestamp : option string;
  a_value : Q;
  a_threshold : Q;
  a_severity : Severity;
  a_message : string;
}.

(** [custom_metrics], a free-form bag that no service below looks into, is
    left out. *)
Record SensorData := {
  equipment_id : option string;
  timestamp : option string;
  temperature : option Q;
  vibration : option Q;
  pressure : option Q;
  power_consumption : option Q;
  facility_id : option string;
  line_id : option string;
  (* enrichment fields added during processing *)
  ingestionTimestamp : option string;
  source : option string;
  hasAnomalies : option bool;
  anomalies : option (list Anomaly);
}.

(** ** The JavaScript runtime

    Built-ins of the platform the services call; they are not code of this
    repository and stay abstract.  [JSON_parse_reading] is [JSON.parse] viewed
    at the type the handler casts its result to: [inl msg] is a thrown
    [SyntaxError], [inr r] a JSON object whose properties carry the types
    [SensorData] declares (absent properties are [None]); a body that parses
    to something else (a number, [null], an ill-typed property) is outside
    the model.  [JSON_parse_claims]
    is [JSON.parse(..).tenant_id] on a token payload: the outer [None] is any
    exception, the inner option the property. *)

Record LocalDate := {
  FullYear : Z;
  Month : Z;      (* 0-based, as getMonth() *)
  Date : Z;
  Hours : Z;
}.

Class JSRuntime := {
  Number_toString : Q → string;
  JSON_parse_reading : string → string + SensorData;
  JSON_parse_claims : string → option (option string);
  Buffer_from_base64 : string → string;
  (** [new Date(s)]: the local-time fields, [None] for an invalid date. *)
  Date_parse : string → option LocalDate;
  (** [new Date(ms)] for a time value of the clock, and its [toISOString()]. *)
  Date_of_ms : Z → LocalDate;
  toISOString : Z → string;
}.

(** ** services/anomalyService.ts *)

Record Band := { min : Q; max : Q; criticalMax : Q }.

Record Thresholds := {
  th_temperature : Band;
  th_vibration : Band;
  th_pressure : Band;
}.

(** The module-level [THRESHOLDS] object as the module initialises it.
    [updateThresholds] may overwrite it; the detector therefore takes the
    current thresholds as an argument. *)
Definition THRESHOLDS : Thresholds := {|
  th_temperature := {| min := 0; max := 150; criticalMax := 180 |};
  th_vibration := {| min := 0; max := 2; criticalMax := 5 |};
  th_pressure := {| min := 50; max := 500; criticalMax := 800 |};
|}.

Section AnomalyService.
Context `{JSRuntime}.
Variable TH : Thresholds.

Definition detectTemperatureAnomalies
    (equipmentId : option string) (temperature : Q) (timestamp : option string)
    : list Anomaly :=
  let T := th_temperature TH in
  if JS.gt temperature (criticalMax T) then
    [ {| a_type := CRITICAL_TEMPERATURE;
         a_equipment_id := equipmentId;
         a_timestamp := timestamp;
         a_value := temperature;
         a_threshold := criticalMax T;
         a_severity := critical;
         a_message := "Critical temperature detected: " +:+ Number_toString temperature
                      +:+ "°C (threshold: " +:+ Number_toString (criticalMax T) +:+ "°C)" |} ]
  else if JS.gt temperature (max T) then
    [ {| a_type := HIGH_TEMPERATURE;
         a_equipment_id := equipmentId;
         a_timestamp := timestamp;
         a_value := temperature;
         a_threshold := max T;
         a_severity := high;
         a_message := "High temperature detected: " +:+ Number_toString temperature
                      +:+ "°C (normal max: " +:+ Number_toString (max T) +:+ "°C)" |} ]
  else if JS.lt temperature (min T) then
    [ {| a_type := HIGH_TEMPERATURE; (* Using existing enum, would add LOW_TEMPERATURE *)
         a_equipment_id := equipmentId;
         a_timestamp := timestamp;
         a_value := temperature;
         a_threshold := min T;
         a_severity := medium;
         a_message := "Low temperature detected: " +:+ Number_toString temperature
                      +:+ "°C (normal min: " +:+ Number_toString (min T) +:+ "°C)" |} ]
  else [].

Definition detectVibrationAnomalies
    (equipmentId : option string) (vibration : Q) (timestamp : option string)
    : list Anomaly :=
  let V := th_vibration TH in
  if JS.gt vibration (criticalMax V) then
    [ {| a_type := CRITICAL_VIBRATION;
         a_equipment_id := equipmentId;
         a_timestamp := timestamp;
         a_value := vibration;
         a_threshold := criticalMax V;
         a_severity := critical;
         a_message := "Critical vibration detected: " +:+ Number_toString vibration
                      +:+ " (threshold: " +:+ Number_toString (criticalMax V) +:+ ")" |} ]
  else if JS.gt vibration (max V) then
    [ {| a_type := HIGH_VIBRATION;
         a_equipment_id := equipmentId;
         a_timestamp := timestamp;
         a_value := vibration;
         a_threshold := max V;
         a_severity := high;
         a_message := "High vibration detected: " +:+ Number_toString vibration
                      +:+ " (normal max: " +:+ Number_toString (max V) +:+ ")" |} ]
  else [].

Definition detectPressureAnomalies
    (equipmentId : option string) (pressure : Q) (timestamp : option string)
    : list Anomaly :=
  let P := th_pressure TH in
  if JS.gt pressure (criticalMax P) then
    [ {| a_type := CRITICAL_PRESSURE;
         a_equipment_id := equipmentId;
         a_timestamp := timestamp;
         a_value := pressure;
         a_threshold := criticalMax P;
         a_severity := critical;
         a_message := "Critical pressure detected: " +:+ Number_toString pressure
                      +:+ " PSI (threshold: " +:+ Number_toString (criticalMax P) +:+ " PSI)" |} ]
  else if JS.gt pressure (max P) || JS.lt pressure (min P) then
    [ {| a_type := ABNORMAL_PRESSURE;
         a_equipment_id := equipmentId;
         a_timestamp := timestamp;
         a_value := pressure;
         a_threshold := if JS.gt pressure (max P) then max P else min P;
         a_severity := medium;
         a_message := "Pressure anomaly detected: " +:+ Number_toString pressure
                      +:+ " PSI (normal range: " +:+ Number_toString (min P)
                      +:+ "-" +:+ Number_toString (max P) +:+ " PSI)" |} ]
  else [].

(** The detections are pushed in the order temperature, vibration,
    pressure; [Promise.all] keeps that order and the results are
    concatenated. *)
Definition detectAnomalies (sensorData : SensorData) : list Anomaly :=
  let detectionPromises :=
    match temperature sensorData with
    | Some t => [detectTemperatureAnomalies (equipment_id sensorData) t (timestamp sensorData)]
    | None => []
    end ++
    match vibration sensorData with
    | Some v => [detectVibrationAnomalies (equipment_id sensorData) v (timestamp sensorData)]
    | None => []
    end ++
    match pressure sensorData with
    | Some p => [detectPressureAnomalies (equipment_id sensorData) p (timestamp sensorData)]
    | None => []
    end in
  concat detectionPromises.

(** The only console output of the detector: one line when there is a
    critical anomaly. *)
Definition detectAnomalies_log (sensorData : SensorData) : option string :=
  let criticalAnomalies :=
    filter (λ a, a_severity a = critical) (detectAnomalies sensorData) in
  if decide (0 < length criticalAnomalies)%nat then
    Some ("CRITICAL: " +:+ pretty (length criticalAnomalies)
          +:+ " critical anomalies for equipment " +:+ JS.show (equipment_id sensorData))
  else None.

End AnomalyService.

(** ** models/Tenant.ts, models/ApiGateway.ts, models/Database.ts *)

Inductive DeploymentType := multi_tenant | single_tenant | hybrid.

Inductive SubscriptionTier := basic | professional | enterprise.

#[global] Instance DeploymentType_eq_dec : EqDecision DeploymentType.
Proof. solve_decision. Defined.

#[global] Instance SubscriptionTier_eq_dec : EqDecision SubscriptionTier.
Proof. solve_decision. Defined.

Definition DeploymentType_value (d : DeploymentType) : string :=
  match d with
  | multi_tenant => "multi-tenant"
  | single_tenant => "single-tenant"
  | hybrid => "hybrid"
  end.

Record EscalationRule := {
  severity : Severity;
  delay_minutes : Z;
  channels : list string;
}.

Record DatabaseConfig := {
  connection_string : option string;
  use_rls : bool;
  max_connections : Z;
}.

Record StorageConfig := {
  s3_bucket : option string;
  encryption_key : option string;
  retention_policy : string;
}.

Record AlertsConfig := {
  sns_topics : list string;
  webhook_urls : list string;
  escalation_rules : list EscalationRule;
}.

Record FeaturesConfig := {
  advanced_analytics : bool;
  custom_dashboards : bool;
  api_rate_limit : Z;
  concurrent_users : Z;
}.

Record TenantConfig := {
  database : DatabaseConfig;
  storage : StorageConfig;
  alerts : AlertsConfig;
  features : FeaturesConfig;
}.

Record TenantContext := {
  tenant_id : string;
  tenant_name : string;
  deployment_type : DeploymentType;
  data_region : string;
  subscription_tier : SubscriptionTier;
  compliance_requirements : list string;
  max_equipment : Z;
  retention_days : Z;
  created_at : string;
  config : TenantConfig;
}.

(** The properties of the event the services read. *)
Record APIGatewayProxyEvent := {
  body : option string;
  headers : option (gmap string string);
  queryStringParameters : option (gmap string string);
  sourceIp : option string;     (* requestContext?.identity?.sourceIp *)
}.

(** The response envelope; [body] of the result is its [JSON.stringify]. *)
Record SuccessData := {
  sd_message : string;
  sd_equipment_id : option string;
  sd_timestamp : option string;
  sd_anomalies_detected : nat;
  sd_alerts_created : nat;
  sd_processing_latency_ms : Z;
  sd_sla_compliant : bool;
}.

Record ApiResponse := {
  success : bool;
  data : option SuccessData;
  error : option string;
  details : option (list string);
  r_timestamp : string;
}.

Record APIGatewayProxyResult := {
  statusCode : Z;
  r_headers : list (string * string);
  r_body : ApiResponse;
}.

Record Alert := {
  alert_id : string;
  al_equipment_id : option string;
  al_type : AnomalyType;
  al_severity : Severity;
  al_message : string;
  al_timestamp : option string;
  acknowledged : bool;
  resolved : bool;
  processing_latency_ms : Z;
}.

Record StorageResult := {
  timescale : bool;
  postgres : bool;
  s3 : bool;
  latency_ms : Z;
  sr_error : option string;
}.

Record S3UploadResult := {
  up_success : bool;
  up_key : option string;
  up_bucket : option string;
  up_error : option string;
}.

(** ** The world the services run in *)

Inductive JSError :=
| Error (message : string)
| SyntaxError (message : string)
| TypeError (message : string).

Definition error_message (e : JSError) : string :=
  match e with
  | Error m | SyntaxError m | TypeError m => m
  end.

(** An error inside a template literal: [name: message]. *)
Definition error_toString (e : JSError) : string :=
  match e with
  | Error m => "Error: " +:+ m
  | SyntaxError m => "SyntaxError: " +:+ m
  | TypeError m => "TypeError: " +:+ m
  end.

(** The body of an object written to S3: the reading spread into an object
    together with the properties the archiver adds. *)
Inductive S3Body :=
| ArchiveBody (reading : SensorData) (archived_at archive_key : string)
| ErrorBody (reading : SensorData) (error_archived_at error_key : string)
            (processing_failed : bool).

Record PutObjectCommand := {
  Bucket : string;
  Key : string;
  Body : S3Body;
  ContentType : string;
  Metadata : list (string * string);
}.

Inductive PoolId :=
| SharedTimescalePool
| SharedPostgresPool
| TenantPool (tenantId : string).

#[global] Instance PoolId_eq_dec : EqDecision PoolId.
Proof. solve_decision. Defined.

(** The statements the storage service sends through a pool. *)
Inductive Statement :=
| SET_current_tenant_id (tenantId : string)
| INSERT_sensor_data_raw (with_tenant_id : bool) (reading : SensorData)
| INSERT_equipment_status (reading : SensorData).

(** What a run leaves behind: the lines it prints on the console, its
    calls to the external clients, and, for the handler, its calls to the
    services it imports. *)
Inductive Event :=
| Log_rate_limit_check (tenantId : string) (limit : Z)
| Log_gdpr_check (sourceIP : option string)
| Log_tenant_usage (tenant : TenantContext) (operation : string) (value : Z)
                   (timestamp : string)
| Log_critical_anomalies (line : string)
| Log_processed (equipmentId : option string) (totalLatency : Z)
| Log_error (context : string) (message : string)
| Log_archived (context : string) (key bucket : string)
| Call_detectAnomalies (reading : SensorData)
| Call_publishAlert (topic : string) (alert : Alert)
| Call_processCriticalAlert (alert : Alert) (anomaly : Anomaly)
| Launch_storeSensorDataMultiTier (reading : SensorData) (tenant : TenantContext)
| Launch_publishSensorData (topic : string) (reading : SensorData)
| Pool_query (pool : PoolId) (stmt : Statement)
| S3_send (command : PutObjectCommand).

(** A pending [setTimeout(() => tenantCache.delete(key), delay)]. *)
Record Timer := { delay : Z; key : string }.

Record World := {
  w_clock : nat → Z;            (* the successive readings of the clock *)
  w_reads : nat;                (* how many were taken *)
  w_random : nat → Z;           (* successive values of [Math.random() * 16 | 0] *)
  w_draws : nat;
  w_env : gmap string string;   (* process.env *)
  w_tenantCache : gmap string TenantContext;
  w_timers : list Timer;
  w_pools : list PoolId;        (* pools created so far *)
  w_query_fails : PoolId → Statement → option JSError;
  w_s3_fails : PutObjectCommand → option JSError;
  w_trace : list Event;
}.

Inductive Completion (A : Type) :=
| Return (a : A)
| Throw (e : JSError).

Arguments Return {A} a.
Arguments Throw {A} e.

Definition M (A : Type) : Type := World → Completion A * World.

Definition ret {A} (a : A) : M A := λ w, (Return a, w).

Definition throw {A} (e : JSError) : M A := λ w, (Throw e, w).

Definition bind {A B} (m : M A) (k : A → M B) : M B :=
  λ w, match m w with
       | (Return a, w') => k a w'
       | (Throw e, w') => (Throw e, w')
       end.

Definition try_catch {A} (m : M A) (h : JSError → M A) : M A :=
  λ w, match m w with
       | (Return a, w') => (Return a, w')
       | (Throw e, w') => h e w'
       end.

#[global] Instance M_ret : MRet M := @ret.

#[global] Instance M_bind : MBind M := λ A B k m, bind m k.

Definition get : M World := λ w, (Return w, w).

Definition modify (f : World → World) : M unit := λ w, (Return tt, f w).

Definition set_reads (n : nat) (w : World) : World :=
  {| w_clock := w_clock w; w_reads := n; w_random := w_random w;
     w_draws := w_draws w; w_env := w_env w; w_tenantCache := w_tenantCache w;
     w_timers := w_timers w; w_pools := w_pools w;
     w_query_fails := w_query_fails w; w_s3_fails := w_s3_fails w;
     w_trace := w_trace w |}.

Definition set_draws (n : nat) (w : World) : World :=
  {| w_clock := w_clock w; w_reads := w_reads w; w_random := w_random w;
     w_draws := n; w_env := w_env w; w_tenantCache := w_tenantCache w;
     w_timers := w_timers w; w_pools := w_pools w;
     w_query_fails := w_query_fails w; w_s3_fails := w_s3_fails w;
     w_trace := w_trace w |}.

Definition set_env (e : gmap string string) (w : World) : World :=
  {| w_clock := w_clock w; w_reads := w_reads w; w_random := w_random w;
     w_draws := w_draws w; w_env := e; w_tenantCache := w_tenantCache w;
     w_timers := w_timers w; w_pools := w_pools w;
     w_query_fails := w_query_fails w; w_s3_fails := w_s3_fails w;
     w_trace := w_trace w |}.

Definition set_tenantCache (c : gmap string TenantContext) (w : World) : World :=
  {| w_clock := w_clock w; w_reads := w_reads w; w_random := w_random w;
     w_draws := w_draws w; w_env := w_env w; w_tenantCache := c;
     w_timers := w_timers w; w_pools := w_pools w;
     w_query_fails := w_query_fails w; w_s3_fails := w_s3_fails w;
     w_trace := w_trace w |}.

Definition set_timers (t : list Timer) (w : World) : World :=
  {| w_clock := w_clock w; w_reads := w_reads w; w_random := w_random w;
     w_draws := w_draws w; w_env := w_env w; w_tenantCache := w_tenantCache w;
     w_timers := t; w_pools := w_pools w;
     w_query_fails := w_query_fails w; w_s3_fails := w_s3_fails w;
     w_trace := w_trace w |}.

Definition set_pools (p : list PoolId) (w : World) : World :=
  {| w_clock := w_clock w; w_reads := w_reads w; w_random := w_random w;
     w_draws := w_draws w; w_env := w_env w; w_tenantCache := w_tenantCache w;
     w_timers := w_timers w; w_pools := p;
     w_query_fails := w_query_fails w; w_s3_fails := w_s3_fails w;
     w_trace := w_trace w |}.

Definition set_trace (t : list Event) (w : World) : World :=
  {| w_clock := w_clock w; w_reads := w_reads w; w_random := w_random w;
     w_draws := w_draws w; w_env := w_env w; w_tenantCache := w_tenantCache w;
     w_timers := w_timers w; w_pools := w_pools w;
     w_query_fails := w_query_fails w; w_s3_fails := w_s3_fails w;
     w_trace := t |}.

(** [Date.now()], also the time value of a [new Date()]. *)
Definition Date_now : M Z :=
  λ w, (Return (w_clock w (w_reads w)), set_reads (S (w_reads w)) w).

(** [Math.random() * 16 | 0]. *)
Definition Math_random16 : M Z :=
  λ w, (Return (w_random w (w_draws w)), set_draws (S (w_draws w)) w).

Definition emit (e : Event) : M unit :=
  modify (λ w, set_trace (w_trace w ++ [e]) w).

Definition getenv (name : string) : M (option string) :=
  λ w, (Return (w_env w !! name), w).

Definition setenv (name value : string) : M unit :=
  modify (λ w, set_env (<[name := value]> (w_env w)) w).

(** [setTimeout(() => tenantCache.delete(key), delay)]. *)
Definition setTimeout_delete (k : string) (d : Z) : M unit :=
  modify (λ w, set_timers (w_timers w ++ [ {| delay := d; key := k |} ]) w).

(** The event loop lets [dt] milliseconds pass: every timer that comes due
    runs its callback and is dropped, the others have [dt] less to wait. *)
Definition elapse (dt : Z) (w : World) : World :=
  let due := filter (λ t, delay t <= dt) (w_timers w) in
  let pending := filter (λ t, dt < delay t) (w_timers w) in
  set_timers ((λ t, {| delay := delay t - dt; key := key t |}) <$> pending)
    (set_tenantCache (foldr (λ t c, base.delete (key t) c) (w_tenantCache w) due) w).

(** ** services/tenantService.ts *)

Section TenantService.
Context `{JSRuntime}.

(** [event.headers?.[name]]. *)
Definition header (event : APIGatewayProxyEvent) (name : string) : option string :=
  headers event ≫= (λ h, h !! name).

(** [event.queryStringParameters?.[name]]. *)
Definition query (event : APIGatewayProxyEvent) (name : string) : option string :=
  queryStringParameters event ≫= (λ q, q !! name).

(** Any exception inside the [try] (no second segment, a payload that is not
    JSON, a [null] payload) ends in the [catch], which returns [null]. *)
Definition extractFromJWT (authHeader : string) : option string :=
  let token := JS.replace "Bearer " "" authHeader in
  match JS.split "." token !! 1%nat with
  | Some segment =>
      match JSON_parse_claims (Buffer_from_base64 segment) with
      | Some claim => if JS.truthy claim then claim else None
      | None => None
      end
  | None => None
  end.

Definition extractFromSubdomain (host : string) : option string :=
  let parts := JS.split "." host in
  if bool_decide (3 ≤ length parts)%nat
       && bool_decide (parts !! 1%nat = Some "manufacturing") then
    parts !! 0%nat
  else None.

Definition extractFromApiKey (apiKey : string) : option string :=
  let parts := JS.split "_" apiKey in
  if decide (2 ≤ length parts)%nat then parts !! 0%nat else None.

Definition extractTenantId (event : APIGatewayProxyEvent) : option string :=
  (* 1. Custom header (X-Tenant-ID) *)
  if JS.truthy (JS.or (header event "X-Tenant-ID") (header event "x-tenant-id")) then
    JS.or (header event "X-Tenant-ID") (header event "x-tenant-id")
  else
    (* 2. JWT token claim *)
    let tenantFromJWT :=
      if JS.truthy (header event "Authorization") then
        extractFromJWT (default "" (header event "Authorization"))
      else None in
    if JS.truthy tenantFromJWT then tenantFromJWT
    else
      (* 3. Subdomain (tenant.manufacturing.com) *)
      let tenantFromSubdomain :=
        if JS.truthy (header event "Host") then
          extractFromSubdomain (default "" (header event "Host"))
        else None in
      if JS.truthy tenantFromSubdomain then tenantFromSubdomain
      else
        (* 4. Query parameter *)
        if JS.truthy (query event "tenant_id") then query event "tenant_id"
        else
          (* 5. API key prefix *)
          if JS.truthy (JS.or (header event "X-API-Key") (header event "x-api-key")) then
            extractFromApiKey
              (default "" (JS.or (header event "X-API-Key") (header event "x-api-key")))
          else None.

Definition acme_corp (dbHost : string) : TenantContext := {|
  tenant_id := "acme-corp";
  tenant_name := "ACME Corporation";
  deployment_type := single_tenant;
  data_region := "us-east-1";
  subscription_tier := enterprise;
  compliance_requirements := ["SOC2"; "GDPR"];
  max_equipment := 10000;
  retention_days := 365;
  created_at := "2025-01-01T00:00:00Z";
  config := {|
    database := {|
      connection_string := Some ("postgresql://" +:+ dbHost +:+ ":5432/manufacturing");
      use_rls := false;
      max_connections := 100 |};
    storage := {|
      s3_bucket := Some "manufacturing-platform-archival-development-535002890929";
      encryption_key := Some "arn:aws:kms:us-east-1:123456789012:key/acme-key";
      retention_policy := "unlimited" |};
    alerts := {|
      sns_topics := ["arn:aws:sns:us-east-1:123456789012:acme-critical-alerts"];
      webhook_urls := ["https://acme.com/webhooks/manufacturing-alerts"];
      escalation_rules :=
        [ {| severity := critical; delay_minutes := 0;
             channels := ["sns"; "webhook"; "pagerduty"] |} ] |};
    features := {|
      advanced_analytics := true;
      custom_dashboards := true;
      api_rate_limit := 10000;
      concurrent_users := 100 |} |} |}.

Definition shared_tenant : TenantContext := {|
  tenant_id := "shared-tenant";
  tenant_name := "Shared SMB Customer";
  deployment_type := multi_tenant;
  data_region := "us-east-1";
  subscription_tier := professional;
  compliance_requirements := [];
  max_equipment := 100;
  retention_days := 90;
  created_at := "2025-06-01T00:00:00Z";
  config := {|
    database := {|
      connection_string := None;
      use_rls := true;
      max_connections := 10 |};
    storage := {|
      s3_bucket := None;
      encryption_key := None;
      retention_policy := "90-days" |};
    alerts := {|
      sns_topics := ["arn:aws:sns:us-east-1:123456789012:shared-alerts"];
      webhook_urls := [];
      escalation_rules :=
        [ {| severity := critical; delay_minutes := 5; channels := ["sns"] |} ] |};
    features := {|
      advanced_analytics := false;
      custom_dashboards := false;
      api_rate_limit := 1000;
      concurrent_users := 10 |} |} |}.

(** Property names every object literal inherits: [mockTenants[id]] is
    truthy for them although they name no tenant. *)
Definition Object_prototype_keys : list string :=
  [ "constructor"; "__defineGetter__"; "__defineSetter__"; "hasOwnProperty";
    "__lookupGetter__"; "__lookupSetter__"; "isPrototypeOf";
    "propertyIsEnumerable"; "toString"; "valueOf"; "__proto__";
    "toLocaleString" ].

(** For an inherited property name the value returned is no tenant record
    and the first property read of [validateTenantAccess] on its [config]
    throws, before anything is printed; the model raises that error here. *)
Definition loadTenantConfig (tenantId : string) : M TenantContext :=
  mock ← getenv "MOCK_SERVICES";
  skip ← getenv "SKIP_DB_CONNECTIONS";
  let isMockMode := bool_decide (mock = Some "true") || bool_decide (skip = Some "true") in
  let dbHost :=
    if isMockMode then "localhost"
    else "manufacturingplatform-development-postgresdb113281d2-tsgocyznjzyn.cnqweieki09q.us-east-1.rds.amazonaws.com" in
  if String.eqb tenantId "acme-corp" then ret (acme_corp dbHost)
  else if String.eqb tenantId "shared-tenant" then ret shared_tenant
  else if bool_decide (tenantId ∈ Object_prototype_keys) then
    throw (TypeError "Cannot read properties of undefined (reading 'features')")
  else throw (Error ("Tenant not found: " +:+ tenantId)).

(** The rate-limit and compliance checks only print what they would check.
    [new Date().getHours()] reads the clock. *)
Definition validateTenantAccess (tenant : TenantContext) (event : APIGatewayProxyEvent)
    : M unit :=
  _ ← Date_now;
  emit (Log_rate_limit_check (tenant_id tenant) (api_rate_limit (features (config tenant))));;
  if bool_decide ("GDPR" ∈ compliance_requirements tenant) then
    emit (Log_gdpr_check (sourceIp event))
  else ret ().

Definition resolveTenant (event : APIGatewayProxyEvent) : M TenantContext :=
  let tenantId := extractTenantId event in
  if negb (JS.truthy tenantId) then
    throw (Error "Tenant ID not found in request")
  else
    let tenantId := default "" tenantId in
    w ← get;
    (* Check cache first *)
    match w_tenantCache w !! tenantId with
    | Some cached => ret cached
    | None =>
        (* Load from database *)
        tenant ← loadTenantConfig tenantId;
        (* Validate tenant is active and within limits *)
        validateTenantAccess tenant event;;
        (* Cache for future requests (5-minute TTL) *)
        modify (λ w, set_tenantCache (<[tenantId := tenant]> (w_tenantCache w)) w);;
        setTimeout_delete tenantId (5 * 60 * 1000);;
        ret tenant
    end.

Definition withTenantContext {T} (event : APIGatewayProxyEvent)
    (handler : TenantContext → APIGatewayProxyEvent → M T) : M T :=
  tenantContext ← resolveTenant event;
  setenv "CURRENT_TENANT_ID" (tenant_id tenantContext);;
  setenv "CURRENT_DEPLOYMENT_TYPE" (DeploymentType_value (deployment_type tenantContext));;
  handler tenantContext event.

(** [TenantConfigService.getStorageConfig]. *)
Record StorageTarget := {
  bucket : option string;
  kmsKey : option string;
  prefix : string;
}.

Definition getStorageConfig (tenant : TenantContext) : M StorageTarget :=
  if decide (deployment_type tenant = single_tenant) then
    ret {| bucket := s3_bucket (storage (config tenant));
           kmsKey := encryption_key (storage (config tenant));
           prefix := "" |}
  else
    shared_bucket ← getenv "SHARED_S3_BUCKET";
    shared_key ← getenv "SHARED_KMS_KEY";
    ret {| bucket := shared_bucket;
           prefix := "tenants/" +:+ tenant_id tenant +:+ "/";
           kmsKey := shared_key |}.

(** [TenantMetricsService.trackUsage]: one console line. *)
Definition trackUsage (tenant : TenantContext) (operation : string) (value : Z) : M unit :=
  now ← Date_now;
  emit (Log_tenant_usage tenant operation value (toISOString now)).

End TenantService.

(** ** services/storageService.ts *)

Record TenantUsageMetrics := {
  dailyDataVolumeGB : Z;
  avgQueriesPerSecond : Z;
  avgCpuUtilization : Z;
  slaViolations : Z;
  monthlyDataTransferGB : Z;
}.

Section StorageService.
Context `{JSRuntime}.

Definition getTenantUsageMetrics (tenantId : string) : TenantUsageMetrics :=
  if String.eqb tenantId "acme-corp" then
    {| dailyDataVolumeGB := 150; avgQueriesPerSecond := 75; avgCpuUtilization := 85;
       slaViolations := 3; monthlyDataTransferGB := 4500 |}
  else if String.eqb tenantId "shared-tenant" then
    {| dailyDataVolumeGB := 25; avgQueriesPerSecond := 15; avgCpuUtilization := 35;
       slaViolations := 0; monthlyDataTransferGB := 750 |}
  else
    {| dailyDataVolumeGB := 45; avgQueriesPerSecond := 25; avgCpuUtilization := 45;
       slaViolations := 1; monthlyDataTransferGB := 1350 |}.

Definition shouldUseDedicatedTimescale
    (tenantContext : TenantContext) (usage : TenantUsageMetrics) : bool :=
  (100 <? dailyDataVolumeGB usage)
  || (50 <? avgQueriesPerSecond usage)
  || (5 <? slaViolations usage)
  || bool_decide (subscription_tier tenantContext = enterprise).

(** The lazily created pools.  The statements that initialise the hot store
    when its pool is created are issued on behalf of no tenant and are left
    out of the trace. *)
Definition ensurePool (p : PoolId) : M PoolId :=
  w ← get;
  (if bool_decide (p ∈ w_pools w) then ret ()
   else modify (λ w, set_pools (w_pools w ++ [p]) w));;
  ret p.

Definition getTimescalePool : M PoolId := ensurePool SharedTimescalePool.

Definition getPostgresPool : M PoolId := ensurePool SharedPostgresPool.

(** [pool.query(stmt)]: the pool runs the statement on a connection of its
    own choosing; the promise rejects when the statement fails. *)
Definition pool_query (pool : PoolId) (stmt : Statement) : M unit :=
  emit (Pool_query pool stmt);;
  w ← get;
  match w_query_fails w pool stmt with
  | Some e => throw e
  | None => ret ()
  end.

(** A promise that is not awaited and whose rejection is only logged. *)
Definition detached {A} (context : string) (m : M A) : M unit :=
  try_catch (m ;; ret ()) (λ e, emit (Log_error context (error_message e))).

Definition getTenantAwareTimescalePool (tenantContext : option TenantContext) : M PoolId :=
  match tenantContext with
  | None => getTimescalePool (* Fallback to shared pool *)
  | Some tenantContext =>
      let tenantId := tenant_id tenantContext in
      let usage := getTenantUsageMetrics tenantId in
      let needsDedicated := shouldUseDedicatedTimescale tenantContext usage in
      if needsDedicated && bool_decide (deployment_type tenantContext = single_tenant) then
        ensurePool (TenantPool tenantId)
      else
        (* Multi-tenant: use shared pool with RLS context *)
        sharedPool ← getTimescalePool;
        detached "Failed to set tenant context:"
          (pool_query sharedPool (SET_current_tenant_id tenantId));;
        ret sharedPool
  end.

Definition getTenantAwarePostgresPool (tenantContext : option TenantContext) : M PoolId :=
  match tenantContext with
  | None => getPostgresPool
  | Some tenantContext =>
      let tenantId := tenant_id tenantContext in
      sharedPool ← getPostgresPool;
      detached "Failed to set tenant context:"
        (pool_query sharedPool (SET_current_tenant_id tenantId));;
      ret sharedPool
  end.

Definition storeToTimescale (sensorData : SensorData) (tenantContext : option TenantContext)
    : M unit :=
  client ← getTenantAwareTimescalePool tenantContext;
  pool_query client
    (INSERT_sensor_data_raw
       (bool_decide (deployment_type <$> tenantContext = Some multi_tenant)) sensorData).

Definition storeToPostgres (sensorData : SensorData) (tenantContext : option TenantContext)
    : M unit :=
  client ← getTenantAwarePostgresPool tenantContext;
  _ ← Date_now;
  pool_query client (INSERT_equipment_status sensorData).

(** [s3Client.send(putCommand)]. *)
Definition s3_send (command : PutObjectCommand) : M unit :=
  emit (S3_send command);;
  w ← get;
  match w_s3_fails w command with
  | Some e => throw e
  | None => ret ()
  end.

(** The date part of a key:
    [getFullYear()/padStart(getMonth() + 1)/padStart(getDate())/padStart(getHours())]. *)
Definition date_path (date : option LocalDate) : string :=
  JS.Int_toString (FullYear <$> date)
  +:+ "/" +:+ JS.padStart0 2 (JS.Int_toString (JS.Int_add (Month <$> date) 1))
  +:+ "/" +:+ JS.padStart0 2 (JS.Int_toString (Date <$> date))
  +:+ "/" +:+ JS.padStart0 2 (JS.Int_toString (Hours <$> date)).

(** [process.env.SHARED_S3_BUCKET || process.env.S3_BUCKET_NAME || '...']. *)
Definition fallbackBucket : M string :=
  shared ← getenv "SHARED_S3_BUCKET";
  named ← getenv "S3_BUCKET_NAME";
  ret (default "up-labs-manufacturing-data" (JS.or (JS.or shared named) (Some "up-labs-manufacturing-data"))).

Definition storageConfigOf (tenantContext : option TenantContext) : M (option StorageTarget) :=
  match tenantContext with
  | Some t => c ← getStorageConfig t; ret (Some c)
  | None => ret None
  end.

Definition bucketFor (tenantContext : option TenantContext)
    (storageConfig : option StorageTarget) : M string :=
  if bool_decide (deployment_type <$> tenantContext = Some single_tenant)
     && JS.truthy (storageConfig ≫= bucket) then
    ret (default "" (storageConfig ≫= bucket))
  else fallbackBucket.

(** [storageConfig?.prefix || `tenants/${tenantContext?.tenant_id}/`]. *)
Definition tenantPrefixOf (tenantContext : option TenantContext)
    (storageConfig : option StorageTarget) : string :=
  default ""
    (JS.or (prefix <$> storageConfig)
           (Some ("tenants/" +:+ JS.show (tenant_id <$> tenantContext) +:+ "/"))).

(** Archive raw sensor data to the errors folder when processing fails. *)
Definition archiveErrorToS3 (rawSensorData : SensorData)
    (tenantContext : option TenantContext) : M S3UploadResult :=
  try_catch
    (now ← Date_now;
     let date := Date_of_ms now in
     storageConfig ← storageConfigOf tenantContext;
     epoch ← Date_now;
     let file :=
       default "" (JS.or (equipment_id rawSensorData) (Some "unknown"))
       +:+ "-" +:+ pretty epoch +:+ ".json" in
     let s3Key :=
       if bool_decide (deployment_type <$> tenantContext = Some single_tenant) then
         "errors/" +:+ date_path (Some date) +:+ "/" +:+ file
       else
         tenantPrefixOf tenantContext storageConfig
         +:+ "errors/" +:+ date_path (Some date) +:+ "/" +:+ file in
     let errorS3Data := ErrorBody rawSensorData (toISOString now) s3Key true in
     bucketName ← bucketFor tenantContext storageConfig;
     s3_send {| Bucket := bucketName;
                Key := s3Key;
                Body := errorS3Data;
                ContentType := "application/json";
                Metadata :=
                  [ ("errorType", "processing-failed");
                    ("equipmentId",
                     default "" (JS.or (equipment_id rawSensorData) (Some "unknown")));
                    ("tenantId",
                     default "" (JS.or (tenant_id <$> tenantContext) (Some "shared")));
                    ("archivedAt", toISOString now) ] |};;
     emit (Log_archived "Failed Data Archived:" s3Key bucketName);;
     ret {| up_success := true; up_key := Some s3Key; up_bucket := Some bucketName;
            up_error := None |})
    (λ e,
       emit (Log_error "Failed data archival error:" (error_message e));;
       ret {| up_success := false; up_key := None; up_bucket := None;
              up_error := Some (error_message e) |}).

(** Archive to S3 for long-term storage. *)
Definition archiveToS3 (sensorData : SensorData) (tenantContext : option TenantContext)
    : M S3UploadResult :=
  try_catch
    (let date := timestamp sensorData ≫= Date_parse in
     storageConfig ← storageConfigOf tenantContext;
     let facilityId := default "" (JS.or (facility_id sensorData) (Some "unknown-facility")) in
     let s3Key :=
       if bool_decide (deployment_type <$> tenantContext = Some single_tenant) then
         facilityId +:+ "/" +:+ JS.show (equipment_id sensorData)
         +:+ "/" +:+ date_path date
         +:+ "/" +:+ JS.show (timestamp sensorData) +:+ ".json"
       else
         tenantPrefixOf tenantContext storageConfig
         +:+ facilityId +:+ "/" +:+ JS.show (equipment_id sensorData)
         +:+ "/" +:+ date_path date
         +:+ "/" +:+ JS.show (timestamp sensorData) +:+ ".json" in
     archived ← Date_now;
     let s3Data := ArchiveBody sensorData (toISOString archived) s3Key in
     bucketName ← bucketFor tenantContext storageConfig;
     archivedAt ← Date_now;
     s3_send {| Bucket := bucketName;
                Key := s3Key;
                Body := s3Data;
                ContentType := "application/json";
                Metadata :=
                  [ ("equipmentId", JS.show (equipment_id sensorData));
                    ("tenantId",
                     default "" (JS.or (tenant_id <$> tenantContext) (Some "shared")));
                    ("sensorType", "manufacturing");
                    ("archivedAt", toISOString archivedAt) ] |};;
     emit (Log_archived "S3 Archive:" s3Key bucketName);;
     ret {| up_success := true; up_key := Some s3Key; up_bucket := Some bucketName;
            up_error := None |})
    (λ e,
       emit (Log_error "S3 upload failed:" (error_message e));;
       (* Archive the raw sensor data to errors folder for reprocessing *)
       detached "Failed to archive sensor data to errors folder:"
         (archiveErrorToS3 sensorData tenantContext);;
       ret {| up_success := false; up_key := None; up_bucket := None;
              up_error := Some (error_message e) |}).

(** One entry of [Promise.allSettled]: the promise runs to its end and its
    completion becomes a value. *)
Definition settled {A} (m : M A) : M (Completion A) :=
  λ w, let '(c, w') := m w in (Return c, w').

Definition fulfilled {A} (c : Completion A) : bool :=
  match c with Return _ => true | Throw _ => false end.

Definition rejection {A} (label : string) (c : Completion A) : M (list string) :=
  match c with
  | Return _ => ret []
  | Throw e =>
      emit (Log_error (label +:+ " storage failed:") (error_message e));;
      ret [label +:+ ": " +:+ error_toString e]
  end.

(** Multi-tier sensor data storage with tenant awareness. *)
Definition storeSensorDataMultiTier (sensorData : SensorData)
    (tenantContext : option TenantContext) : M StorageResult :=
  startTime ← Date_now;
  try_catch
    (timescaleResult ← settled (storeToTimescale sensorData tenantContext);
     postgresResult ← settled (storeToPostgres sensorData tenantContext);
     s3Result ← settled (archiveToS3 sensorData tenantContext);
     finished ← Date_now;
     f1 ← rejection "TimescaleDB" timescaleResult;
     f2 ← rejection "PostgreSQL" postgresResult;
     f3 ← rejection "S3" s3Result;
     let failures := f1 ++ f2 ++ f3 in
     (* Archive raw sensor data to errors folder if any storage failed *)
     (if bool_decide (0 < length failures)%nat then
        detached "Failed to archive sensor data to errors folder:"
          (archiveErrorToS3 sensorData tenantContext)
      else ret ());;
     ret {| timescale := fulfilled timescaleResult;
            postgres := fulfilled postgresResult;
            s3 := fulfilled s3Result;
            latency_ms := finished - startTime;
            sr_error := None |})
    (λ e,
       (* the flags still hold their initial values here: every statement
          that can throw synchronously precedes their assignment *)
       finished ← Date_now;
       ret {| timescale := false; postgres := false; s3 := false;
              latency_ms := finished - startTime;
              sr_error := Some (error_message e) |}).

End StorageService.

(** ** lambdas/ingestSensorData/handler.ts *)

Section IngestHandler.
Context `{JSRuntime}.

(** The value of the detector's [THRESHOLDS] when the request is served. *)
Variable TH : Thresholds.

(** [v.toString(16)] for one hexadecimal digit. *)
Definition hex_digit (v : Z) : ascii :=
  default "?"%char (list_ascii_of_string "0123456789abcdef" !! Z.to_nat v).

(** ['xxxxxxxx-xxxx-4xxx-yxxx-xxxxxxxxxxxx'.replace(/[xy]/g, ..)]: one draw
    per replaced character, from left to right. *)
Fixpoint fill_template (template : string) : M string :=
  match template with
  | EmptyString => ret EmptyString
  | String c rest =>
      if Ascii.eqb c "x" || Ascii.eqb c "y" then
        r ← Math_random16;
        let v := if Ascii.eqb c "x" then r else Z.lor (Z.land r 3) 8 in
        tail ← fill_template rest;
        ret (String (hex_digit v) tail)
      else
        tail ← fill_template rest;
        ret (String c tail)
  end.

Definition generateUUID : M string :=
  fill_template "xxxxxxxx-xxxx-4xxx-yxxx-xxxxxxxxxxxx".

Definition response_headers : list (string * string) :=
  [ ("Content-Type", "application/json"); ("Access-Control-Allow-Origin", "*") ].

Definition createSuccessResponse (d : SuccessData) : M APIGatewayProxyResult :=
  now ← Date_now;
  ret {| statusCode := 200;
         r_headers := response_headers;
         r_body := {| success := true; data := Some d; error := None; details := None;
                      r_timestamp := toISOString now |} |}.

Definition createErrorResponse (code : Z) (err : string) (dets : option (list string))
    : M APIGatewayProxyResult :=
  now ← Date_now;
  ret {| statusCode := code;
         r_headers := response_headers;
         r_body := {| success := false; data := None; error := Some err; details := dets;
                      r_timestamp := toISOString now |} |}.

(** [a.severity === 'critical' || a.severity === 'high']. *)
Definition alertable (a : Anomaly) : bool :=
  bool_decide (a_severity a = critical) || bool_decide (a_severity a = high).

(** [{ ...sensorData, ingestionTimestamp, source }]. *)
Definition enrich (sensorData : SensorData) (ingestion src : string) : SensorData :=
  {| equipment_id := equipment_id sensorData;
     timestamp := timestamp sensorData;
     temperature := temperature sensorData;
     vibration := vibration sensorData;
     pressure := pressure sensorData;
     power_consumption := power_consumption sensorData;
     facility_id := facility_id sensorData;
     line_id := line_id sensorData;
     ingestionTimestamp := Some ingestion;
     source := Some src;
     hasAnomalies := hasAnomalies sensorData;
     anomalies := anomalies sensorData |}.

(** [enrichedData.anomalies = anomalies; enrichedData.hasAnomalies = true]. *)
Definition attach (enrichedData : SensorData) (found : list Anomaly) : SensorData :=
  {| equipment_id := equipment_id enrichedData;
     timestamp := timestamp enrichedData;
     temperature := temperature enrichedData;
     vibration := vibration enrichedData;
     pressure := pressure enrichedData;
     power_consumption := power_consumption enrichedData;
     facility_id := facility_id enrichedData;
     line_id := line_id enrichedData;
     ingestionTimestamp := ingestionTimestamp enrichedData;
     source := source enrichedData;
     hasAnomalies := Some true;
     anomalies := Some found |}.

(** The imported [detectAnomalies], with its call and its console line on
    the trace. *)
Definition call_detectAnomalies (reading : SensorData) : M (list Anomaly) :=
  emit (Call_detectAnomalies reading);;
  match detectAnomalies_log TH reading with
  | Some line => emit (Log_critical_anomalies line)
  | None => ret ()
  end;;
  ret (detectAnomalies TH reading).

(** The body of the [for] loop over the critical and high anomalies.
    [publishAlert] and [processCriticalAlert] catch every error of their own
    and their promises never reject, so each is a call on the trace. *)
Fixpoint raise_alerts (processingLatency : Z) (todo : list Anomaly) : M unit :=
  match todo with
  | [] => ret ()
  | anomaly :: rest =>
      uuid ← generateUUID;
      let alert := {| alert_id := uuid;
                      al_equipment_id := a_equipment_id anomaly;
                      al_type := a_type anomaly;
                      al_severity := a_severity anomaly;
                      al_message := a_message anomaly;
                      al_timestamp := a_timestamp anomaly;
                      acknowledged := false;
                      resolved := false;
                      processing_latency_ms := processingLatency |} in
      emit (Call_publishAlert "manufacturing-alerts-priority" alert);;
      emit (Call_processCriticalAlert alert anomaly);;
      raise_alerts processingLatency rest
  end.

Definition handler (event : APIGatewayProxyEvent) : M APIGatewayProxyResult :=
  withTenantContext event (λ tenantContext event,
    startTime ← Date_now;
    try_catch
      ((* Track tenant usage *)
       trackUsage tenantContext "sensor-data-ingestion" 1;;
       (* Parse the incoming payload *)
       match JSON_parse_reading (default "{}" (JS.or (body event) (Some "{}"))) with
       | inl msg => throw (SyntaxError msg)
       | inr sensorData =>
           (* Fast validation - only check critical fields *)
           if negb (JS.truthy (equipment_id sensorData))
              || negb (JS.truthy (timestamp sensorData)) then
             createErrorResponse 400 "Missing required fields: equipment_id, timestamp" None
           else
             (* Enrich with metadata *)
             ingestion ← Date_now;
             let enrichedData := enrich sensorData (toISOString ingestion) "iot-webhook" in
             (* CRITICAL PATH: Detect anomalies first *)
             found ← call_detectAnomalies enrichedData;
             afterDetection ← Date_now;
             let processingLatency := afterDetection - startTime in
             let enrichedData :=
               if bool_decide (0 < length found)%nat then attach enrichedData found
               else enrichedData in
             (if bool_decide (0 < length found)%nat then
                raise_alerts processingLatency (filter (λ a, alertable a = true) found)
              else ret ());;
             (* BACKGROUND TASKS: launched, not awaited *)
             emit (Launch_storeSensorDataMultiTier enrichedData tenantContext);;
             emit (Launch_publishSensorData "sensor-data" enrichedData);;
             finished ← Date_now;
             let totalLatency := finished - startTime in
             emit (Log_processed (equipment_id sensorData) totalLatency);;
             createSuccessResponse
               {| sd_message := "Sensor data ingested successfully";
                  sd_equipment_id := equipment_id sensorData;
                  sd_timestamp := ingestionTimestamp enrichedData;
                  sd_anomalies_detected := length found;
                  sd_alerts_created := length (filter (λ a, alertable a = true) found);
                  sd_processing_latency_ms := totalLatency;
                  sd_sla_compliant := totalLatency <? 500 |}
       end)
      (λ e,
         emit (Log_error "Error processing sensor data:" (error_message e));;
         createErrorResponse 500 "Internal server error" (Some [error_message e]))).

End IngestHandler.

(** ** services/storageService.ts: what the pool does with a query

    [pool.query] belongs to the database client library.  Its contract, as
    far as the storage service relies on it: the pool owns some connections,
    each with its own session variable [app.current_tenant_id], and runs every
    query it is handed on one connection of its own choosing. *)

Module PgPool.

(** The connections of a pool: the session variable of each. *)
Definition Connections := list (option string).

(** The effect on the pool of running a statement on connection [i]: a
    [SET] sets the session variable of that connection, unless the statement
    is one the database rejects, which changes nothing.  [fails] says which
    statements are rejected, as the world does for a pool. *)
Definition run (fails : Statement → option JSError) (conns : Connections) (i : nat)
    (stmt : Statement) : Connections :=
  match stmt, fails stmt with
  | SET_current_tenant_id tenantId, None => <[i := Some tenantId]> conns
  | _, _ => conns
  end.

(** One served query: the connection picked, the statement, and the value
    the session variable of that connection had when the statement ran. *)
Record Served := {
  connection : nat;
  statement : Statement;
  session : option string;
}.

(** The pool serves the queries in the order they were issued. *)
Inductive serves (fails : Statement → option JSError)
    : Connections → list Statement → list Served → Prop :=
| serves_done conns :
    serves fails conns [] []
| serves_next conns i stmt var rest log :
    conns !! i = Some var →
    serves fails (run fails conns i stmt) rest log →
    serves fails conns (stmt :: rest)
           ({| connection := i; statement := stmt; session := var |} :: log).

(** The statements a trace sends to a given pool, in order. *)
Definition queries_to (pool : PoolId) (trace : list Event) : list Statement :=
  omap (λ e, match e with
             | Pool_query p stmt => if decide (p = pool) then Some stmt else None
             | _ => None
             end) trace.

End PgPool.

(** ** services/anomalyService.ts: overall severity and threshold updates *)

Definition assessOverallSeverity (anomalies : list Anomaly) : Severity :=
  if existsb (λ a, bool_decide (a_severity a = critical)) anomalies then critical
  else if existsb (λ a, bool_decide (a_severity a = high)) anomalies then high
  else if existsb (λ a, bool_decide (a_severity a = medium)) anomalies then medium
  else low.

(** [Partial<typeof THRESHOLDS>]: each band is given whole or is absent. *)
Record PartialThresholds := {
  new_temperature : option Band;
  new_vibration : option Band;
  new_pressure : option Band;
}.

(** [Object.assign(THRESHOLDS, newThresholds)]: the module-level object
    after the call, which is also what the console line prints. *)
Definition updateThresholds (newThresholds : PartialThresholds) (TH : Thresholds)
    : Thresholds := {|
  th_temperature := default (th_temperature TH) (new_temperature newThresholds);
  th_vibration := default (th_vibration TH) (new_vibration newThresholds);
  th_pressure := default (th_pressure TH) (new_pressure newThresholds);
|}.

(** ** services/tenantService.ts: configuration and limits *)

Record KafkaTopics := {
  kt_sensorData : string;
  kt_alerts : string;
  kt_shared : option string;
}.

Record KafkaConfig := {
  topics : KafkaTopics;
  partitions : Z;
  replicationFactor : Z;
}.

(** [TenantConfigService.getKafkaConfig]. *)
Definition getKafkaConfig (tenant : TenantContext) : KafkaConfig := {|
  topics := {|
    kt_sensorData := "sensor-data-" +:+ tenant_id tenant;
    kt_alerts := "alerts-" +:+ tenant_id tenant;
    kt_shared :=
      if decide (deployment_type tenant = multi_tenant) then Some "manufacturing-shared"
      else None |};
  partitions := if decide (subscription_tier tenant = enterprise) then 10 else 3;
  replicationFactor := if decide (deployment_type tenant = single_tenant) then 3 else 2;
|}.

(** The [limits] object of [checkLimits], read at [operation]: [None] is
    [undefined].  Under a property name every object inherits the value read
    is a function, which compares as [NaN]; the result is the same as for
    [undefined]. *)
Definition limits (tenant : TenantContext) (operation : string) : option Z :=
  if String.eqb operation "equipment-count" then Some (max_equipment tenant)
  else if String.eqb operation "api-requests-per-hour" then
    Some (api_rate_limit (features (config tenant)))
  else if String.eqb operation "concurrent-users" then
    Some (concurrent_users (features (config tenant)))
  else None.

(** [TenantMetricsService.checkLimits]: the answer and the console line, if
    any.  A limit of [0] is falsy. *)
Definition checkLimits (tenant : TenantContext) (operation : string) (currentValue : Z)
    : bool * option string :=
  match limits tenant operation with
  | Some limit =>
      if negb (limit =? 0) && (limit <=? currentValue) then
        (false,
         Some ("Tenant " +:+ tenant_id tenant +:+ " exceeded limit for " +:+ operation
               +:+ ": " +:+ pretty currentValue +:+ "/" +:+ pretty limit))
      else (true, None)
  | None => (true, None)
  end.

(** ** services/storageService.ts: the deduplication hash *)

(** The signed 32-bit integer a bitwise operator makes of an integer. *)
Definition ToInt32 (z : Z) : Z := (z + 2 ^ 31) `mod` 2 ^ 32 - 2 ^ 31.

(** [a << k] and [a & b]. *)
Definition shl (a k : Z) : Z := ToInt32 (Z.shiftl (ToInt32 a) k).

Definition band (a b : Z) : Z := Z.land (ToInt32 a) (ToInt32 b).

(** [s.charCodeAt(i)] for every [i] below [s.length]: the UTF-16 code units
    of the text.  A text of the embedding holds its characters in UTF-8, so
    the units are decoded from its bytes: one unit for a character of one,
    two or three bytes, a pair of surrogates for a character of four.  Bytes
    that end in the middle of a character, which no text has, decode to the
    replacement character. *)
Fixpoint code_units (bytes : list Z) : list Z :=
  match bytes with
  | [] => []
  | b :: rest =>
      if b <? 128 then b :: code_units rest
      else if b <? 224 then
        match rest with
        | c1 :: rest =>
            Z.lor (Z.shiftl (Z.land b 31) 6) (Z.land c1 63) :: code_units rest
        | _ => [65533]
        end
      else if b <? 240 then
        match rest with
        | c1 :: c2 :: rest =>
            Z.lor (Z.shiftl (Z.land b 15) 12)
                  (Z.lor (Z.shiftl (Z.land c1 63) 6) (Z.land c2 63))
            :: code_units rest
        | _ => [65533]
        end
      else
        match rest with
        | c1 :: c2 :: c3 :: rest =>
            let point :=
              Z.lor (Z.shiftl (Z.land b 7) 18)
                    (Z.lor (Z.shiftl (Z.land c1 63) 12)
                           (Z.lor (Z.shiftl (Z.land c2 63) 6) (Z.land c3 63))) in
            (55296 + Z.shiftr (point - 65536) 10)
            :: (56320 + Z.land (point - 65536) 1023)
            :: code_units rest
        | _ => [65533]
        end
  end.

Definition charCodes (s : string) : list Z :=
  code_units ((λ c, Z.of_nat (nat_of_ascii c)) <$> list_ascii_of_string s).

(** The body of the [for] loop. *)
Definition hash_step (hash char : Z) : Z :=
  let hash := (shl hash 5 - hash) + char in
  band hash hash.

Definition hash_loop (hashInput : string) : Z :=
  fold_left hash_step (charCodes hashInput) 0.

(** [n.toString(36)] for an integer. *)
Definition digit36 (d : Z) : ascii :=
  default "?"%char
    (list_ascii_of_string "0123456789abcdefghijklmnopqrstuvwxyz" !! Z.to_nat d).

Fixpoint digits36 (fuel : nat) (n : Z) (acc : string) : string :=
  match fuel with
  | O => acc
  | S fuel =>
      let acc := String (digit36 (n `mod` 36)) acc in
      if n / 36 =? 0 then acc else digits36 fuel (n / 36) acc
  end.

Definition Z_toString36 (n : Z) : string :=
  if n <? 0 then "-" +:+ digits36 (S (Z.to_nat (Z.log2 (- n)))) (- n) ""
  else digits36 (S (Z.to_nat (Z.log2 n))) n "".

Section DataHash.
Context `{JSRuntime}.

(** A possibly undefined number inside a template literal. *)
Definition show_number (o : option Q) : string :=
  match o with
  | Some q => Number_toString q
  | None => "undefined"
  end.

Definition hashInput (sensorData : SensorData) : string :=
  JS.show (equipment_id sensorData) +:+ "-" +:+ JS.show (timestamp sensorData)
  +:+ "-" +:+ show_number (temperature sensorData)
  +:+ "-" +:+ show_number (vibration sensorData)
  +:+ "-" +:+ show_number (pressure sensorData).

Definition generateDataHash (sensorData : SensorData) : string :=
  Z_toString36 (hash_loop (hashInput sensorData)).

End DataHash.

(** ** lambdas/ingestSensorData/handler.ts: full validation

    [validateSensorData] takes [data: any].  At the type [SensorData] the
    four [typeof .. !== 'number'] tests are false for every reading and add
    no error; they are left out. *)

Record ValidationResult := {
  isValid : bool;
  errors : list string;
}.

Section Validation.
Context `{JSRuntime}.

(** [isNaN(Date.parse(s))]. *)
Definition isNaN_Date_parse (s : string) : bool :=
  match Date_parse s with
  | Some _ => false
  | None => true
  end.

Definition validateSensorData (data : SensorData) : ValidationResult :=
  let errors :=
    (if negb (JS.truthy (equipment_id data)) then ["equipment_id is required"] else [])
    ++ (if negb (JS.truthy (timestamp data)) then ["timestamp is required"] else [])
    (* Validate timestamp format *)
    ++ (if JS.truthy (timestamp data) && isNaN_Date_parse (default "" (timestamp data))
        then ["timestamp must be a valid ISO string"] else [])
    (* Range validation *)
    ++ match temperature data with
       | Some t =>
           if JS.lt t (-273) || JS.gt t 1000
           then ["temperature out of valid range (-273 to 1000)"] else []
       | None => []
       end
    ++ match vibration data with
       | Some v =>
           if JS.lt v 0 || JS.gt v 100
           then ["vibration out of valid range (0 to 100)"] else []
       | None => []
       end
    ++ match pressure data with
       | Some p =>
           if JS.lt p 0 || JS.gt p 10000
           then ["pressure out of valid range (0 to 10000)"] else []
       | None => []
       end in
  {| isValid := bool_decide (length errors = 0%nat); errors := errors |}.

End Validation.

(** ** lambdas/getEquipmentStatus/handler.ts: health of an equipment *)

Inductive EquipmentStatus := ONLINE | OFFLINE | MAINTENANCE | ERROR | IDLE.

#[global] Instance EquipmentStatus_eq_dec : EqDecision EquipmentStatus.
Proof. solve_decision. Defined.

(** Of an [Equipment] record the status handler reads the status only; the
    descriptive properties besides the identity are left out. *)
Record Equipment := {
  e_equipment_id : string;
  e_name : string;
  e_status : EquipmentStatus;
}.

Inductive HealthStatus :=
| health_healthy
| health_warning
| health_critical
| health_offline.

(** [Math.floor((Date.now() - new Date(currentReading.timestamp).getTime())
    / 60000)], given the time value of the reading's timestamp; [None] is
    [NaN], the time value of an invalid date. *)
Definition minutes_since (now : Z) (time : JS.Int) : JS.Int :=
  (λ t, (now - t) / 60000) <$> time.

(** [lastReadingAge] is [null] when there is no reading and [NaN] when its
    timestamp is no date; both are falsy, and so is [0]. *)
Definition determineHealthStatus (equipment : Equipment)
    (currentReading : option SensorData) (lastReadingAge : JS.Int) : HealthStatus :=
  (* Equipment is offline *)
  if bool_decide (e_status equipment = OFFLINE) || bool_decide (e_status equipment = ERROR)
  then health_offline
  else
    (* No recent data *)
    match currentReading, lastReadingAge with
    | Some currentReading, Some age =>
        if (age =? 0) || (60 <? age) then health_offline
        else
          let hasWarnings :=
            match temperature currentReading with
            | Some t => JS.gt t 150 | None => false end
            || match vibration currentReading with
               | Some v => JS.gt v 2 | None => false end
            || match pressure currentReading with
               | Some p => JS.gt p 500 || JS.lt p 50 | None => false end in
          let hasCritical :=
            match temperature currentReading with
            | Some t => JS.gt t 180 | None => false end
            || match vibration currentReading with
               | Some v => JS.gt v 5 | None => false end
            || match pressure currentReading with
               | Some p => JS.gt p 800 | None => false end in
          if hasCritical then health_critical
          else if hasWarnings then health_warning
          else health_healthy
    | _, _ => health_offline
    end.

(** ** lambdas/getEquipmentMetrics/handler.ts: the fast alert handler *)

Record UltraFastAlert := {
  uf_alert_id : string;
  uf_equipment_id : option string;
  uf_type : string;
  uf_severity : Severity;
  uf_message : string;
  uf_timestamp : option string;
  uf_processing_latency_ms : Z;
}.

Section UltraFastAlerts.
Context `{JSRuntime}.

(** [Math.random().toString(36).substr(2)] for the successive draws of the
    generator. *)
Variable random_text : nat → string.

(** [Date.now().toString(36) + Math.random().toString(36).substr(2)]. *)
Definition generateFastUUID : M string :=
  now ← Date_now;
  w ← get;
  modify (set_draws (S (w_draws w)));;
  ret (Z_toString36 now +:+ random_text (w_draws w)).

(** The properties of each object literal are evaluated in their order:
    the identifier first, the latency last. *)
Definition detectCriticalAnomaliesInline (data : SensorData) (startTime : Z)
    : M (list UltraFastAlert) :=
  (* Critical temperature (>180°C) *)
  hot ← match temperature data with
        | Some t =>
            if JS.gt t 180 then
              id ← generateFastUUID;
              now ← Date_now;
              ret [ {| uf_alert_id := id;
                       uf_equipment_id := equipment_id data;
                       uf_type := "critical_temperature";
                       uf_severity := critical;
                       uf_message := "CRITICAL: Temperature " +:+ Number_toString t
                                     +:+ "°C exceeds limit";
                       uf_timestamp := timestamp data;
                       uf_processing_latency_ms := now - startTime |} ]
            else ret []
        | None => ret []
        end;
  (* Critical vibration (>5.0) *)
  shaking ← match vibration data with
            | Some v =>
                if JS.gt v 5 then
                  id ← generateFastUUID;
                  now ← Date_now;
                  ret [ {| uf_alert_id := id;
                           uf_equipment_id := equipment_id data;
                           uf_type := "critical_vibration";
                           uf_severity := critical;
                           uf_message := "CRITICAL: Vibration " +:+ Number_toString v
                                         +:+ " exceeds limit";
                           uf_timestamp := timestamp data;
                           uf_processing_latency_ms := now - startTime |} ]
                else ret []
            | None => ret []
            end;
  (* Critical pressure (>800 PSI) *)
  pressed ← match pressure data with
            | Some p =>
                if JS.gt p 800 then
                  id ← generateFastUUID;
                  now ← Date_now;
                  ret [ {| uf_alert_id := id;
                           uf_equipment_id := equipment_id data;
                           uf_type := "critical_pressure";
                           uf_severity := critical;
                           uf_message := "CRITICAL: Pressure " +:+ Number_toString p
                                         +:+ " PSI exceeds limit";
                           uf_timestamp := timestamp data;
                           uf_processing_latency_ms := now - startTime |} ]
                else ret []
            | None => ret []
            end;
  ret (hot ++ shaking ++ pressed).

End UltraFastAlerts.

(** ** services/alertNotificationService.ts *)

Definition Severity_value (s : Severity) : string :=
  match s with
  | low => "low"
  | medium => "medium"
  | high => "high"
  | critical => "critical"
  end.

(** The three lookup tables are read at [alert.severity], [alert.type] and
    [anomaly.type], members of the enumerations. *)
Definition getSeverityScore (s : Severity) : Z :=
  match s with
  | critical => 4
  | high => 3
  | medium => 2
  | low => 1
  end.

Definition getSensorMetricName (anomalyType : AnomalyType) : string :=
  match anomalyType with
  | CRITICAL_TEMPERATURE | HIGH_TEMPERATURE => "Equipment.Temperature"
  | CRITICAL_VIBRATION | HIGH_VIBRATION => "Equipment.Vibration"
  | CRITICAL_PRESSURE | ABNORMAL_PRESSURE => "Equipment.Pressure"
  | POWER_SPIKE => "Equipment.PowerConsumption"
  | EQUIPMENT_OFFLINE => "Equipment.Unknown"
  end.

(** Every entry of the table of units is [StandardUnit.None]. *)
Definition getSensorUnit (anomalyType : AnomalyType) : string := "None".

Definition nl : string := String (ascii_of_nat 10) EmptyString.

Definition getRecommendedActions (alertType : AnomalyType) : string :=
  match alertType with
  | CRITICAL_TEMPERATURE =>
      "   • Immediately shut down equipment" +:+ nl +:+ "   • Check cooling system"
      +:+ nl +:+ "   • Inspect for blockages"
  | CRITICAL_VIBRATION =>
      "   • Stop operation immediately" +:+ nl +:+ "   • Check bearing alignment"
      +:+ nl +:+ "   • Inspect for loose components"
  | CRITICAL_PRESSURE =>
      "   • Verify pressure relief valves" +:+ nl +:+ "   • Check for leaks"
      +:+ nl +:+ "   • Inspect pressure sensors"
  | EQUIPMENT_OFFLINE =>
      "   • Check network connectivity" +:+ nl +:+ "   • Verify power supply"
      +:+ nl +:+ "   • Contact maintenance team"
  | POWER_SPIKE =>
      "   • Check electrical connections" +:+ nl +:+ "   • Inspect for power supply issues"
      +:+ nl +:+ "   • Review load capacity"
  | _ =>
      "   • Contact maintenance team immediately" +:+ nl
      +:+ "   • Follow standard safety procedures"
  end.

(** [Timestamp] is the [Date] made of a timestamp text, kept as that text. *)
Record MetricDatum := {
  MetricName : string;
  Value : Q;
  Unit : string;
  Dimensions : list (string * option string);
  Timestamp : option string;
}.

Record PutMetricDataCommand := {
  Namespace : string;
  MetricData : list MetricDatum;
}.

Record PublishCommand := {
  TopicArn : string;
  Subject : string;
  Message : string;
  MessageAttributes : list (string * option string);
}.

Record ServiceAlertResult := {
  n_success : bool;
  channels_notified : list string;
  cloudwatch : bool;
  sns : bool;
  n_latency_ms : Z;
  n_error : option string;
}.

(** What a notification leaves behind: its calls to the two clients and its
    console lines. *)
Inductive NotifyEvent :=
| CloudWatch_send (command : PutMetricDataCommand)
| SNS_send (command : PublishCommand)
| Console_log (line : string)
| Console_warn (line : string)
| Console_error (context message : string).

Section AlertNotificationService.
Context `{JSRuntime}.

(** The process the service runs in: its environment, the two readings of
    the clock [processCriticalAlert] takes, and what the clients answer
    ([inr] is the [MessageId] of a published message). *)
Variable env : gmap string string.
Variable clock : nat → Z.
Variable cloudWatch_fails : PutMetricDataCommand → option JSError.
Variable sns_answers : PublishCommand → JSError + string.

(** Built-ins that format for a locale or round:
    [new Date(s).toLocaleString()], [s.toUpperCase()] and
    [((value / threshold - 1) * 100).toFixed(1)], the last also where the
    quotient is not finite. *)
Variable toLocaleString : option string → string.
Variable toUpperCase : string → string.
Variable deviation_toFixed1 : Q → Q → string.

Definition formatAlertMessage (alert : Alert) (anomaly : option Anomaly) : string :=
  "CRITICAL MANUFACTURING ALERT" +:+ nl +:+ nl
  +:+ "🚨 Alert ID: " +:+ alert_id alert +:+ nl
  +:+ "🏭 Equipment: " +:+ JS.show (al_equipment_id alert) +:+ nl
  +:+ "⚠️  Severity: " +:+ toUpperCase (Severity_value (al_severity alert)) +:+ nl
  +:+ "📅 Time: " +:+ toLocaleString (al_timestamp alert) +:+ nl
  +:+ "📝 Message: " +:+ al_message alert +:+ nl +:+ nl
  +:+ match anomaly with
      | Some anomaly =>
          "📊 SENSOR DETAILS:" +:+ nl
          +:+ "   • Metric: " +:+ AnomalyType_value (a_type anomaly) +:+ nl
          +:+ "   • Value: " +:+ Number_toString (a_value anomaly) +:+ nl
          +:+ "   • Threshold: " +:+ Number_toString (a_threshold anomaly) +:+ nl
          +:+ "   • Deviation: "
          +:+ deviation_toFixed1 (a_value anomaly) (a_threshold anomaly)
          +:+ "%" +:+ nl +:+ nl
      | None => ""
      end
  +:+ "🔧 RECOMMENDED ACTIONS:" +:+ nl
  +:+ getRecommendedActions (al_type alert)
  +:+ nl +:+ nl +:+ "🔗 View in Dashboard: " +:+ JS.show (env !! "DASHBOARD_URL")
  +:+ "/equipment/" +:+ JS.show (al_equipment_id alert).

Definition alert_metrics (alert : Alert) (anomaly : option Anomaly) : list MetricDatum :=
  (* Alert count metric *)
  [ {| MetricName := "CriticalAlerts";
       Value := 1;
       Unit := "Count";
       Dimensions :=
         [ ("EquipmentId", al_equipment_id alert);
           ("Severity", Some (Severity_value (al_severity alert)));
           ("AlertType", Some (AnomalyType_value (al_type alert))) ];
       Timestamp := al_timestamp alert |};
    (* Equipment status metric *)
    {| MetricName := "EquipmentHealth";
       Value := inject_Z (getSeverityScore (al_severity alert));
       Unit := "None";
       Dimensions :=
         [ ("EquipmentId", al_equipment_id alert); ("FacilityId", Some "unknown") ];
       Timestamp := al_timestamp alert |} ]
  (* If anomaly data is available, send sensor value metrics *)
  ++ match anomaly with
     | Some anomaly =>
         [ {| MetricName := getSensorMetricName (a_type anomaly);
              Value := a_value anomaly;
              Unit := getSensorUnit (a_type anomaly);
              Dimensions :=
                [ ("EquipmentId", a_equipment_id anomaly);
                  ("Threshold", Some (Number_toString (a_threshold anomaly))) ];
              Timestamp := a_timestamp anomaly |} ]
     | None => []
     end.

(** Publish critical alert metrics to CloudWatch. *)
Definition publishToCloudWatch (alert : Alert) (anomaly : option Anomaly)
    : Completion unit * list NotifyEvent :=
  let metrics := alert_metrics alert anomaly in
  let command := {| Namespace := "Manufacturing/Alerts"; MetricData := metrics |} in
  match cloudWatch_fails command with
  | None =>
      (Return (),
       [ CloudWatch_send command;
         Console_log ("✅ CloudWatch metrics sent: " +:+ pretty (length metrics)
                      +:+ " metrics for " +:+ JS.show (al_equipment_id alert)) ])
  | Some e =>
      (Throw e,
       [ CloudWatch_send command;
         Console_error "❌ Failed to send CloudWatch metrics:" (error_message e) ])
  end.

(** Send SNS notification for critical alerts. *)
Definition sendSNSNotification (alert : Alert) (anomaly : option Anomaly)
    : Completion unit * list NotifyEvent :=
  let topicArn := JS.or (env !! "ALERTS_TOPIC_ARN") (env !! "CRITICAL_ALERTS_SNS_TOPIC") in
  if negb (JS.truthy topicArn) then
    (Return (),
     [ Console_warn "⚠️  No SNS topic ARN configured, skipping SNS notification" ])
  else
    let topicArn := default "" topicArn in
    let command := {|
      TopicArn := topicArn;
      Subject := "🚨 CRITICAL ALERT: " +:+ AnomalyType_value (al_type alert)
                 +:+ " - Equipment " +:+ JS.show (al_equipment_id alert);
      Message := formatAlertMessage alert anomaly;
      MessageAttributes :=
        [ ("alert_id", Some (alert_id alert));
          ("equipment_id", al_equipment_id alert);
          ("severity", Some (Severity_value (al_severity alert)));
          ("alert_type", Some (AnomalyType_value (al_type alert))) ] |} in
    match sns_answers command with
    | inr messageId =>
        (Return (),
         [ SNS_send command;
           Console_log ("✅ SNS Alert sent to " +:+ topicArn +:+ " (MessageId: "
                        +:+ messageId +:+ ")");
           Console_log ("📧 Subject: " +:+ Subject command) ])
    | inl e =>
        (Throw e,
         [ SNS_send command;
           Console_error "❌ Failed to send SNS notification:" (error_message e) ])
    end.

(** Critical alert processing and notification.  [Promise.allSettled] never
    rejects and nothing else inside the [try] can throw, so the [catch] block
    is not reached and [error] stays unset.  The two notifications run
    concurrently; their events are listed one notification after the other. *)
Definition processCriticalAlert (alert : Alert) (anomaly : option Anomaly)
    : ServiceAlertResult * list NotifyEvent :=
  let startTime := clock 0 in
  let '(cloudwatchResult, sent_metrics) := publishToCloudWatch alert anomaly in
  let '(snsResult, sent_message) := sendSNSNotification alert anomaly in
  let finished := clock 1 in
  ({| cloudwatch := fulfilled cloudwatchResult;
      sns := fulfilled snsResult;
      n_success := fulfilled cloudwatchResult && fulfilled snsResult;
      channels_notified :=
        (if fulfilled cloudwatchResult then ["cloudwatch"] else [])
        ++ (if fulfilled snsResult then ["sns"] else []);
      n_latency_ms := finished - startTime;
      n_error := None |},
   sent_metrics ++ sent_message
   (* Log failures for monitoring *)
   ++ match cloudwatchResult with
      | Throw e => [ Console_error "CloudWatch metric failed:" (error_message e) ]
      | Return _ => []
      end
   ++ match snsResult with
      | Throw e => [ Console_error "SNS notification failed:" (error_message e) ]
      | Return _ => []
      end).

End AlertNotificationService.

(** ** Vocabulary of the statements *)

Definition set_power_consumption (p : option Q) (r : SensorData) : SensorData :=
  {| equipment_id := equipment_id r;
     timestamp := timestamp r;
     temperature := temperature r;
     vibration := vibration r;
     pressure := pressure r;
     power_consumption := p;
     facility_id := facility_id r;
     line_id := line_id r;
     ingestionTimestamp := ingestionTimestamp r;
     source := source r;
     hasAnomalies := hasAnomalies r;
     anomalies := anomalies r |}.

(** The anomaly a detector builds for reading [r]; the message aside. *)
Definition is_anomaly_of (r : SensorData) (a : Anomaly)
    (ty : AnomalyType) (sev : Severity) (v thr : Q) : Prop :=
  a_type a = ty ∧ a_severity a = sev ∧ a_value a = v ∧ a_threshold a = thr
  ∧ a_equipment_id a = equipment_id r ∧ a_timestamp a = timestamp r.

(** The first truthy string of a fallback chain. *)
Fixpoint first_hit (sources : list (option string)) : option string :=
  match sources with
  | [] => None
  | o :: rest => if JS.truthy o then o else first_hit rest
  end.

(** The part of a string before the first occurrence of a character (the
    whole string when there is none), and whether the character occurs. *)
Fixpoint before_first (c : ascii) (s : string) : string :=
  match s with
  | EmptyString => EmptyString
  | String a s' => if Ascii.eqb a c then EmptyString else String a (before_first c s')
  end.

Fixpoint occurs (c : ascii) (s : string) : bool :=
  match s with
  | EmptyString => false
  | String a s' => Ascii.eqb a c || occurs c s'
  end.

Section TenantSources.
Context `{JSRuntime}.

(** The five places a tenant identifier is looked for, in the order of the
    resolver's comment. *)
Definition tenant_header (event : APIGatewayProxyEvent) : option string :=
  first_hit [header event "X-Tenant-ID"; header event "x-tenant-id"].

Definition jwt_claim (event : APIGatewayProxyEvent) : option string :=
  match header event "Authorization" with
  | Some auth => if JS.truthy (Some auth) then extractFromJWT auth else None
  | None => None
  end.

Definition host_subdomain (event : APIGatewayProxyEvent) : option string :=
  match header event "Host" with
  | Some host => if JS.truthy (Some host) then extractFromSubdomain host else None
  | None => None
  end.

Definition query_parameter (event : APIGatewayProxyEvent) : option string :=
  query event "tenant_id".

Definition api_key_prefix (event : APIGatewayProxyEvent) : option string :=
  match first_hit [header event "X-API-Key"; header event "x-api-key"] with
  | Some apiKey => if occurs "_" apiKey then Some (before_first "_" apiKey) else None
  | None => None
  end.

(** The request names no tenant in any of the five places. *)
Definition no_tenant_identifier (event : APIGatewayProxyEvent) : Prop :=
  JS.truthy (tenant_header event) = false
  ∧ JS.truthy (jwt_claim event) = false
  ∧ JS.truthy (host_subdomain event) = false
  ∧ JS.truthy (query_parameter event) = false
  ∧ JS.truthy (api_key_prefix event) = false.

End TenantSources.

(** Every pending timer is the timer of an entry that is in the cache, and
    no tenant has two: what holds of the cache and its timers when nothing
    but [resolveTenant] and the passing of time touches them. *)
Definition timers_consistent (w : World) : Prop :=
  NoDup (key <$> w_timers w)
  ∧ ∀ t, t ∈ w_timers w → is_Some (w_tenantCache w !! key t).

(** The events a run appended to the trace. *)
Definition appended (w w' : World) (events : list Event) : Prop :=
  w_trace w' = w_trace w ++ events.

(** Work downstream of validation: detection, alerting, storage and
    publishing. *)
Definition downstream (e : Event) : bool :=
  match e with
  | Call_detectAnomalies _ | Call_publishAlert _ _ | Call_processCriticalAlert _ _
  | Launch_storeSensorDataMultiTier _ _ | Launch_publishSensorData _ _
  | Pool_query _ _ | S3_send _ => true
  | _ => false
  end.


(** The layout of a cold-tier key, in the words of the design: the date
    components as decimal numbers, month, day and hour padded to two digits. *)
Definition two_digits (n : Z) : string := JS.padStart0 2 (pretty n).

Definition date_part (d : LocalDate) : string :=
  pretty (FullYear d) +:+ "/" +:+ two_digits (Month d + 1)
  +:+ "/" +:+ two_digits (Date d) +:+ "/" +:+ two_digits (Hours d).

Definition cold_key (root facility equipment : string) (d : LocalDate) (ts : string)
    : string :=
  root +:+ facility +:+ "/" +:+ equipment +:+ "/" +:+ date_part d
  +:+ "/" +:+ ts +:+ ".json".

(** The key of a reading whose timestamp is no date: the getters of an
    invalid [Date] return [NaN], which is what each of the four date
    components then reads. *)
Definition undated_key (root facility equipment ts : string) : string :=
  root +:+ facility +:+ "/" +:+ equipment +:+ "/NaN/NaN/NaN/NaN/" +:+ ts +:+ ".json".

(** [facility_id], or [unknown-facility] when it is absent or empty. *)
Definition facility_of (r : SensorData) : string :=
  match facility_id r with
  | Some f => if String.eqb f "" then "unknown-facility" else f
  | None => "unknown-facility"
  end.

(** The errors a trace logged and the keys it uploaded, in order. *)
Definition errors_logged (trace : list Event) : list (string * string) :=
  omap (λ e, match e with
             | Log_error context message => Some (context, message)
             | _ => None
             end) trace.

Definition uploaded_keys (trace : list Event) : list string :=
  omap (λ e, match e with
             | S3_send command => Some (Key command)
             | _ => None
             end) trace.

(** The kind and severity of each anomaly of a list. *)
Definition kinds (found : list Anomaly) : list (string * Severity) :=
  (λ a, (AnomalyType_value (a_type a), a_severity a)) <$> found.

(** A reading that carries the given measurements and nothing else. *)
Definition measured (t v p : option Q) : SensorData := {|
  equipment_id := Some "REACTOR_001";
  timestamp := Some "2025-11-23T10:39:00.000Z";
  temperature := t; vibration := v; pressure := p;
  power_consumption := None; facility_id := None; line_id := None;
  ingestionTimestamp := None; source := None; hasAnomalies := None;
  anomalies := None |}.

(** ASCII lower-casing, to compare header names without regard to case. *)
Definition Ascii_toLowerCase (c : ascii) : ascii :=
  let n := nat_of_ascii c in
  if bool_decide (65 ≤ n ≤ 90)%nat then ascii_of_nat (n + 32) else c.

Fixpoint String_toLowerCase (s : string) : string :=
  match s with
  | EmptyString => EmptyString
  | String c s' => String (Ascii_toLowerCase c) (String_toLowerCase s')
  end.

(** Every entry of the tenant cache is filed under the identifier of the
    tenant it describes. *)
Definition cache_sound (w : World) : Prop :=
  ∀ k t, w_tenantCache w !! k = Some t → tenant_id t = k.

(** The tenants whose hot tier is a pool of their own: single-tenant
    deployments that are on the enterprise tier or, by the usage figures of
    [getTenantUsageMetrics], heavy users, which only [acme-corp] is. *)
Definition dedicated (tenant : TenantContext) : bool :=
  bool_decide (deployment_type tenant = single_tenant)
  && (String.eqb (tenant_id tenant) "acme-corp"
      || bool_decide (subscription_tier tenant = enterprise)).

(** The root of a tenant's keys in the object store. *)
Definition key_root (tenant : TenantContext) : string :=
  if bool_decide (deployment_type tenant = single_tenant) then ""
  else "tenants/" +:+ tenant_id tenant +:+ "/".

(** The key of an archived failure: [errors/], the date, the equipment (or
    [unknown]) and the epoch in milliseconds. *)
Definition error_key (root : string) (d : LocalDate) (equipment : option string)
    (epoch : Z) : string :=
  root +:+ "errors/" +:+ date_part d +:+ "/"
  +:+ (match equipment with
       | Some e => if String.eqb e "" then "unknown" else e
       | None => "unknown"
       end)
  +:+ "-" +:+ pretty epoch +:+ ".json".

(** Lower-case hexadecimal digits. *)
Definition is_hex (c : ascii) : bool :=
  bool_decide (c ∈ list_ascii_of_string "0123456789abcdef").

(** A string that fills a template: a hexadecimal digit for each [x], one of
    [8], [9], [a], [b] for each [y], and the character of the template
    everywhere else. *)
Definition fills (template text : string) : Prop :=
  Forall2 (λ t c, if Ascii.eqb t "x" then is_hex c = true
                  else if Ascii.eqb t "y" then c ∈ list_ascii_of_string "89ab"
                  else c = t)
          (list_ascii_of_string template) (list_ascii_of_string text).

(** The number of characters of a template that are drawn. *)
Definition drawn (template : string) : nat :=
  length (filter (λ c, Ascii.eqb c "x" || Ascii.eqb c "y" = true)
                 (list_ascii_of_string template)).

(** The alert raised for an anomaly: the anomaly's own description under a
    fresh identifier, neither acknowledged nor resolved. *)
Definition alert_of (anomaly : Anomaly) (alert : Alert) : Prop :=
  al_equipment_id alert = a_equipment_id anomaly
  ∧ al_type alert = a_type anomaly
  ∧ al_severity alert = a_severity anomaly
  ∧ al_message alert = a_message anomaly
  ∧ al_timestamp alert = a_timestamp anomaly
  ∧ acknowledged alert = false
  ∧ resolved alert = false.

(** What a trace hands to the other services, in order: the alerts
    published, the alerts notified, the stores and the publications
    launched, the detections asked for. *)
Definition published_alerts (trace : list Event) : list (string * Alert) :=
  omap (λ e, match e with
             | Call_publishAlert topic alert => Some (topic, alert)
             | _ => None
             end) trace.

Definition notified_alerts (trace : list Event) : list (Alert * Anomaly) :=
  omap (λ e, match e with
             | Call_processCriticalAlert alert anomaly => Some (alert, anomaly)
             | _ => None
             end) trace.

Definition stores_launched (trace : list Event) : list (SensorData * TenantContext) :=
  omap (λ e, match e with
             | Launch_storeSensorDataMultiTier reading tenant => Some (reading, tenant)
             | _ => None
             end) trace.

Definition readings_published (trace : list Event) : list (string * SensorData) :=
  omap (λ e, match e with
             | Launch_publishSensorData topic reading => Some (topic, reading)
             | _ => None
             end) trace.

Definition detections (trace : list Event) : list SensorData :=
  omap (λ e, match e with
             | Call_detectAnomalies reading => Some reading
             | _ => None
             end) trace.

(** The events of raising alerts, for anomalies paired with the identifiers
    drawn for them. *)
Definition alert_events (latency : Z) (raised : list (Anomaly * string)) : list Event :=
  raised ≫= (λ '(anomaly, id),
    let alert := {| alert_id := id;
                    al_equipment_id := a_equipment_id anomaly;
                    al_type := a_type anomaly;
                    al_severity := a_severity anomaly;
                    al_message := a_message anomaly;
                    al_timestamp := a_timestamp anomaly;
                    acknowledged := false;
                    resolved := false;
                    processing_latency_ms := latency |} in
    [ Call_publishAlert "manufacturing-alerts-priority" alert;
      Call_processCriticalAlert alert anomaly ]).

(** The calls a notification makes to the two clients, in order. *)
Definition metrics_sent (events : list NotifyEvent) : list PutMetricDataCommand :=
  omap (λ e, match e with CloudWatch_send command => Some command | _ => None end) events.

Definition messages_sent (events : list NotifyEvent) : list PublishCommand :=
  omap (λ e, match e with SNS_send command => Some command | _ => None end) events.

(** ** Concrete requests, readings and worlds *)

Module Examples.

(** JSON text for the bodies of the examples. *)
Definition dq : string := String (ascii_of_nat 34) EmptyString.

Definition json_string (name value : string) : string :=
  dq +:+ name +:+ dq +:+ ":" +:+ dq +:+ value +:+ dq.

Definition json_number (name literal : string) : string :=
  dq +:+ name +:+ dq +:+ ":" +:+ literal.

Definition json_object (members : list string) : string :=
  "{" +:+ String.concat "," members +:+ "}".

Definition no_reading : SensorData := {|
  equipment_id := None; timestamp := None;
  temperature := None; vibration := None; pressure := None;
  power_consumption := None; facility_id := None; line_id := None;
  ingestionTimestamp := None; source := None; hasAnomalies := None;
  anomalies := None |}.

(** The normal reading of the sample events. *)
Definition normal_body : string :=
  json_object
    [ json_string "equipment_id" "PUMP_001";
      json_string "timestamp" "2025-11-23T10:30:00.000Z";
      json_number "temperature" "75.5";
      json_number "vibration" "1.2";
      json_number "pressure" "250.8";
      json_number "power_consumption" "1250.5";
      json_string "facility_id" "FAC_CHICAGO_01";
      json_string "line_id" "LINE_A" ].

Definition normal_reading : SensorData := {|
  equipment_id := Some "PUMP_001";
  timestamp := Some "2025-11-23T10:30:00.000Z";
  temperature := Some (755 # 10)%Q;
  vibration := Some (12 # 10)%Q;
  pressure := Some (2508 # 10)%Q;
  power_consumption := Some (12505 # 10)%Q;
  facility_id := Some "FAC_CHICAGO_01";
  line_id := Some "LINE_A";
  ingestionTimestamp := None; source := None; hasAnomalies := None;
  anomalies := None |}.

(** A reading that has a timestamp and no equipment id. *)
Definition anonymous_body : string :=
  json_object
    [ json_string "timestamp" "2025-11-23T10:30:00.000Z";
      json_number "temperature" "85" ].

Definition anonymous_reading : SensorData := {|
  equipment_id := None;
  timestamp := Some "2025-11-23T10:30:00.000Z";
  temperature := Some 85%Q;
  vibration := None; pressure := None;
  power_consumption := None; facility_id := None; line_id := None;
  ingestionTimestamp := None; source := None; hasAnomalies := None;
  anomalies := None |}.

(** A reading whose only unusual measurement is its power consumption. *)
Definition power_reading : SensorData := {|
  equipment_id := Some "REACTOR_001";
  timestamp := Some "2025-11-23T10:39:00.000Z";
  temperature := Some 75%Q;
  vibration := None;
  pressure := Some 250%Q;
  power_consumption := Some 7800000%Q;
  facility_id := None; line_id := None;
  ingestionTimestamp := None; source := None; hasAnomalies := None;
  anomalies := None |}.

(** The token of the resolver's test: header, payload and signature, the
    payload being the base64 of the JSON text with the [tenant_id] claim. *)
Definition claims_base64 : string := "eyJ0ZW5hbnRfaWQiOiJhY21lLWNvcnAifQ==".

Definition claims_text : string :=
  json_object [ json_string "tenant_id" "acme-corp" ].

Definition bearer_token : string :=
  "Bearer eyJhbGciOiJIUzI1NiIsInR5cCI6IkpXVCJ9." +:+ claims_base64 +:+ ".signature".

(** Decimal rendering of a number with at most one fractional digit. *)
Definition decimal (q : Q) : string :=
  let n := Qnum q in
  let sign := if n <? 0 then "-" else "" in
  if Pos.eqb (Qden q) 1 then pretty n
  else if Pos.eqb (Qden q) 10 then
    sign +:+ pretty (Z.abs n / 10) +:+ "." +:+ pretty (Z.abs n `mod` 10)
  else pretty n +:+ "/" +:+ pretty (Z.pos (Qden q)).

(** The instant of the sample events, 2025-11-23T10:30:00.000Z. *)
Definition epoch : Z := 1763893800000.

(** A runtime that knows the inputs of the examples: the bodies and the
    token above, numbers with at most one fractional digit, and the instants
    of the second that starts at [epoch], in a process whose time zone is
    UTC. *)
#[export] Instance runtime : JSRuntime := {|
  Number_toString := decimal;
  JSON_parse_reading := λ text,
    if String.eqb text "{}" then inr no_reading
    else if String.eqb text normal_body then inr normal_reading
    else if String.eqb text anonymous_body then inr anonymous_reading
    else inl "Unexpected token in JSON";
  JSON_parse_claims := λ text,
    if String.eqb text claims_text then Some (Some "acme-corp") else None;
  Buffer_from_base64 := λ text,
    if String.eqb text claims_base64 then claims_text else "";
  Date_parse := λ text,
    if String.eqb text "2025-11-23T10:30:00.000Z" then
      Some {| FullYear := 2025; Month := 10; Date := 23; Hours := 10 |}
    else None;
  Date_of_ms := λ _, {| FullYear := 2025; Month := 10; Date := 23; Hours := 10 |};
  toISOString := λ ms,
    "2025-11-23T10:30:00."
    +:+ String.concat "" (replicate (3 - String.length (pretty (ms - epoch))) "0")
    +:+ pretty (ms - epoch) +:+ "Z";
|}.

(** A freshly started process: nothing cached, no pool, every statement
    and every upload succeeds; the clock advances 3 ms between readings. *)
Definition fresh : World := {|
  w_clock := λ n, epoch + 3 * Z.of_nat n;
  w_reads := 0;
  w_random := λ n, Z.of_nat n `mod` 16;
  w_draws := 0;
  w_env := ∅;
  w_tenantCache := ∅;
  w_timers := [];
  w_pools := [];
  w_query_fails := λ _ _, None;
  w_s3_fails := λ _, None;
  w_trace := [] |}.

(** The same process with the object store refusing every upload. *)
Definition s3_down : World := {|
  w_clock := w_clock fresh; w_reads := 0;
  w_random := w_random fresh; w_draws := 0;
  w_env := ∅; w_tenantCache := ∅; w_timers := []; w_pools := [];
  w_query_fails := λ _ _, None;
  w_s3_fails := λ _, Some (Error "ServiceUnavailable");
  w_trace := [] |}.

Definition request (h : gmap string string) (text : string) : APIGatewayProxyEvent := {|
  body := Some text;
  headers := Some h;
  queryStringParameters := None;
  sourceIp := Some "192.168.1.100" |}.

(** The multi-tenant context the tests build with [createMockTenantContext]. *)
Definition test_tenant : TenantContext := {|
  tenant_id := "test-tenant";
  tenant_name := "Test Tenant";
  deployment_type := multi_tenant;
  data_region := "us-east-1";
  subscription_tier := professional;
  compliance_requirements := [];
  max_equipment := 100;
  retention_days := 90;
  created_at := "2025-01-01T00:00:00Z";
  config := {|
    database := {| connection_string := None; use_rls := true; max_connections := 10 |};
    storage := {| s3_bucket := None; encryption_key := None; retention_policy := "90-days" |};
    alerts := {|
      sns_topics := ["arn:aws:sns:us-east-1:123456789012:test-alerts"];
      webhook_urls := [];
      escalation_rules :=
        [ {| severity := critical; delay_minutes := 5; channels := ["sns"] |} ] |};
    features := {|
      advanced_analytics := false; custom_dashboards := false;
      api_rate_limit := 1000; concurrent_users := 10 |} |} |}.

(** The directory's record of [acme-corp] outside mock mode. *)
Definition acme : TenantContext :=
  acme_corp "manufacturingplatform-development-postgresdb113281d2-tsgocyznjzyn.cnqweieki09q.us-east-1.rds.amazonaws.com".

(** The sample event of a normal reading, for tenant [acme-corp]. *)
Definition normal_event : APIGatewayProxyEvent :=
  request {[ "Content-Type" := "application/json";
             "Authorization" := "Bearer sample-token";
             "x-tenant-id" := "acme-corp" ]} normal_body.

(** The same reading sent for a tenant the directory does not know. *)
Definition unknown_tenant_event : APIGatewayProxyEvent :=
  request {[ "Content-Type" := "application/json";
             "X-Tenant-ID" := "unknown-tenant" ]} normal_body.

(** The same reading with no tenant identifier anywhere. *)
Definition no_tenant_event : APIGatewayProxyEvent :=
  request {[ "Content-Type" := "application/json";
             "Authorization" := "Bearer sample-token" ]} normal_body.

(** The same reading with the tenant header in upper case. *)
Definition upper_case_event : APIGatewayProxyEvent :=
  request {[ "Content-Type" := "application/json";
             "X-TENANT-ID" := "acme-corp" ]} normal_body.

(** A reading without equipment id, for tenant [acme-corp]. *)
Definition anonymous_event : APIGatewayProxyEvent :=
  request {[ "Content-Type" := "application/json";
             "x-tenant-id" := "acme-corp" ]} anonymous_body.

(** A request that names a tenant in each of the five places. *)
Definition five_sources : gmap string string :=
  {[ "X-Tenant-ID" := "from-header";
     "Authorization" := bearer_token;
     "Host" := "from-host.manufacturing.com";
     "X-API-Key" := "from-key_uuid_randomstring" ]}.

Definition sources_event (h : gmap string string) (with_query : bool)
    : APIGatewayProxyEvent := {|
  body := Some normal_body;
  headers := Some h;
  queryStringParameters :=
    if with_query then Some {[ "tenant_id" := "from-query" ]} else None;
  sourceIp := None |}.

(** A request whose body is not JSON, for tenant [acme-corp]. *)
Definition malformed_event : APIGatewayProxyEvent :=
  request {[ "Content-Type" := "application/json";
             "x-tenant-id" := "acme-corp" ]} "{equipment_id: PUMP_001".

(** Thresholds lowered by an update so that the normal reading is hot. *)
Definition lowered : Thresholds :=
  updateThresholds
    {| new_temperature := Some {| min := 0; max := 50; criticalMax := 70 |};
       new_vibration := None;
       new_pressure := None |}
    THRESHOLDS.

(** A reading that carries a vibration only. *)
Definition vibration_reading : SensorData := {|
  equipment_id := Some "MOTOR_007";
  timestamp := Some "2025-11-23T10:30:00.000Z";
  temperature := None;
  vibration := Some (35 # 10)%Q;
  pressure := None;
  power_consumption := None; facility_id := None; line_id := None;
  ingestionTimestamp := None; source := None; hasAnomalies := None;
  anomalies := None |}.

(** A reading that is critical on every metric. *)
Definition critical_reading : SensorData := {|
  equipment_id := Some "REACTOR_001";
  timestamp := Some "2025-11-23T10:39:00.000Z";
  temperature := Some 195%Q;
  vibration := Some (62 # 10)%Q;
  pressure := Some 850%Q;
  power_consumption := None; facility_id := None; line_id := None;
  ingestionTimestamp := None; source := None; hasAnomalies := None;
  anomalies := None |}.

(** The process with the hot store refusing every [INSERT]. *)
Definition timescale_down : World := {|
  w_clock := w_clock fresh; w_reads := 0;
  w_random := w_random fresh; w_draws := 0;
  w_env := ∅; w_tenantCache := ∅; w_timers := []; w_pools := [];
  w_query_fails := λ _ stmt,
    match stmt with
    | INSERT_sensor_data_raw _ _ => Some (Error "connection refused")
    | _ => None
    end;
  w_s3_fails := λ _, None;
  w_trace := [] |}.

(** A single-tenant deployment on the professional tier. *)
Definition small_single_tenant : TenantContext := {|
  tenant_id := "globex";
  tenant_name := "Globex";
  deployment_type := single_tenant;
  data_region := "us-east-1";
  subscription_tier := professional;
  compliance_requirements := [];
  max_equipment := 0;
  retention_days := 90;
  created_at := "2025-01-01T00:00:00Z";
  config := config test_tenant |}.

(** The normal reading with two measurements out of any plausible range. *)
Definition implausible_reading : SensorData := {|
  equipment_id := Some "PUMP_001";
  timestamp := Some "2025-11-23T10:30:00.000Z";
  temperature := Some 5000%Q;
  vibration := Some (-1)%Q;
  pressure := Some (2508 # 10)%Q;
  power_consumption := None; facility_id := None; line_id := None;
  ingestionTimestamp := None; source := None; hasAnomalies := None;
  anomalies := None |}.

(** The normal reading of a pump whose name is not ASCII. *)
Definition umlaut_reading : SensorData := {|
  equipment_id := Some "PÜMP_001";
  timestamp := Some "2025-11-23T10:30:00.000Z";
  temperature := Some (755 # 10)%Q;
  vibration := Some (12 # 10)%Q;
  pressure := Some (2508 # 10)%Q;
  power_consumption := Some (12505 # 10)%Q;
  facility_id := Some "FAC_CHICAGO_01";
  line_id := Some "LINE_A";
  ingestionTimestamp := None; source := None; hasAnomalies := None;
  anomalies := None |}.

(** The normal reading with a timestamp that is no date. *)
Definition undated_reading : SensorData := {|
  equipment_id := Some "PUMP_001";
  timestamp := Some "not-a-date";
  temperature := Some (755 # 10)%Q;
  vibration := Some (12 # 10)%Q;
  pressure := Some (2508 # 10)%Q;
  power_consumption := Some (12505 # 10)%Q;
  facility_id := Some "FAC_CHICAGO_01";
  line_id := Some "LINE_A";
  ingestionTimestamp := None; source := None; hasAnomalies := None;
  anomalies := None |}.

Definition pump : Equipment :=
  {| e_equipment_id := "PUMP_001"; e_name := "Main pump"; e_status := ONLINE |}.

(** An alert for the critical reading. *)
Definition hot_alert : Alert := {|
  alert_id := "alert-1";
  al_equipment_id := Some "REACTOR_001";
  al_type := CRITICAL_TEMPERATURE;
  al_severity := critical;
  al_message := "Critical temperature detected: 195°C (threshold: 180°C)";
  al_timestamp := Some "2025-11-23T10:39:00.000Z";
  acknowledged := false;
  resolved := false;
  processing_latency_ms := 6 |}.

End Examples.

(** * Properties *)

(** ** Comparisons *)

Lemma gt_spec a b : JS.gt a b = true ↔ (b < a)%Q.
Proof.
  unfold JS.gt. rewrite negb_true_iff, <- not_true_iff_false, Qle_bool_iff.
  split; [apply Qnot_le_lt | apply Qlt_not_le].
Qed.

Lemma lt_spec a b : JS.lt a b = true ↔ (a < b)%Q.
Proof. apply gt_spec. Qed.

Lemma gt_false a b : JS.gt a b = false ↔ (a <= b)%Q.
Proof.
  rewrite <- not_true_iff_false, gt_spec.
  split; [apply Qnot_lt_le | apply Qle_not_lt].
Qed.

Lemma lt_false a b : JS.lt a b = false ↔ (b <= a)%Q.
Proof. apply gt_false. Qed.

(** Turn every comparison the detectors made into an order fact. *)
Ltac order_facts :=
  repeat match goal with
    | E : JS.gt _ _ = true |- _ => apply gt_spec in E
    | E : JS.gt _ _ = false |- _ => apply gt_false in E
    | E : JS.lt _ _ = true |- _ => apply lt_spec in E
    | E : JS.lt _ _ = false |- _ => apply lt_false in E
    end.

(** ** The anomaly detector *)

Section AnomalyDetector.
Context `{JSRuntime}.

Lemma temperature_bands (r : SensorData) (t : Q) :
  let ta := detectTemperatureAnomalies THRESHOLDS (equipment_id r) t (timestamp r) in
  ((180 < t)%Q → ∃ a, ta = [a] ∧ is_anomaly_of r a CRITICAL_TEMPERATURE critical t 180)
  ∧ ((150 < t)%Q ∧ (t <= 180)%Q →
       ∃ a, ta = [a] ∧ is_anomaly_of r a HIGH_TEMPERATURE high t 150)
  ∧ ((t < 0)%Q →
       ∃ a, ta = [a] ∧ is_anomaly_of r a HIGH_TEMPERATURE medium t 0
            ∧ a_message a =
                "Low temperature detected: " +:+ Number_toString t
                +:+ "°C (normal min: " +:+ Number_toString 0 +:+ "°C)")
  ∧ ((0 <= t)%Q ∧ (t <= 150)%Q → ta = []).
Proof.
  unfold detectTemperatureAnomalies; cbn -[JS.gt JS.lt].
  destruct (JS.gt t 180) eqn:E1; [|destruct (JS.gt t 150) eqn:E2;
    [|destruct (JS.lt t 0) eqn:E3]]; order_facts;
    repeat split; intros; try lra;
    eexists; (split; [reflexivity|]); repeat split; reflexivity.
Qed.

Lemma vibration_bands (r : SensorData) (v : Q) :
  let va := detectVibrationAnomalies THRESHOLDS (equipment_id r) v (timestamp r) in
  ((5 < v)%Q → ∃ a, va = [a] ∧ is_anomaly_of r a CRITICAL_VIBRATION critical v 5)
  ∧ ((2 < v)%Q ∧ (v <= 5)%Q → ∃ a, va = [a] ∧ is_anomaly_of r a HIGH_VIBRATION high v 2)
  ∧ ((0 <= v)%Q ∧ (v <= 2)%Q → va = []).
Proof.
  unfold detectVibrationAnomalies; cbn -[JS.gt JS.lt].
  destruct (JS.gt v 5) eqn:E1; [|destruct (JS.gt v 2) eqn:E2]; order_facts;
    repeat split; intros; try lra;
    eexists; (split; [reflexivity|]); repeat split; reflexivity.
Qed.

Lemma pressure_bands (r : SensorData) (p : Q) :
  let pa := detectPressureAnomalies THRESHOLDS (equipment_id r) p (timestamp r) in
  ((800 < p)%Q → ∃ a, pa = [a] ∧ is_anomaly_of r a CRITICAL_PRESSURE critical p 800)
  ∧ ((500 < p)%Q ∧ (p <= 800)%Q →
       ∃ a, pa = [a] ∧ is_anomaly_of r a ABNORMAL_PRESSURE medium p 500)
  ∧ ((p < 50)%Q → ∃ a, pa = [a] ∧ is_anomaly_of r a ABNORMAL_PRESSURE medium p 50)
  ∧ ((50 <= p)%Q ∧ (p <= 500)%Q → pa = []).
Proof.
  unfold detectPressureAnomalies; cbn -[JS.gt JS.lt].
  destruct (JS.gt p 800) eqn:E1; [|destruct (JS.gt p 500) eqn:E2;
    [|destruct (JS.lt p 50) eqn:E3]]; cbn -[JS.gt JS.lt]; order_facts;
    repeat split; intros; try lra;
    eexists; (split; [reflexivity|]); repeat split; reflexivity.
Qed.

(** The three detectors, each applied to the measurement that is present. *)
Lemma detectAnomalies_parts (TH : Thresholds) (r : SensorData) :
  detectAnomalies TH r =
    from_option (λ t, detectTemperatureAnomalies TH (equipment_id r) t (timestamp r))
                [] (temperature r)
    ++ from_option (λ v, detectVibrationAnomalies TH (equipment_id r) v (timestamp r))
                   [] (vibration r)
    ++ from_option (λ p, detectPressureAnomalies TH (equipment_id r) p (timestamp r))
                   [] (pressure r).
Proof.
  unfold detectAnomalies.
  destruct (temperature r), (vibration r), (pressure r); cbn;
    rewrite ?app_nil_r; reflexivity.
Qed.

(** C1.  For every reading the detector returns, in the order temperature,
    vibration, pressure, at most one anomaly per metric that is present, and
    that anomaly is the one of the band table: temperature above 180 gives
    one critical [critical_temperature] with threshold 180, a temperature in
    (150, 180] one high [high_temperature] with threshold 150, a temperature
    below 0 one medium anomaly with threshold 0 and the low-temperature
    message; vibration above 5 one critical [critical_vibration], in (2, 5]
    one high [high_vibration]; pressure above 800 one critical
    [critical_pressure], in (500, 800] or below 50 one medium
    [abnormal_pressure] with threshold 500 or 50; a value inside the normal
    band gives nothing, as does an absent measurement. *)
Theorem detectAnomalies_band_table (r : SensorData) :
  ∃ ta va pa : list Anomaly,
    detectAnomalies THRESHOLDS r = ta ++ va ++ pa
    ∧ (length ta ≤ 1 ∧ length va ≤ 1 ∧ length pa ≤ 1)%nat
    ∧ match temperature r with
      | None => ta = []
      | Some t =>
          ((180 < t)%Q →
             ∃ a, ta = [a] ∧ is_anomaly_of r a CRITICAL_TEMPERATURE critical t 180)
          ∧ ((150 < t)%Q ∧ (t <= 180)%Q →
               ∃ a, ta = [a] ∧ is_anomaly_of r a HIGH_TEMPERATURE high t 150)
          ∧ ((t < 0)%Q →
               ∃ a, ta = [a] ∧ is_anomaly_of r a HIGH_TEMPERATURE medium t 0
                    ∧ a_message a =
                        "Low temperature detected: " +:+ Number_toString t
                        +:+ "°C (normal min: " +:+ Number_toString 0 +:+ "°C)")
          ∧ ((0 <= t)%Q ∧ (t <= 150)%Q → ta = [])
      end
    ∧ match vibration r with
      | None => va = []
      | Some v =>
          ((5 < v)%Q →
             ∃ a, va = [a] ∧ is_anomaly_of r a CRITICAL_VIBRATION critical v 5)
          ∧ ((2 < v)%Q ∧ (v <= 5)%Q →
               ∃ a, va = [a] ∧ is_anomaly_of r a HIGH_VIBRATION high v 2)
          ∧ ((0 <= v)%Q ∧ (v <= 2)%Q → va = [])
      end
    ∧ match pressure r with
      | None => pa = []
      | Some p =>
          ((800 < p)%Q →
             ∃ a, pa = [a] ∧ is_anomaly_of r a CRITICAL_PRESSURE critical p 800)
          ∧ ((500 < p)%Q ∧ (p <= 800)%Q →
               ∃ a, pa = [a] ∧ is_anomaly_of r a ABNORMAL_PRESSURE medium p 500)
          ∧ ((p < 50)%Q →
               ∃ a, pa = [a] ∧ is_anomaly_of r a ABNORMAL_PRESSURE medium p 50)
          ∧ ((50 <= p)%Q ∧ (p <= 500)%Q → pa = [])
      end.
Proof.
  rewrite detectAnomalies_parts.
  do 3 eexists. split; [reflexivity|]. split.
  - repeat split.
    + destruct (temperature r) as [t|]; cbn -[JS.gt JS.lt]; [|lia].
      unfold detectTemperatureAnomalies.
      repeat (case_match; cbn; try lia).
    + destruct (vibration r) as [v|]; cbn -[JS.gt JS.lt]; [|lia].
      unfold detectVibrationAnomalies.
      repeat (case_match; cbn; try lia).
    + destruct (pressure r) as [p|]; cbn -[JS.gt JS.lt]; [|lia].
      unfold detectPressureAnomalies.
      repeat (case_match; cbn; try lia).
  - split; [|split].
    + destruct (temperature r) as [t|]; [apply temperature_bands | reflexivity].
    + destruct (vibration r) as [v|]; [apply vibration_bands | reflexivity].
    + destruct (pressure r) as [p|]; [apply pressure_bands | reflexivity].
Qed.

Lemma detectTemperatureAnomalies_types (TH : Thresholds) (e ts : option string)
    (t : Q) (a : Anomaly) :
  a ∈ detectTemperatureAnomalies TH e t ts →
  a_type a = CRITICAL_TEMPERATURE ∨ a_type a = HIGH_TEMPERATURE.
Proof.
  unfold detectTemperatureAnomalies.
  repeat case_match; intros Ha; try (apply list_elem_of_singleton in Ha; subst a; cbn; auto).
  apply elem_of_nil in Ha. contradiction.
Qed.

Lemma detectVibrationAnomalies_types (TH : Thresholds) (e ts : option string)
    (v : Q) (a : Anomaly) :
  a ∈ detectVibrationAnomalies TH e v ts →
  a_type a = CRITICAL_VIBRATION ∨ a_type a = HIGH_VIBRATION.
Proof.
  unfold detectVibrationAnomalies.
  repeat case_match; intros Ha; try (apply list_elem_of_singleton in Ha; subst a; cbn; auto).
  apply elem_of_nil in Ha. contradiction.
Qed.

Lemma detectPressureAnomalies_types (TH : Thresholds) (e ts : option string)
    (p : Q) (a : Anomaly) :
  a ∈ detectPressureAnomalies TH e p ts →
  a_type a = CRITICAL_PRESSURE ∨ a_type a = ABNORMAL_PRESSURE.
Proof.
  unfold detectPressureAnomalies.
  repeat case_match; intros Ha; try (apply list_elem_of_singleton in Ha; subst a; cbn; auto).
  apply elem_of_nil in Ha. contradiction.
Qed.

(** C9.  Whatever the thresholds, no anomaly the detector returns is a
    [power_spike] or an [equipment_offline], and its result does not depend on
    [power_consumption], which it never reads.  With the default thresholds
    a reading whose temperature, vibration and pressure are each absent or
    inside the normal band yields the empty list, whatever its power
    consumption. *)
Theorem detectAnomalies_ignores_power :
  (∀ (TH : Thresholds) (r : SensorData) (a : Anomaly),
     a ∈ detectAnomalies TH r →
     a_type a ≠ POWER_SPIKE ∧ a_type a ≠ EQUIPMENT_OFFLINE)
  ∧ (∀ (TH : Thresholds) (r : SensorData) (power : option Q),
       detectAnomalies TH (set_power_consumption power r) = detectAnomalies TH r)
  ∧ (∀ r : SensorData,
       (∀ t, temperature r = Some t → (0 <= t)%Q ∧ (t <= 150)%Q) →
       (∀ v, vibration r = Some v → (0 <= v)%Q ∧ (v <= 2)%Q) →
       (∀ p, pressure r = Some p → (50 <= p)%Q ∧ (p <= 500)%Q) →
       detectAnomalies THRESHOLDS r = []).
Proof.
  split; [|split].
  - intros TH r a. rewrite detectAnomalies_parts, !elem_of_app.
    intros [Ha|[Ha|Ha]].
    + destruct (temperature r); cbn in Ha; [|apply elem_of_nil in Ha; contradiction].
      apply detectTemperatureAnomalies_types in Ha as [-> | ->]; split; discriminate.
    + destruct (vibration r); cbn in Ha; [|apply elem_of_nil in Ha; contradiction].
      apply detectVibrationAnomalies_types in Ha as [-> | ->]; split; discriminate.
    + destruct (pressure r); cbn in Ha; [|apply elem_of_nil in Ha; contradiction].
      apply detectPressureAnomalies_types in Ha as [-> | ->]; split; discriminate.
  - reflexivity.
  - intros r Ht Hv Hp. rewrite detectAnomalies_parts.
    destruct (temperature r) as [t|]; cbn [from_option].
    + rewrite (proj2 (proj2 (proj2 (temperature_bands r t))) (Ht t eq_refl)).
      destruct (vibration r) as [v|]; cbn [from_option].
      * rewrite (proj2 (proj2 (vibration_bands r v)) (Hv v eq_refl)).
        destruct (pressure r) as [p|]; cbn [from_option]; [|reflexivity].
        rewrite (proj2 (proj2 (proj2 (pressure_bands r p))) (Hp p eq_refl)). reflexivity.
      * destruct (pressure r) as [p|]; cbn [from_option]; [|reflexivity].
        rewrite (proj2 (proj2 (proj2 (pressure_bands r p))) (Hp p eq_refl)). reflexivity.
    + destruct (vibration r) as [v|]; cbn [from_option].
      * rewrite (proj2 (proj2 (vibration_bands r v)) (Hv v eq_refl)).
        destruct (pressure r) as [p|]; cbn [from_option]; [|reflexivity].
        rewrite (proj2 (proj2 (proj2 (pressure_bands r p))) (Hp p eq_refl)). reflexivity.
      * destruct (pressure r) as [p|]; cbn [from_option]; [|reflexivity].
        rewrite (proj2 (proj2 (proj2 (pressure_bands r p))) (Hp p eq_refl)). reflexivity.
Qed.

End AnomalyDetector.

(** ** Strings *)

Lemma split_cons (c : ascii) (s : string) :
  ∃ p ps, JS.split c s = p :: ps.
Proof.
  destruct s as [|a s]; cbn; [eauto|].
  destruct (Ascii.eqb a c); [eauto|].
  destruct (JS.split c s); eauto.
Qed.

(** The first piece of a split is what precedes the first separator. *)
Lemma split_head (c : ascii) (s : string) :
  JS.split c s !! 0%nat = Some (before_first c s).
Proof.
  induction s as [|a s IH]; cbn; [reflexivity|].
  destruct (Ascii.eqb a c); [reflexivity|].
  destruct (JS.split c s) as [|p ps]; cbn in *; [discriminate|].
  congruence.
Qed.

(** There are two pieces or more exactly when the separator occurs. *)
Lemma split_length (c : ascii) (s : string) :
  (2 ≤ length (JS.split c s))%nat ↔ occurs c s = true.
Proof.
  induction s as [|a s IH]; cbn; [split; [lia|discriminate]|].
  destruct (split_cons c s) as (p & ps & E).
  destruct (Ascii.eqb a c); cbn.
  - rewrite E; cbn. split; [reflexivity|lia].
  - rewrite <- IH, E; cbn. reflexivity.
Qed.

Lemma truthy_Some (o : option string) :
  JS.truthy o = true → ∃ s, o = Some s ∧ s ≠ "".
Proof.
  destruct o as [s|]; cbn; [|discriminate].
  intros E. exists s. split; [reflexivity|].
  intros ->. discriminate.
Qed.

(** ** Running the monad *)

(** Unfold the operations of [M] and compute. *)
Ltac run_M :=
  repeat (unfold mbind, M_bind, bind, mret, M_ret, ret, throw, try_catch, get,
            modify, emit, getenv, setenv, Date_now, Math_random16,
            setTimeout_delete, detached, settled;
          cbn).

(** A run is its completion paired with the world it ends in. *)
Lemma run_completion {A} (m : M A) (w : World) (c : Completion A) :
  fst (m w) = c → m w = (c, snd (m w)).
Proof. intros <-. apply surjective_pairing. Qed.

(** ** Tenant resolution *)

Section TenantResolution.
Context `{JSRuntime}.

Lemma extractFromApiKey_prefix (apiKey : string) :
  extractFromApiKey apiKey =
    if occurs "_" apiKey then Some (before_first "_" apiKey) else None.
Proof.
  unfold extractFromApiKey.
  destruct (occurs "_" apiKey) eqn:E.
  - rewrite decide_True by (apply split_length, E). apply split_head.
  - rewrite decide_False; [reflexivity|].
    rewrite split_length, E. discriminate.
Qed.

Lemma or_first_hit (a b : option string) :
  JS.truthy (JS.or a b) = JS.truthy (first_hit [a; b])
  ∧ (JS.truthy (JS.or a b) = true → JS.or a b = first_hit [a; b]).
Proof.
  unfold JS.or; cbn [first_hit].
  destruct (JS.truthy a) eqn:Ea; [rewrite Ea; auto|].
  destruct (JS.truthy b) eqn:Eb; rewrite ?Eb; [auto|].
  split; [reflexivity|discriminate].
Qed.

(** [if (o) return o;] in front of a fallback chain. *)
Lemma pick_first_hit (o : option string) (rest : list (option string))
    (k : option string) :
  (if JS.truthy o then o
   else match first_hit rest with Some t => Some t | None => k end)
  = match first_hit (o :: rest) with Some t => Some t | None => k end.
Proof.
  cbn. destruct (JS.truthy o) eqn:E; [|reflexivity].
  destruct (truthy_Some _ E) as (s & -> & _). reflexivity.
Qed.

Lemma tenant_header_step (event : APIGatewayProxyEvent) (k : option string) :
  (if JS.truthy (JS.or (header event "X-Tenant-ID") (header event "x-tenant-id"))
   then JS.or (header event "X-Tenant-ID") (header event "x-tenant-id") else k)
  = (if JS.truthy (tenant_header event) then tenant_header event else k).
Proof.
  unfold tenant_header.
  destruct (or_first_hit (header event "X-Tenant-ID") (header event "x-tenant-id"))
    as [T V].
  rewrite <- T. destruct (JS.truthy (JS.or _ _)); [apply V|]; reflexivity.
Qed.

Lemma jwt_claim_step (event : APIGatewayProxyEvent) :
  (if JS.truthy (header event "Authorization")
   then extractFromJWT (default "" (header event "Authorization")) else None)
  = jwt_claim event.
Proof. unfold jwt_claim. destruct (header event "Authorization"); reflexivity. Qed.

Lemma host_subdomain_step (event : APIGatewayProxyEvent) :
  (if JS.truthy (header event "Host")
   then extractFromSubdomain (default "" (header event "Host")) else None)
  = host_subdomain event.
Proof. unfold host_subdomain. destruct (header event "Host"); reflexivity. Qed.

Lemma api_key_step (event : APIGatewayProxyEvent) :
  (if JS.truthy (JS.or (header event "X-API-Key") (header event "x-api-key"))
   then extractFromApiKey
          (default "" (JS.or (header event "X-API-Key") (header event "x-api-key")))
   else None)
  = api_key_prefix event.
Proof.
  unfold api_key_prefix.
  destruct (or_first_hit (header event "X-API-Key") (header event "x-api-key"))
    as [T V].
  destruct (JS.truthy (JS.or _ _)) eqn:E.
  - rewrite V by reflexivity. symmetry in T.
    destruct (truthy_Some _ T) as (apiKey & -> & _). apply extractFromApiKey_prefix.
  - destruct (first_hit _) as [apiKey|]; [|reflexivity].
    cbn in T. symmetry in T. apply negb_false_iff, String.eqb_eq in T.
    subst apiKey. reflexivity.
Qed.

(** The resolver as a fallback chain. *)
Lemma extractTenantId_chain (event : APIGatewayProxyEvent) :
  extractTenantId event =
    match first_hit [tenant_header event; jwt_claim event;
                     host_subdomain event; query_parameter event] with
    | Some tenantId => Some tenantId
    | None => api_key_prefix event
    end.
Proof.
  unfold extractTenantId.
  rewrite tenant_header_step, jwt_claim_step, host_subdomain_step, api_key_step.
  fold (query_parameter event).
  change (api_key_prefix event) with
    (match first_hit [] with Some t => Some t | None => api_key_prefix event end)
    at 1.
  rewrite !pick_first_hit. reflexivity.
Qed.

(** C6, as the code has it.  The resolver is a fallback chain over the five
    sources and the first hit wins: (1) the header spelled [X-Tenant-ID] or
    [x-tenant-id], (2) the [tenant_id] claim decoded from the middle segment
    of the [Authorization] bearer token, (3) the first label of a [Host] with
    at least three labels whose second is [manufacturing], (4) the
    [tenant_id] query parameter; when none of these hits, the result is (5)
    the part of the [X-API-Key] (or [x-api-key]) value before its first
    underscore, which is [null] when the key has no underscore.  The result
    is [null] only when all five sources yield nothing. *)
Theorem extractTenantId_fallback_chain (event : APIGatewayProxyEvent) :
  extractTenantId event =
    match first_hit [tenant_header event; jwt_claim event;
                     host_subdomain event; query_parameter event] with
    | Some tenantId => Some tenantId
    | None => api_key_prefix event
    end
  ∧ (extractTenantId event = None →
       JS.truthy (tenant_header event) = false
       ∧ JS.truthy (jwt_claim event) = false
       ∧ JS.truthy (host_subdomain event) = false
       ∧ JS.truthy (query_parameter event) = false
       ∧ api_key_prefix event = None).
Proof.
  split; [apply extractTenantId_chain|].
  rewrite extractTenantId_chain. cbn [first_hit].
  destruct (JS.truthy (tenant_header event)) eqn:E1;
    [destruct (truthy_Some _ E1) as (? & -> & _); discriminate|].
  destruct (JS.truthy (jwt_claim event)) eqn:E2;
    [destruct (truthy_Some _ E2) as (? & -> & _); discriminate|].
  destruct (JS.truthy (host_subdomain event)) eqn:E3;
    [destruct (truthy_Some _ E3) as (? & -> & _); discriminate|].
  destruct (JS.truthy (query_parameter event)) eqn:E4;
    [destruct (truthy_Some _ E4) as (? & -> & _); discriminate|].
  intros E5. repeat split; assumption.
Qed.

(** *** The cache *)

Lemma resolveTenant_hit (event : APIGatewayProxyEvent) (w : World)
    (tenantId : string) (cached : TenantContext) :
  extractTenantId event = Some tenantId → tenantId ≠ "" →
  w_tenantCache w !! tenantId = Some cached →
  resolveTenant event w = (Return cached, w).
Proof.
  intros E Hne Hc. unfold resolveTenant. rewrite E. cbn.
  destruct (String.eqb_spec tenantId "") as [->|_]; [congruence|]. cbn.
  unfold mbind, M_bind, bind, get. rewrite Hc. reflexivity.
Qed.

(** Running the callbacks of due timers deletes their keys and no other. *)
Lemma lookup_expired (due : list Timer) (cache : gmap string TenantContext) (k : string) :
  foldr (λ t c, base.delete (key t) c) cache due !! k =
    if bool_decide (k ∈ key <$> due) then None else cache !! k.
Proof.
  induction due as [|t due IH]; cbn; [reflexivity|].
  destruct (decide (key t = k)) as [->|Hne].
  - rewrite lookup_delete_eq, bool_decide_eq_true_2; [reflexivity|set_solver].
  - rewrite lookup_delete_ne, IH by assumption.
    rewrite (bool_decide_ext (k ∈ key <$> due) (k ∈ key t :: (key <$> due)));
      [reflexivity|].
    rewrite elem_of_cons. split; [auto|].
    intros [->|Hin]; [congruence|exact Hin].
Qed.

Lemma elapse_cache (dt : Z) (w : World) (k : string) :
  w_tenantCache (elapse dt w) !! k =
    if bool_decide (k ∈ key <$> filter (λ t, delay t <= dt) (w_timers w)) then None
    else w_tenantCache w !! k.
Proof. unfold elapse. cbn. apply lookup_expired. Qed.

(** What a miss leaves behind, for the two tenants of the directory. *)
Lemma resolveTenant_miss (event : APIGatewayProxyEvent) (w w' : World)
    (tenantId : string) (tenant : TenantContext) :
  extractTenantId event = Some tenantId → tenantId ≠ "" →
  w_tenantCache w !! tenantId = None →
  resolveTenant event w = (Return tenant, w') →
  tenant_id tenant = tenantId
  ∧ (∃ more, appended w w'
       (Log_rate_limit_check tenantId (api_rate_limit (features (config tenant))) :: more))
  ∧ w_tenantCache w' = <[tenantId := tenant]> (w_tenantCache w)
  ∧ w_timers w' = w_timers w ++ [ {| delay := 300000; key := tenantId |} ].
Proof.
  intros E Hne Hc. unfold resolveTenant. rewrite E. cbn.
  destruct (String.eqb_spec tenantId "") as [->|_]; [congruence|]. cbn.
  unfold mbind, M_bind, bind, get. rewrite Hc.
  unfold loadTenantConfig. run_M.
  destruct (String.eqb_spec tenantId "acme-corp") as [->|_].
  { unfold validateTenantAccess. run_M. intros [= <- <-]. unfold appended. cbn.
    rewrite <- ?app_assoc. repeat split; eauto. }
  destruct (String.eqb_spec tenantId "shared-tenant") as [->|_].
  { unfold validateTenantAccess. run_M. intros [= <- <-]. unfold appended. cbn.
    rewrite <- ?app_assoc. repeat split; eauto. }
  case_bool_decide; run_M; discriminate.
Qed.

(** A resolution that throws leaves the world as it was. *)
Lemma resolveTenant_throw (event : APIGatewayProxyEvent) (w w' : World) (e : JSError) :
  resolveTenant event w = (Throw e, w') → w' = w.
Proof.
  unfold resolveTenant.
  destruct (JS.truthy (extractTenantId event)); cbn; [|intros [= _ <-]; reflexivity].
  unfold mbind, M_bind, bind, get.
  destruct (w_tenantCache w !! _); cbn; [discriminate|].
  unfold loadTenantConfig. run_M.
  destruct (String.eqb _ "acme-corp"); [unfold validateTenantAccess; run_M; discriminate|].
  destruct (String.eqb _ "shared-tenant");
    [unfold validateTenantAccess; run_M; discriminate|].
  case_bool_decide; run_M; intros [= _ <-]; reflexivity.
Qed.

(** Resolution and the passing of time keep the timers consistent with the
    cache. *)
Lemma resolveTenant_consistent (event : APIGatewayProxyEvent) (w w' : World)
    (c : Completion TenantContext) :
  resolveTenant event w = (c, w') → timers_consistent w → timers_consistent w'.
Proof.
  intros Hrun Hw.
  destruct c as [tenant|e]; [|apply resolveTenant_throw in Hrun; subst; exact Hw].
  destruct (JS.truthy (extractTenantId event)) eqn:Hid.
  2:{ unfold resolveTenant in Hrun. rewrite Hid in Hrun. discriminate. }
  destruct (truthy_Some _ Hid) as (tenantId & Hext & Hne).
  destruct (w_tenantCache w !! tenantId) as [cached|] eqn:Hc.
  { rewrite (resolveTenant_hit _ _ _ _ Hext Hne Hc) in Hrun.
    injection Hrun as _ <-. exact Hw. }
  destruct (resolveTenant_miss _ _ _ _ _ Hext Hne Hc Hrun) as (_ & _ & Hcache & Htimers).
  destruct Hw as [Hnodup Hlive]. unfold timers_consistent.
  rewrite Htimers, Hcache, fmap_app. cbn. split.
  - apply NoDup_app. split; [exact Hnodup|]. split; [|apply NoDup_singleton].
    intros k (t & -> & Ht)%list_elem_of_fmap Hk.
    apply list_elem_of_singleton in Hk.
    destruct (Hlive t Ht) as [x Hx]. congruence.
  - intros t [Ht|Ht]%elem_of_app.
    + destruct (decide (tenantId = key t)) as [->|Hk].
      * rewrite lookup_insert_eq. eauto.
      * rewrite lookup_insert_ne by exact Hk. apply Hlive, Ht.
    + apply list_elem_of_singleton in Ht. subst t. cbn.
      rewrite lookup_insert_eq. eauto.
Qed.

Lemma elapse_consistent (dt : Z) (w : World) :
  timers_consistent w → timers_consistent (elapse dt w).
Proof.
  intros [Hnodup Hlive]. split.
  - unfold elapse. cbn. rewrite <- list_fmap_compose.
    change (key ∘ _) with key.
    eapply sublist_NoDup; [exact Hnodup|].
    apply fmap_sublist, sublist_filter.
  - intros t' Ht'. rewrite elapse_cache.
    unfold elapse in Ht'. cbn in Ht'.
    apply list_elem_of_fmap in Ht' as (t & -> & Ht). cbn.
    apply list_elem_of_filter in Ht as [Hpending Ht].
    rewrite bool_decide_eq_false_2; [apply Hlive, Ht|].
    intros (d & Hk & Hd)%list_elem_of_fmap.
    apply list_elem_of_filter in Hd as [Hdue Hd].
    assert (d = t); [|subst d; lia].
    apply list_elem_of_lookup in Hd as [i Hi].
    apply list_elem_of_lookup in Ht as [j Hj].
    assert (i = j); [|congruence].
    cbn in Hk.
    eapply (NoDup_lookup _ i j (key d)); [exact Hnodup| |];
      rewrite list_lookup_fmap; [rewrite Hi|rewrite Hj]; cbn; congruence.
Qed.

(** A miss for a tenant of the directory loads it: the resolution returns. *)
Lemma resolveTenant_miss_returns (event : APIGatewayProxyEvent) (w : World)
    (tenantId : string) :
  extractTenantId event = Some tenantId → tenantId ≠ "" →
  w_tenantCache w !! tenantId = None →
  tenantId ∈ ["acme-corp"; "shared-tenant"] →
  ∃ tenant w', resolveTenant event w = (Return tenant, w').
Proof.
  intros E Hne Hc Hdir. unfold resolveTenant. rewrite E. cbn.
  destruct (String.eqb_spec tenantId "") as [->|_]; [congruence|]. cbn.
  unfold mbind, M_bind, bind, get. rewrite Hc.
  unfold loadTenantConfig. run_M.
  destruct (String.eqb_spec tenantId "acme-corp") as [->|Hacme].
  { unfold validateTenantAccess. run_M. eexists _, _. reflexivity. }
  destruct (String.eqb_spec tenantId "shared-tenant") as [->|Hshared].
  { unfold validateTenantAccess. run_M. eexists _, _. reflexivity. }
  exfalso. rewrite !elem_of_cons, elem_of_nil in Hdir. tauto.
Qed.

(** C10.  When the context of the extracted tenant is in the cache,
    [resolveTenant] returns it and changes nothing: no access validation runs
    (the trace is the same), nothing is loaded, no timer is set.  On a miss
    for a tenant of the directory the resolution returns, and what a
    resolution that returns on a miss has done is this: the rate-limit and
    compliance checks ran, the entry was inserted and the timer was set that
    deletes it 300 seconds (300000 ms) later, so that the entry is in the
    cache for any shorter lapse of time and gone after that.  The world is
    one whose timers are consistent with its cache, as every world reached
    from an empty cache by resolutions and the passing of time is
    ([resolveTenant_consistent], [elapse_consistent]). *)
Theorem resolveTenant_cache (event : APIGatewayProxyEvent) (w : World)
    (tenantId : string) :
  extractTenantId event = Some tenantId → tenantId ≠ "" →
  timers_consistent w →
  (∀ cached, w_tenantCache w !! tenantId = Some cached →
     resolveTenant event w = (Return cached, w))
  ∧ (∀ tenant w',
       w_tenantCache w !! tenantId = None →
       resolveTenant event w = (Return tenant, w') →
       (∃ more, appended w w'
          (Log_rate_limit_check tenantId (api_rate_limit (features (config tenant)))
           :: more))
       ∧ w_tenantCache w' !! tenantId = Some tenant
       ∧ w_timers w' = w_timers w ++ [ {| delay := 300000; key := tenantId |} ]
       ∧ timers_consistent w'
       ∧ (∀ dt, dt < 300000 → w_tenantCache (elapse dt w') !! tenantId = Some tenant)
       ∧ (∀ dt, 300000 <= dt → w_tenantCache (elapse dt w') !! tenantId = None))
  ∧ (w_tenantCache w !! tenantId = None →
     tenantId ∈ ["acme-corp"; "shared-tenant"] →
     ∃ tenant w', resolveTenant event w = (Return tenant, w')).
Proof.
  intros E Hne Hw. split; [|split].
  - intros cached Hc. eapply resolveTenant_hit; eassumption.
  - intros tenant w' Hc Hr.
    destruct (resolveTenant_miss _ _ _ _ _ E Hne Hc Hr) as (_ & Hlog & Hcache & Htimers).
    split; [exact Hlog|]. split; [rewrite Hcache; apply lookup_insert_eq|].
    split; [exact Htimers|].
    split; [eapply resolveTenant_consistent; eassumption|]. split.
    + intros dt Hdt. rewrite elapse_cache, Htimers.
      rewrite bool_decide_eq_false_2; [rewrite Hcache; apply lookup_insert_eq|].
      intros (t & Hk & Ht)%list_elem_of_fmap.
      apply list_elem_of_filter in Ht as [Hdue Ht].
      apply elem_of_app in Ht as [Ht|Ht].
      * destruct (proj2 Hw t Ht) as [x Hx]. congruence.
      * apply list_elem_of_singleton in Ht. subst t. cbn in Hdue. lia.
    + intros dt Hdt. rewrite elapse_cache, Htimers.
      rewrite bool_decide_eq_true_2; [reflexivity|].
      apply list_elem_of_fmap. exists {| delay := 300000; key := tenantId |}.
      split; [reflexivity|].
      apply list_elem_of_filter. split; [cbn; lia|].
      apply elem_of_app. right. apply list_elem_of_singleton. reflexivity.
  - intros Hc Hdir. eapply resolveTenant_miss_returns; eassumption.
Qed.

(** *** A request that names no tenant *)

Lemma no_tenant_identifier_extract (event : APIGatewayProxyEvent) :
  no_tenant_identifier event → JS.truthy (extractTenantId event) = false.
Proof.
  intros (E1 & E2 & E3 & E4 & E5).
  rewrite extractTenantId_chain. cbn [first_hit].
  rewrite E1, E2, E3, E4. exact E5.
Qed.

Lemma resolveTenant_missing (event : APIGatewayProxyEvent) (w : World) :
  JS.truthy (extractTenantId event) = false →
  resolveTenant event w = (Throw (Error "Tenant ID not found in request"), w).
Proof. intros E. unfold resolveTenant. rewrite E. reflexivity. Qed.

End TenantResolution.

(** ** The ingestion handler *)

Section IngestPipeline.
Context `{JSRuntime}.
Variable TH : Thresholds.

(** The detector reads the identity fields and the three measurements, so
    enrichment does not change what it finds. *)
Lemma detectAnomalies_enrich (r : SensorData) (ingestion src : string) :
  detectAnomalies TH (enrich r ingestion src) = detectAnomalies TH r.
Proof. reflexivity. Qed.

Lemma alertable_severity (a : Anomaly) :
  alertable a = true ↔ a_severity a = critical ∨ a_severity a = high.
Proof.
  unfold alertable. rewrite orb_true_iff, !bool_decide_eq_true. reflexivity.
Qed.

(** Drawing an identifier and raising the alerts always complete. *)
Lemma fill_template_returns (template : string) (w : World) :
  ∃ uuid w', fill_template template w = (Return uuid, w').
Proof.
  revert w. induction template as [|c rest IH]; intros w; cbn.
  - eexists _, _. reflexivity.
  - destruct (Ascii.eqb c "x" || Ascii.eqb c "y"); run_M.
    + destruct (IH (set_draws (S (w_draws w)) w)) as (u & w' & ->).
      eexists _, _. reflexivity.
    + destruct (IH w) as (u & w' & ->).
      eexists _, _. reflexivity.
Qed.

#[local] Opaque fill_template.

Lemma raise_alerts_returns (latency : Z) (todo : list Anomaly) (w : World) :
  ∃ w', raise_alerts latency todo w = (Return (), w').
Proof.
  revert w. induction todo as [|a todo IH]; intros w; cbn.
  - eexists. reflexivity.
  - unfold generateUUID. run_M.
    destruct (fill_template_returns "xxxxxxxx-xxxx-4xxx-yxxx-xxxxxxxxxxxx" w)
      as (u & w1 & ->).
    apply IH.
Qed.

#[local] Opaque detectAnomalies detectAnomalies_log raise_alerts alertable.

(** C2, as the code has it.  When the tenant of the request resolves and the
    body parses to an object with a non-empty [equipment_id] and [timestamp],
    the handler answers 200 with [success = true]; in the data,
    [equipment_id] is the submitted one, [anomalies_detected] is the number
    of anomalies the detector returns for the reading, [alerts_created] the
    number of those whose severity is critical or high, and [sla_compliant]
    holds exactly when [processing_latency_ms < 500]. *)
Theorem handler_valid_reading (event : APIGatewayProxyEvent) (w w1 : World)
    (tenantContext : TenantContext) (sensorData : SensorData) :
  resolveTenant event w = (Return tenantContext, w1) →
  JSON_parse_reading (default "{}" (JS.or (body event) (Some "{}"))) = inr sensorData →
  JS.truthy (equipment_id sensorData) = true →
  JS.truthy (timestamp sensorData) = true →
  ∃ response w' d,
    handler TH event w = (Return response, w')
    ∧ statusCode response = 200
    ∧ success (r_body response) = true
    ∧ data (r_body response) = Some d
    ∧ sd_equipment_id d = equipment_id sensorData
    ∧ sd_anomalies_detected d = length (detectAnomalies TH sensorData)
    ∧ sd_alerts_created d =
        length (filter (λ a, a_severity a = critical ∨ a_severity a = high)
                       (detectAnomalies TH sensorData))
    ∧ (sd_sla_compliant d = true ↔ sd_processing_latency_ms d < 500).
Proof.
  intros Hresolve Hparse Hid Hts.
  unfold handler, withTenantContext. run_M. rewrite Hresolve.
  unfold trackUsage. run_M. rewrite Hparse, Hid, Hts. cbn.
  unfold call_detectAnomalies. run_M.
  destruct (detectAnomalies_log TH _); run_M;
    rewrite ?detectAnomalies_enrich;
    rewrite (list_filter_iff (λ a, alertable a = true)
               (λ a, a_severity a = critical ∨ a_severity a = high))
      by (intros a; apply alertable_severity);
    set (found := detectAnomalies TH sensorData);
    (destruct (bool_decide (0 < length found)%nat); run_M;
     [match goal with
      | |- context [raise_alerts ?l ?t ?w0] =>
          destruct (raise_alerts_returns l t w0) as (w2 & ->)
      end|];
     unfold createSuccessResponse; run_M;
     eexists _, _, _; repeat split; try reflexivity;
     cbn; try apply Z.ltb_lt).
Qed.

(** C5, as the code has it.  When the tenant resolves and the body parses
    to an object without a non-empty [equipment_id] or without a non-empty
    [timestamp], the handler answers 400 with the fixed error text naming both
    fields and without a [details] list.  Besides the usage line logged
    before parsing, the request leaves no trace: no detection, no alert, no
    storage, no publishing. *)
Theorem handler_missing_fields (event : APIGatewayProxyEvent) (w w1 : World)
    (tenantContext : TenantContext) (sensorData : SensorData) :
  resolveTenant event w = (Return tenantContext, w1) →
  JSON_parse_reading (default "{}" (JS.or (body event) (Some "{}"))) = inr sensorData →
  JS.truthy (equipment_id sensorData) = false
  ∨ JS.truthy (timestamp sensorData) = false →
  ∃ response w' logged_at,
    handler TH event w = (Return response, w')
    ∧ statusCode response = 400
    ∧ success (r_body response) = false
    ∧ error (r_body response) = Some "Missing required fields: equipment_id, timestamp"
    ∧ details (r_body response) = None
    ∧ appended w1 w'
        [Log_tenant_usage tenantContext "sensor-data-ingestion" 1 logged_at]
    ∧ (∀ e, e ∈ w_trace w' → downstream e = true → e ∈ w_trace w1).
Proof.
  intros Hresolve Hparse Hmissing.
  unfold handler, withTenantContext. run_M. rewrite Hresolve.
  unfold trackUsage. run_M. rewrite Hparse.
  assert (negb (JS.truthy (equipment_id sensorData))
          || negb (JS.truthy (timestamp sensorData)) = true) as ->.
  { destruct Hmissing as [-> | ->]; [reflexivity|apply orb_true_r]. }
  unfold createErrorResponse. run_M.
  eexists _, _, _. repeat split; try reflexivity.
  cbn. intros e [He|He]%elem_of_app Hd; [exact He|].
  apply list_elem_of_singleton in He. subst e. discriminate.
Qed.

(** C4, as the code has it.  For a request that names no tenant in any of
    the five places the handler produces no response of its own: tenant
    resolution throws [Tenant ID not found in request], nothing catches it, and
    the invocation fails with that error.  The world is left as it was, so
    nothing downstream ran: nothing parsed, detected, stored or published. *)
Theorem handler_tenant_missing (event : APIGatewayProxyEvent) (w : World) :
  no_tenant_identifier event →
  handler TH event w = (Throw (Error "Tenant ID not found in request"), w).
Proof.
  intros Hnone%no_tenant_identifier_extract.
  unfold handler, withTenantContext. run_M.
  rewrite (resolveTenant_missing _ _ Hnone). reflexivity.
Qed.

End IngestPipeline.

(** ** The storage fan-out *)

Section StorageFanOut.
Context `{JSRuntime}.

Lemma facility_of_or (r : SensorData) :
  default "" (JS.or (facility_id r) (Some "unknown-facility")) = facility_of r.
Proof.
  unfold facility_of, JS.or, JS.truthy.
  destruct (facility_id r) as [f|]; [|reflexivity].
  destruct (String.eqb f ""); reflexivity.
Qed.

Lemma tenant_or_shared (tenantId : string) :
  tenantId ≠ "" → default "" (JS.or (Some tenantId) (Some "shared")) = tenantId.
Proof.
  intros Hne. unfold JS.or, JS.truthy.
  destruct (String.eqb_spec tenantId ""); [contradiction|reflexivity].
Qed.

(** The configuration lookups read the environment and change nothing. *)
Lemma storageConfigOf_tenant (tenant : TenantContext) (w : World) :
  ∃ cfg, storageConfigOf (Some tenant) w = (Return (Some cfg), w)
         ∧ (deployment_type tenant = multi_tenant →
              prefix cfg = "tenants/" +:+ tenant_id tenant +:+ "/").
Proof.
  unfold storageConfigOf, getStorageConfig.
  destruct (decide (deployment_type tenant = single_tenant)) as [E|E]; run_M.
  - eexists. split; [reflexivity|]. congruence.
  - eexists. split; [reflexivity|]. reflexivity.
Qed.

Lemma storageConfigOf_none (w : World) :
  storageConfigOf None w = (Return None, w).
Proof. reflexivity. Qed.

Lemma bucketFor_returns (tenantContext : option TenantContext)
    (cfg : option StorageTarget) (w : World) :
  ∃ name, bucketFor tenantContext cfg w = (Return name, w).
Proof.
  unfold bucketFor, fallbackBucket.
  destruct (_ && _); run_M; eexists; reflexivity.
Qed.

Lemma s3_send_trace (command : PutObjectCommand) (w : World) :
  ∃ c, s3_send command w = (c, set_trace (w_trace w ++ [S3_send command]) w).
Proof.
  unfold s3_send. run_M. destruct (w_s3_fails w command); eexists; reflexivity.
Qed.

(** The error archiver always returns, and only adds to the trace. *)
Lemma archiveErrorToS3_returns (r : SensorData) (tenantContext : option TenantContext)
    (w : World) :
  ∃ result w' more,
    archiveErrorToS3 r tenantContext w = (Return result, w')
    ∧ appended w w' more.
Proof.
  unfold archiveErrorToS3, try_catch.
  assert (Hcfg : ∃ cfg, storageConfigOf tenantContext
                          (set_reads (S (w_reads w)) w)
                        = (Return cfg, set_reads (S (w_reads w)) w)).
  { destruct tenantContext as [t|]; [|eexists; reflexivity].
    destruct (storageConfigOf_tenant t (set_reads (S (w_reads w)) w)) as (cfg & -> & _).
    eexists; reflexivity. }
  destruct Hcfg as (cfg & Hcfg).
  unfold mbind, M_bind, bind at 1. unfold Date_now at 1.
  unfold bind at 1. rewrite Hcfg.
  unfold bind at 1. unfold Date_now at 1.
  unfold bind at 1.
  match goal with
  | |- context [bucketFor ?c ?g ?w0] =>
      destruct (bucketFor_returns c g w0) as (name & ->)
  end.
  unfold bind at 1.
  match goal with
  | |- context [s3_send ?c ?w0] =>
      destruct (s3_send_trace c w0) as ([[]|e] & ->)
  end; run_M; eexists _, _, _; (split; [reflexivity|]);
    unfold appended; cbn; rewrite <- ?app_assoc; reflexivity.
Qed.

(** The object the error archiver uploads: its key is rooted at [errors/],
    behind the tenant prefix unless the context is single-tenant, its file
    name is the equipment id and the epoch in milliseconds, and its body
    carries the reading with [processing_failed: true]. *)
Lemma archiveErrorToS3_command (r : SensorData) (tenant : TenantContext) (w : World) :
  ∃ cfg bucketName result w' more,
    let now := w_clock w (w_reads w) in
    let epoch := w_clock w (S (w_reads w)) in
    let file := default "" (JS.or (equipment_id r) (Some "unknown"))
                +:+ "-" +:+ pretty epoch +:+ ".json" in
    let s3Key :=
      if bool_decide (deployment_type tenant = single_tenant) then
        "errors/" +:+ date_path (Some (Date_of_ms now)) +:+ "/" +:+ file
      else
        tenantPrefixOf (Some tenant) (Some cfg)
        +:+ "errors/" +:+ date_path (Some (Date_of_ms now)) +:+ "/" +:+ file in
    archiveErrorToS3 r (Some tenant) w = (Return result, w')
    ∧ appended w w'
        (S3_send
           {| Bucket := bucketName;
              Key := s3Key;
              Body := ErrorBody r (toISOString now) s3Key true;
              ContentType := "application/json";
              Metadata :=
                [ ("errorType", "processing-failed");
                  ("equipmentId", default "" (JS.or (equipment_id r) (Some "unknown")));
                  ("tenantId",
                   default "" (JS.or (Some (tenant_id tenant)) (Some "shared")));
                  ("archivedAt", toISOString now) ] |} :: more).
Proof.
  destruct (storageConfigOf_tenant tenant (set_reads (S (w_reads w)) w))
    as (cfg & Hcfg & _).
  unfold archiveErrorToS3, try_catch.
  unfold mbind, M_bind, bind at 1. unfold Date_now at 1.
  unfold bind at 1. rewrite Hcfg.
  unfold bind at 1. unfold Date_now at 1.
  unfold bind at 1.
  match goal with
  | |- context [bucketFor ?c ?g ?w0] =>
      destruct (bucketFor_returns c g w0) as (name & ->)
  end.
  unfold bind at 1.
  assert (Hb : bool_decide (deployment_type <$> Some tenant = Some single_tenant)
               = bool_decide (deployment_type tenant = single_tenant)).
  { apply bool_decide_ext. cbn. split; congruence. }
  rewrite Hb.
  match goal with
  | |- context [s3_send ?c ?w0] =>
      destruct (s3_send_trace c w0) as ([[]|e] & ->)
  end; run_M; eexists cfg, _, _, _, _; (split; [reflexivity|]);
    unfold appended; cbn; rewrite <- ?app_assoc; reflexivity.
Qed.

#[local] Opaque storageConfigOf bucketFor s3_send archiveErrorToS3.

(** The archiver always returns; the first thing it leaves on the trace is
    its upload. *)
Lemma archiveToS3_command (sensorData : SensorData) (tenant : TenantContext)
    (w : World) :
  ∃ cfg bucketName archived archivedAt result w' more,
    storageConfigOf (Some tenant) w = (Return (Some cfg), w)
    ∧ archiveToS3 sensorData (Some tenant) w = (Return result, w')
    ∧ appended w w'
        (S3_send
           {| Bucket := bucketName;
              Key :=
                if bool_decide (deployment_type tenant = single_tenant) then
                  facility_of sensorData +:+ "/" +:+ JS.show (equipment_id sensorData)
                  +:+ "/" +:+ date_path (timestamp sensorData ≫= Date_parse)
                  +:+ "/" +:+ JS.show (timestamp sensorData) +:+ ".json"
                else
                  tenantPrefixOf (Some tenant) (Some cfg)
                  +:+ facility_of sensorData +:+ "/" +:+ JS.show (equipment_id sensorData)
                  +:+ "/" +:+ date_path (timestamp sensorData ≫= Date_parse)
                  +:+ "/" +:+ JS.show (timestamp sensorData) +:+ ".json";
              Body := ArchiveBody sensorData archived
                (if bool_decide (deployment_type tenant = single_tenant) then
                  facility_of sensorData +:+ "/" +:+ JS.show (equipment_id sensorData)
                  +:+ "/" +:+ date_path (timestamp sensorData ≫= Date_parse)
                  +:+ "/" +:+ JS.show (timestamp sensorData) +:+ ".json"
                else
                  tenantPrefixOf (Some tenant) (Some cfg)
                  +:+ facility_of sensorData +:+ "/" +:+ JS.show (equipment_id sensorData)
                  +:+ "/" +:+ date_path (timestamp sensorData ≫= Date_parse)
                  +:+ "/" +:+ JS.show (timestamp sensorData) +:+ ".json");
              ContentType := "application/json";
              Metadata :=
                [ ("equipmentId", JS.show (equipment_id sensorData));
                  ("tenantId",
                   default "" (JS.or (Some (tenant_id tenant)) (Some "shared")));
                  ("sensorType", "manufacturing");
                  ("archivedAt", archivedAt) ] |} :: more).
Proof.
  destruct (storageConfigOf_tenant tenant w) as (cfg & Hcfg & _).
  unfold archiveToS3, try_catch. rewrite facility_of_or.
  unfold mbind, M_bind, bind at 1. rewrite Hcfg.
  unfold bind at 1. unfold Date_now at 1.
  unfold bind at 1.
  match goal with
  | |- context [bucketFor ?c ?g ?w0] =>
      destruct (bucketFor_returns c g w0) as (name & ->)
  end.
  unfold bind at 1. unfold Date_now at 1.
  unfold bind at 1.
  assert (Hb : bool_decide (deployment_type <$> Some tenant = Some single_tenant)
               = bool_decide (deployment_type tenant = single_tenant)).
  { apply bool_decide_ext. cbn. split; congruence. }
  rewrite Hb.
  match goal with
  | |- context [s3_send ?c ?w0] =>
      destruct (s3_send_trace c w0) as ([[]|e] & ->)
  end.
  - run_M. eexists _, _, _, _, _, _, _. split; [reflexivity|].
    split; [reflexivity|]. unfold appended. cbn.
    rewrite <- !app_assoc. reflexivity.
  - run_M.
    match goal with
    | |- context [archiveErrorToS3 ?r ?c ?w0] =>
        destruct (archiveErrorToS3_returns r c w0) as (res & w1 & more & -> & Hmore)
    end.
    run_M. eexists _, _, _, _, _, _, _. split; [reflexivity|].
    split; [reflexivity|]. unfold appended in *. cbn in *.
    rewrite Hmore, <- !app_assoc. reflexivity.
Qed.

(** C7, as the code has it.  The object the archiver puts for a reading has
    the key [<facility_id>/<equipment_id>/<YYYY>/<MM>/<DD>/<HH>/<timestamp>.json]
    under a single-tenant context and the same key behind
    [tenants/<tenant_id>/] under a multi-tenant one.  When the reading's
    timestamp is a date, year, month, day and hour are those of that date,
    month, day and hour padded to two digits.  When it is not, and nothing
    on the way to the archiver checks that it is, each of the four components
    is the text [NaN].  The metadata are the equipment id, the tenant id,
    the sensor-type tag and the time of archival in both cases. *)
Theorem archiveToS3_key (sensorData : SensorData) (tenant : TenantContext)
    (w : World) (equipment ts : string) :
  equipment_id sensorData = Some equipment →
  timestamp sensorData = Some ts →
  tenant_id tenant ≠ "" →
  ∃ command result w' more archivedAt,
    archiveToS3 sensorData (Some tenant) w = (Return result, w')
    ∧ appended w w' (S3_send command :: more)
    ∧ (∀ date, Date_parse ts = Some date →
         (deployment_type tenant = single_tenant →
            Key command = cold_key "" (facility_of sensorData) equipment date ts)
         ∧ (deployment_type tenant = multi_tenant →
              Key command =
                cold_key ("tenants/" +:+ tenant_id tenant +:+ "/")
                         (facility_of sensorData) equipment date ts))
    ∧ (Date_parse ts = None →
         (deployment_type tenant = single_tenant →
            Key command = undated_key "" (facility_of sensorData) equipment ts)
         ∧ (deployment_type tenant = multi_tenant →
              Key command =
                undated_key ("tenants/" +:+ tenant_id tenant +:+ "/")
                            (facility_of sensorData) equipment ts))
    ∧ Metadata command =
        [ ("equipmentId", equipment); ("tenantId", tenant_id tenant);
          ("sensorType", "manufacturing"); ("archivedAt", archivedAt) ].
Proof.
  intros Hid Hts Hne.
  destruct (archiveToS3_command sensorData tenant w)
    as (cfg & bucketName & archived & archivedAt & result & w' & more
        & Hcfg & Hrun & Htrace).
  destruct (storageConfigOf_tenant tenant w) as (cfg' & Hcfg' & Hprefix).
  assert (cfg' = cfg) as -> by congruence.
  eexists _, result, w', more, archivedAt.
  split; [exact Hrun|]. split; [exact Htrace|].
  cbn [Key Metadata]. rewrite Hid, Hts. cbn [mbind option_bind JS.show default from_option id].
  rewrite (tenant_or_shared _ Hne).
  split; [|split; [|reflexivity]].
  - intros date Hdate. rewrite Hdate. split.
    + intros Hd. rewrite bool_decide_eq_true_2 by exact Hd. reflexivity.
    + intros Hd. rewrite bool_decide_eq_false_2 by congruence.
      unfold tenantPrefixOf. cbn [fmap option_fmap option_map].
      rewrite (Hprefix Hd). reflexivity.
  - intros Hdate. rewrite Hdate. split.
    + intros Hd. rewrite bool_decide_eq_true_2 by exact Hd. reflexivity.
    + intros Hd. rewrite bool_decide_eq_false_2 by congruence.
      unfold tenantPrefixOf. cbn [fmap option_fmap option_map].
      rewrite (Hprefix Hd). reflexivity.
Qed.

Lemma archiveToS3_returns (sensorData : SensorData)
    (tenantContext : option TenantContext) (w : World) :
  ∃ result w', archiveToS3 sensorData tenantContext w = (Return result, w').
Proof.
  destruct tenantContext as [tenant|].
  { destruct (archiveToS3_command sensorData tenant w)
      as (? & ? & ? & ? & result & w' & ? & _ & Hrun & _).
    eauto. }
  unfold archiveToS3, try_catch.
  unfold mbind, M_bind, bind at 1. rewrite storageConfigOf_none.
  unfold bind at 1. unfold Date_now at 1.
  unfold bind at 1.
  match goal with
  | |- context [bucketFor ?c ?g ?w0] =>
      destruct (bucketFor_returns c g w0) as (name & ->)
  end.
  unfold bind at 1. unfold Date_now at 1.
  unfold bind at 1.
  match goal with
  | |- context [s3_send ?c ?w0] =>
      destruct (s3_send_trace c w0) as ([[]|e] & ->)
  end; run_M; [eauto|].
  match goal with
  | |- context [archiveErrorToS3 ?r ?c ?w0] =>
      destruct (archiveErrorToS3_returns r c w0) as (res & w1 & more & -> & _)
  end.
  run_M. eauto.
Qed.

Lemma rejection_returns {A} (label : string) (c : Completion A) (w : World) :
  ∃ failures w', rejection label c w = (Return failures, w')
                 ∧ (failures = [] ↔ fulfilled c = true).
Proof.
  destruct c as [a|e]; run_M; eexists _, _; (split; [reflexivity|]); cbn.
  - tauto.
  - split; discriminate.
Qed.

#[local] Opaque storeToTimescale storeToPostgres archiveToS3 rejection.

(** The fan-out never raises.  Its hot and warm flags say whether the
    promise of that tier was fulfilled; its cold flag is [true] whatever
    happened to the upload, because the archiver turns a failed upload into
    a returned value. *)
Lemma storeSensorDataMultiTier_returns (sensorData : SensorData)
    (tenantContext : option TenantContext) (w : World) :
  ∃ hot w1 warm w2 result w',
    storeToTimescale sensorData tenantContext (set_reads (S (w_reads w)) w) = (hot, w1)
    ∧ storeToPostgres sensorData tenantContext w1 = (warm, w2)
    ∧ storeSensorDataMultiTier sensorData tenantContext w = (Return result, w')
    ∧ timescale result = fulfilled hot
    ∧ postgres result = fulfilled warm
    ∧ s3 result = true
    ∧ sr_error result = None.
Proof.
  unfold storeSensorDataMultiTier. run_M.
  destruct (storeToTimescale _ _ _) as [hot w1] eqn:Ehot.
  destruct (storeToPostgres _ _ w1) as [warm w2] eqn:Ewarm.
  destruct (archiveToS3_returns sensorData tenantContext w2) as (up & w3 & ->).
  run_M.
  destruct (rejection_returns "TimescaleDB" hot (set_reads (S (w_reads w3)) w3))
    as (f1 & w4 & -> & _).
  destruct (rejection_returns "PostgreSQL" warm w4) as (f2 & w5 & -> & _).
  destruct (rejection_returns "S3" (Return up) w5) as (f3 & w6 & -> & _).
  destruct (bool_decide _); run_M.
  - destruct (archiveErrorToS3_returns sensorData tenantContext w6)
      as (res & w7 & more & -> & _).
    run_M. eexists hot, w1, warm, w2, _, _.
    split; [reflexivity|]. split; [exact Ewarm|]. repeat split; reflexivity.
  - eexists hot, w1, warm, w2, _, _.
    split; [reflexivity|]. split; [exact Ewarm|]. repeat split; reflexivity.
Qed.

End StorageFanOut.

(** ** The shared pools *)

Section SharedPools.
Context `{JSRuntime}.

Lemma ensurePool_returns (p : PoolId) (w : World) :
  ∃ w', ensurePool p w = (Return p, w') ∧ w_trace w' = w_trace w
        ∧ w_query_fails w' = w_query_fails w.
Proof.
  unfold ensurePool. run_M.
  destruct (bool_decide _); run_M; eexists; repeat split; reflexivity.
Qed.

(** What the hot-tier store of a multi-tenant context hands to the shared
    pool: the [SET] of the session variable, then, whether or not the [SET]
    succeeded, the [INSERT]; two separate queries on the pool. *)
Lemma storeToTimescale_shared (r : SensorData) (tenant : TenantContext) (w : World) :
  deployment_type tenant = multi_tenant →
  ∃ c w' logged,
    storeToTimescale r (Some tenant) w = (c, w')
    ∧ appended w w'
        (Pool_query SharedTimescalePool (SET_current_tenant_id (tenant_id tenant))
         :: logged ++ [Pool_query SharedTimescalePool (INSERT_sensor_data_raw true r)])
    ∧ (logged = []
       ∨ ∃ message, logged = [Log_error "Failed to set tenant context:" message]).
Proof.
  intros Hd.
  unfold storeToTimescale, getTenantAwareTimescalePool, getTimescalePool.
  rewrite Hd. rewrite andb_false_r.
  unfold mbind, M_bind, bind at 1. unfold bind at 1.
  destruct (ensurePool_returns SharedTimescalePool w) as (w0 & -> & Ht & Hf).
  unfold pool_query. run_M. unfold appended. rewrite Ht.
  destruct (w_query_fails w0 SharedTimescalePool (SET_current_tenant_id _)) as [e|];
    run_M;
    destruct (w_query_fails w0 SharedTimescalePool (INSERT_sensor_data_raw _ _));
    run_M; rewrite <- ?app_assoc, ?Hd; cbn.
  1,2: eexists _, _, [Log_error _ (error_message e)];
       (split; [reflexivity|]); split; [reflexivity|eauto].
  1,2: eexists _, _, []; (split; [reflexivity|]); split; [reflexivity|eauto].
Qed.

(** The warm tier does the same for every tenant, single-tenant included. *)
Lemma storeToPostgres_shared (r : SensorData) (tenant : TenantContext) (w : World) :
  ∃ c w' logged,
    storeToPostgres r (Some tenant) w = (c, w')
    ∧ appended w w'
        (Pool_query SharedPostgresPool (SET_current_tenant_id (tenant_id tenant))
         :: logged ++ [Pool_query SharedPostgresPool (INSERT_equipment_status r)])
    ∧ (logged = []
       ∨ ∃ message, logged = [Log_error "Failed to set tenant context:" message]).
Proof.
  unfold storeToPostgres, getTenantAwarePostgresPool, getPostgresPool.
  unfold mbind, M_bind, bind at 1. unfold bind at 1.
  destruct (ensurePool_returns SharedPostgresPool w) as (w0 & -> & Ht & Hf).
  unfold pool_query. run_M. unfold appended. rewrite Ht.
  destruct (w_query_fails w0 SharedPostgresPool (SET_current_tenant_id _)) as [e|];
    run_M;
    destruct (w_query_fails w0 SharedPostgresPool (INSERT_equipment_status _));
    run_M; rewrite <- ?app_assoc; cbn.
  1,2: eexists _, _, [Log_error _ (error_message e)];
       (split; [reflexivity|]); split; [reflexivity|eauto].
  1,2: eexists _, _, []; (split; [reflexivity|]); split; [reflexivity|eauto].
Qed.

End SharedPools.


(** ** Overall severity and the detector under any thresholds *)

Section OverallSeverity.
Context `{JSRuntime}.

Lemma assessOverallSeverity_cons (a : Anomaly) (l : list Anomaly) :
  getSeverityScore (assessOverallSeverity (a :: l)) =
    Z.max (getSeverityScore (a_severity a)) (getSeverityScore (assessOverallSeverity l)).
Proof.
  unfold assessOverallSeverity. cbn [existsb].
  destruct (a_severity a); cbn;
    repeat (destruct (existsb _ l); cbn); reflexivity.
Qed.

Lemma getSeverityScore_inj (s s' : Severity) :
  getSeverityScore s = getSeverityScore s' → s = s'.
Proof. destruct s, s'; cbn; intros E; congruence. Qed.

Lemma assessOverallSeverity_bound (l : list Anomaly) (a : Anomaly) :
  a ∈ l → getSeverityScore (a_severity a) <= getSeverityScore (assessOverallSeverity l).
Proof.
  induction l as [|b l IH]; intros Ha; [apply elem_of_nil in Ha; contradiction|].
  rewrite assessOverallSeverity_cons.
  apply elem_of_cons in Ha as [->|Ha]; [lia|].
  specialize (IH Ha). lia.
Qed.

Lemma assessOverallSeverity_attained (l : list Anomaly) :
  l ≠ [] → ∃ a, a ∈ l ∧ a_severity a = assessOverallSeverity l.
Proof.
  induction l as [|b l IH]; [congruence|]. intros _.
  destruct (Z.max_spec (getSeverityScore (a_severity b))
              (getSeverityScore (assessOverallSeverity l))) as [[Hlt E]|[Hle E]];
    rewrite <- assessOverallSeverity_cons in E; apply getSeverityScore_inj in E.
  - destruct l as [|c l]; [cbn in Hlt; destruct (a_severity b); cbn in Hlt; lia|].
    destruct IH as (a & Ha & Hsev); [congruence|].
    exists a. split; [right; exact Ha|]. congruence.
  - exists b. split; [left|]. congruence.
Qed.

(** X1.  The overall severity of a list of anomalies is the highest severity
    in it, in the order [low < medium < high < critical] of the scores the
    notification service gives the severities: no anomaly of the list scores
    higher, and unless the list is empty some anomaly has exactly that
    severity.  The empty list is rated [low]. *)
Theorem assessOverallSeverity_maximum (l : list Anomaly) :
  (∀ a, a ∈ l →
     getSeverityScore (a_severity a) <= getSeverityScore (assessOverallSeverity l))
  ∧ (l ≠ [] → ∃ a, a ∈ l ∧ a_severity a = assessOverallSeverity l)
  ∧ assessOverallSeverity [] = low.
Proof.
  split; [intros a; apply assessOverallSeverity_bound|].
  split; [apply assessOverallSeverity_attained|reflexivity].
Qed.

Lemma detectTemperatureAnomalies_shape (TH : Thresholds) (e ts : option string)
    (t : Q) (a : Anomaly) :
  a ∈ detectTemperatureAnomalies TH e t ts →
  a_equipment_id a = e ∧ a_timestamp a = ts ∧ a_value a = t ∧ a_severity a ≠ low
  ∧ ((a_severity a = critical ∨ a_severity a = high) → (a_threshold a < t)%Q)
  ∧ ((a_threshold a < t)%Q ∨ (t < a_threshold a)%Q).
Proof.
  unfold detectTemperatureAnomalies. cbv zeta.
  destruct (JS.gt t (criticalMax _)) eqn:E1;
    [|destruct (JS.gt t (max _)) eqn:E2; [|destruct (JS.lt t _) eqn:E3]];
    intros Ha; try (apply elem_of_nil in Ha; contradiction);
    apply list_elem_of_singleton in Ha; subst a; cbn; order_facts;
    repeat split; try discriminate; auto; intros [?|?]; discriminate.
Qed.

Lemma detectVibrationAnomalies_shape (TH : Thresholds) (e ts : option string)
    (v : Q) (a : Anomaly) :
  a ∈ detectVibrationAnomalies TH e v ts →
  a_equipment_id a = e ∧ a_timestamp a = ts ∧ a_value a = v ∧ a_severity a ≠ low
  ∧ ((a_severity a = critical ∨ a_severity a = high) → (a_threshold a < v)%Q)
  ∧ ((a_threshold a < v)%Q ∨ (v < a_threshold a)%Q).
Proof.
  unfold detectVibrationAnomalies. cbv zeta.
  destruct (JS.gt v (criticalMax _)) eqn:E1; [|destruct (JS.gt v (max _)) eqn:E2];
    intros Ha; try (apply elem_of_nil in Ha; contradiction);
    apply list_elem_of_singleton in Ha; subst a; cbn; order_facts;
    repeat split; try discriminate; auto.
Qed.

Lemma detectPressureAnomalies_shape (TH : Thresholds) (e ts : option string)
    (p : Q) (a : Anomaly) :
  a ∈ detectPressureAnomalies TH e p ts →
  a_equipment_id a = e ∧ a_timestamp a = ts ∧ a_value a = p ∧ a_severity a ≠ low
  ∧ ((a_severity a = critical ∨ a_severity a = high) → (a_threshold a < p)%Q)
  ∧ ((a_threshold a < p)%Q ∨ (p < a_threshold a)%Q).
Proof.
  unfold detectPressureAnomalies. cbv zeta.
  destruct (JS.gt p (criticalMax _)) eqn:E1;
    [|destruct (JS.gt p (max _)) eqn:E2; [|destruct (JS.lt p _) eqn:E3]];
    cbn [orb]; intros Ha; try (apply elem_of_nil in Ha; contradiction);
    apply list_elem_of_singleton in Ha; subst a; cbn; order_facts;
    repeat split; try discriminate; auto; intros [?|?]; discriminate.
Qed.

Lemma detectAnomalies_member (TH : Thresholds) (r : SensorData) (a : Anomaly) :
  a ∈ detectAnomalies TH r →
  a_equipment_id a = equipment_id r
  ∧ a_timestamp a = timestamp r
  ∧ Some (a_value a) ∈ [temperature r; vibration r; pressure r]
  ∧ a_severity a ≠ low
  ∧ ((a_severity a = critical ∨ a_severity a = high) → (a_threshold a < a_value a)%Q)
  ∧ ((a_threshold a < a_value a)%Q ∨ (a_value a < a_threshold a)%Q).
Proof.
  rewrite detectAnomalies_parts, !elem_of_app. intros [Ha|[Ha|Ha]].
  - destruct (temperature r) as [t|]; cbn in Ha; [|apply elem_of_nil in Ha; contradiction].
    apply detectTemperatureAnomalies_shape in Ha as (-> & -> & Hv & Hs & Hc & Hd).
    rewrite Hv. repeat split; auto. left.
  - destruct (vibration r) as [v|]; cbn in Ha; [|apply elem_of_nil in Ha; contradiction].
    apply detectVibrationAnomalies_shape in Ha as (-> & -> & Hv & Hs & Hc & Hd).
    rewrite Hv. repeat split; auto. right; left.
  - destruct (pressure r) as [p|]; cbn in Ha; [|apply elem_of_nil in Ha; contradiction].
    apply detectPressureAnomalies_shape in Ha as (-> & -> & Hv & Hs & Hc & Hd).
    rewrite Hv. repeat split; auto. right; right; left.
Qed.

(** X2.  Whatever the thresholds in force, the detector returns at most three
    anomalies, and each of them carries the equipment id and the timestamp of
    the reading, has for value one of the three measurements of the reading,
    a severity other than [low], and a threshold that its value really
    crosses: the value is above the threshold when the severity is critical
    or high and differs from it in every case. *)
Theorem detectAnomalies_shape (TH : Thresholds) (r : SensorData) :
  (length (detectAnomalies TH r) ≤ 3)%nat
  ∧ ∀ a, a ∈ detectAnomalies TH r →
      a_equipment_id a = equipment_id r
      ∧ a_timestamp a = timestamp r
      ∧ Some (a_value a) ∈ [temperature r; vibration r; pressure r]
      ∧ a_severity a ≠ low
      ∧ ((a_severity a = critical ∨ a_severity a = high) →
           (a_threshold a < a_value a)%Q)
      ∧ ((a_threshold a < a_value a)%Q ∨ (a_value a < a_threshold a)%Q).
Proof.
  split; [|intros a; apply detectAnomalies_member].
  rewrite detectAnomalies_parts, !length_app.
  assert (Ht : ∀ t, (length (detectTemperatureAnomalies TH (equipment_id r) t
                               (timestamp r)) ≤ 1)%nat)
    by (intros; unfold detectTemperatureAnomalies; repeat case_match; cbn; lia).
  assert (Hv : ∀ v, (length (detectVibrationAnomalies TH (equipment_id r) v
                               (timestamp r)) ≤ 1)%nat)
    by (intros; unfold detectVibrationAnomalies; repeat case_match; cbn; lia).
  assert (Hp : ∀ p, (length (detectPressureAnomalies TH (equipment_id r) p
                               (timestamp r)) ≤ 1)%nat)
    by (intros; unfold detectPressureAnomalies; repeat case_match; cbn; lia).
  destruct (temperature r) as [t|]; [pose proof (Ht t)|];
    (destruct (vibration r) as [v|]; [pose proof (Hv v)|]);
    (destruct (pressure r) as [p|]; [pose proof (Hp p)|]);
    cbn [from_option length]; lia.
Qed.

Lemma assessOverallSeverity_critical (l : list Anomaly) :
  assessOverallSeverity l = critical ↔ ∃ a, a ∈ l ∧ a_severity a = critical.
Proof.
  split.
  - intros E. destruct l as [|b l]; [discriminate|].
    destruct (assessOverallSeverity_attained (b :: l)) as (a & Ha & Hs); [congruence|].
    exists a. split; [exact Ha|congruence].
  - intros (a & Ha & Hs).
    pose proof (assessOverallSeverity_bound l a Ha) as Hb. rewrite Hs in Hb.
    destruct (assessOverallSeverity l); cbn in Hb; try lia. reflexivity.
Qed.

(** X3.  On what the detector returns, under any thresholds, the overall
    severity is [low] exactly when nothing was detected, and it is [critical]
    exactly when the detector printed its [CRITICAL] console line. *)
Theorem assessOverallSeverity_detectAnomalies (TH : Thresholds) (r : SensorData) :
  (assessOverallSeverity (detectAnomalies TH r) = low ↔ detectAnomalies TH r = [])
  ∧ (assessOverallSeverity (detectAnomalies TH r) = critical
     ↔ is_Some (detectAnomalies_log TH r)).
Proof.
  split.
  - split; [|intros ->; reflexivity].
    intros E. destruct (detectAnomalies TH r) as [|b l] eqn:El; [reflexivity|].
    destruct (assessOverallSeverity_attained (b :: l)) as (a & Ha & Hs); [congruence|].
    rewrite <- El in Ha. apply detectAnomalies_member in Ha as (_ & _ & _ & Hlow & _).
    congruence.
  - rewrite assessOverallSeverity_critical. unfold detectAnomalies_log.
    set (l := detectAnomalies TH r).
    case_decide as Hn.
    + split; [eauto|]. intros _.
      destruct (filter _ l) as [|a f] eqn:Ef; [cbn in Hn; lia|].
      assert (Ha : a ∈ filter (λ a, a_severity a = critical) l) by (rewrite Ef; left).
      apply list_elem_of_filter in Ha as [Hs Ha]. eauto.
    + split; [|intros [? [=]]].
      intros (a & Ha & Hs). exfalso. apply Hn.
      assert (Hf : a ∈ filter (λ a, a_severity a = critical) l)
        by (apply list_elem_of_filter; auto).
      destruct (filter _ l); [apply elem_of_nil in Hf; contradiction|cbn; lia].
Qed.

(** X4.  A threshold update replaces the bands it names and leaves the others
    alone: on a reading that carries no measurement of a metric whose band
    the update names, the detector finds after the update what it found
    before. *)
Theorem updateThresholds_other_metrics (newThresholds : PartialThresholds)
    (TH : Thresholds) (r : SensorData) :
  (is_Some (new_temperature newThresholds) → temperature r = None) →
  (is_Some (new_vibration newThresholds) → vibration r = None) →
  (is_Some (new_pressure newThresholds) → pressure r = None) →
  detectAnomalies (updateThresholds newThresholds TH) r = detectAnomalies TH r.
Proof.
  intros Ht Hv Hp. rewrite !detectAnomalies_parts.
  f_equal; [|f_equal].
  - destruct (new_temperature newThresholds) as [b|] eqn:E.
    + rewrite Ht by eauto. reflexivity.
    + destruct (temperature r); [|reflexivity]. cbn.
      unfold detectTemperatureAnomalies, updateThresholds. cbn. rewrite E. reflexivity.
  - destruct (new_vibration newThresholds) as [b|] eqn:E.
    + rewrite Hv by eauto. reflexivity.
    + destruct (vibration r); [|reflexivity]. cbn.
      unfold detectVibrationAnomalies, updateThresholds. cbn. rewrite E. reflexivity.
  - destruct (new_pressure newThresholds) as [b|] eqn:E.
    + rewrite Hp by eauto. reflexivity.
    + destruct (pressure r); [|reflexivity]. cbn.
      unfold detectPressureAnomalies, updateThresholds. cbn. rewrite E. reflexivity.
Qed.

End OverallSeverity.

(** ** Tenant limits and tenant topics *)

(** X5.  [checkLimits] refuses exactly when the operation is one of the three
    metered ones, the tenant's limit for it is not [0] and the current value
    has reached the limit; it prints its console line exactly when it
    refuses.  An operation it does not know is always allowed, and so is any
    value under a limit of [0]. *)
Theorem checkLimits_refuses (tenant : TenantContext) (operation : string)
    (currentValue : Z) :
  (fst (checkLimits tenant operation currentValue) = false
   ↔ ∃ limit, limits tenant operation = Some limit ∧ limit ≠ 0 ∧ limit <= currentValue)
  ∧ (is_Some (snd (checkLimits tenant operation currentValue))
     ↔ fst (checkLimits tenant operation currentValue) = false)
  ∧ (operation ∉ ["equipment-count"; "api-requests-per-hour"; "concurrent-users"] →
       checkLimits tenant operation currentValue = (true, None)).
Proof.
  unfold checkLimits. split; [|split].
  - destruct (limits tenant operation) as [limit|]; cbn.
    + destruct (Z.eqb_spec limit 0) as [E|E], (Z.leb_spec limit currentValue) as [L|L];
        cbn; split; try discriminate; try (intros (l & [= <-] & ? & ?); lia).
      intros _. exists limit. auto.
    + split; [discriminate|]. intros (l & [=] & _).
  - destruct (limits tenant operation) as [limit|]; cbn.
    + destruct (negb (limit =? 0) && (limit <=? currentValue)); cbn;
        split; try discriminate; eauto. intros [? [=]].
    + split; [intros [? [=]]|discriminate].
  - intros Hop. unfold limits.
    destruct (String.eqb_spec operation "equipment-count") as [->|_];
      [exfalso; apply Hop; left|].
    destruct (String.eqb_spec operation "api-requests-per-hour") as [->|_];
      [exfalso; apply Hop; right; left|].
    destruct (String.eqb_spec operation "concurrent-users") as [->|_];
      [exfalso; apply Hop; right; right; left|].
    reflexivity.
Qed.

Lemma append_inj_l (p a b : string) : p +:+ a = p +:+ b → a = b.
Proof. induction p as [|c p IH]; cbn; [auto|]. intros [= E]. auto. Qed.

(** X6.  The Kafka topics of a tenant's configuration carry its identifier:
    two tenants have the same sensor-data topic, or the same alerts topic,
    only if they have the same identifier; no sensor-data topic is an alerts
    topic, and neither is the topic shared by the multi-tenant deployments.
    The shared topic is configured exactly for the multi-tenant
    deployments. *)
Theorem getKafkaConfig_topics (t1 t2 : TenantContext) :
  (kt_sensorData (topics (getKafkaConfig t1)) = kt_sensorData (topics (getKafkaConfig t2))
   → tenant_id t1 = tenant_id t2)
  ∧ (kt_alerts (topics (getKafkaConfig t1)) = kt_alerts (topics (getKafkaConfig t2))
     → tenant_id t1 = tenant_id t2)
  ∧ kt_sensorData (topics (getKafkaConfig t1)) ≠ kt_alerts (topics (getKafkaConfig t2))
  ∧ kt_shared (topics (getKafkaConfig t1)) ≠ Some (kt_sensorData (topics (getKafkaConfig t2)))
  ∧ kt_shared (topics (getKafkaConfig t1)) ≠ Some (kt_alerts (topics (getKafkaConfig t2)))
  ∧ (is_Some (kt_shared (topics (getKafkaConfig t1)))
     ↔ deployment_type t1 = multi_tenant).
Proof.
  cbn. repeat split.
  - apply (append_inj_l "sensor-data-").
  - apply (append_inj_l "alerts-").
  - discriminate.
  - destruct (decide _); discriminate.
  - destruct (decide _); discriminate.
  - destruct (decide _) as [E|E]; [auto|intros [? [=]]].
  - intros ->. cbn. eauto.
Qed.

(** ** Tenant identifiers in host names and API keys *)

Lemma append_cons (a : ascii) (s t : string) : String a s +:+ t = String a (s +:+ t).
Proof. reflexivity. Qed.

Lemma split_app_sep (c : ascii) (a b : string) :
  occurs c a = false → JS.split c (a +:+ String c b) = a :: JS.split c b.
Proof.
  induction a as [|x a IH].
  - intros _. change ("" +:+ String c b) with (String c b). cbn -[Ascii.eqb].
    rewrite Ascii.eqb_refl. reflexivity.
  - cbn -[Ascii.eqb]. intros [Hx Ha]%orb_false_iff.
    rewrite append_cons. cbn -[Ascii.eqb]. rewrite Hx, (IH Ha). reflexivity.
Qed.

Lemma split_inv (c : ascii) (s p q : string) (rest : list string) :
  JS.split c s = p :: q :: rest →
  ∃ s', s = p +:+ String c s' ∧ JS.split c s' = q :: rest ∧ occurs c p = false.
Proof.
  revert p. induction s as [|a s IH]; intros p; cbn -[Ascii.eqb]; [discriminate|].
  destruct (Ascii.eqb_spec a c) as [->|Hne].
  - intros [= <- E]. exists s. auto.
  - destruct (JS.split c s) as [|p' ps] eqn:Es; [discriminate|].
    intros [= <- ->].
    destruct (IH p' eq_refl) as (s' & -> & Hs' & Hp').
    exists s'. cbn -[Ascii.eqb]. rewrite Hp'.
    destruct (Ascii.eqb_spec a c); [contradiction|]. auto.
Qed.

Section TenantIdentifiers.
Context `{JSRuntime}.

(** X7.  The subdomain source yields a label exactly for the hosts of the
    form [<label>.manufacturing.<rest>] in which the label has no dot:
    [acme.manufacturing.com] names [acme], whatever follows the second
    dot, and no other host names anything. *)
Theorem extractFromSubdomain_host (host label : string) :
  extractFromSubdomain host = Some label
  ↔ occurs "." label = false ∧ ∃ rest, host = label +:+ ".manufacturing." +:+ rest.
Proof.
  unfold extractFromSubdomain. split.
  - destruct (JS.split "." host) as [|p [|q [|r rs]]] eqn:E; cbn;
      try (rewrite ?andb_false_r; discriminate).
    case_bool_decide as Hlen; cbn; [|discriminate].
    case_bool_decide as Hq; [|discriminate].
    injection Hq as ->. intros [= ->].
    apply split_inv in E as (s' & -> & E' & Hp).
    apply split_inv in E' as (s'' & -> & _ & _).
    split; [exact Hp|]. exists s''. reflexivity.
  - intros (Hl & rest & ->).
    change (label +:+ ".manufacturing." +:+ rest)
      with (label +:+ String "." ("manufacturing" +:+ String "." rest)).
    rewrite (split_app_sep _ _ _ Hl), (split_app_sep "." "manufacturing" rest eq_refl).
    destruct (split_cons "." rest) as (r & rs & ->). reflexivity.
Qed.

(** X8.  The API-key source yields a prefix exactly for the keys of the form
    [<prefix>_<rest>] in which the prefix has no underscore: the tenant is
    what precedes the first underscore, and a key without an underscore names
    no tenant. *)
Theorem extractFromApiKey_key (apiKey label : string) :
  extractFromApiKey apiKey = Some label
  ↔ occurs "_" label = false ∧ ∃ rest, apiKey = label +:+ "_" +:+ rest.
Proof.
  unfold extractFromApiKey. split.
  - destruct (JS.split "_" apiKey) as [|p [|q rs]] eqn:E; cbn;
      try (case_decide; [cbn in *; lia|discriminate]).
    case_decide; [|cbn in *; lia]. intros [= ->].
    apply split_inv in E as (s' & -> & _ & Hp).
    split; [exact Hp|]. exists s'. reflexivity.
  - intros (Hl & rest & ->).
    change (label +:+ "_" +:+ rest) with (label +:+ String "_" rest).
    rewrite (split_app_sep _ _ _ Hl).
    destruct (split_cons "_" rest) as (r & rs & ->).
    rewrite decide_True by (cbn; lia). reflexivity.
Qed.

(** ** The tenant cache and the directory *)

Lemma elapse_cache_sound (dt : Z) (w : World) :
  cache_sound w → cache_sound (elapse dt w).
Proof.
  intros Hs k t. rewrite elapse_cache. case_bool_decide; [discriminate|apply Hs].
Qed.

(** X9.  A resolved context is the context of the tenant the request names:
    in a world whose cache files every entry under the identifier of its
    tenant, [resolveTenant] returns a context whose [tenant_id] is the
    identifier extracted from the request, and it leaves the cache in that
    state, with the returned context filed under that identifier.  The cache
    is in that state when empty, and the passing of time keeps it so
    ([elapse_cache_sound]). *)
Theorem resolveTenant_own_context (event : APIGatewayProxyEvent) (w w' : World)
    (tenant : TenantContext) :
  cache_sound w →
  resolveTenant event w = (Return tenant, w') →
  extractTenantId event = Some (tenant_id tenant)
  ∧ w_tenantCache w' !! tenant_id tenant = Some tenant
  ∧ cache_sound w'.
Proof.
  intros Hs Hrun.
  destruct (JS.truthy (extractTenantId event)) eqn:Hid.
  2:{ rewrite (resolveTenant_missing _ _ Hid) in Hrun. discriminate. }
  destruct (truthy_Some _ Hid) as (tenantId & Hext & Hne).
  destruct (w_tenantCache w !! tenantId) as [cached|] eqn:Hc.
  - rewrite (resolveTenant_hit _ _ _ _ Hext Hne Hc) in Hrun.
    injection Hrun as -> ->. rewrite (Hs _ _ Hc). auto.
  - destruct (resolveTenant_miss _ _ _ _ _ Hext Hne Hc Hrun) as (Hown & _ & Hcache & _).
    rewrite Hown, Hcache. split; [exact Hext|]. split; [apply lookup_insert_eq|].
    intros k t. rewrite Hcache. destruct (decide (tenantId = k)) as [<-|Hk].
    + rewrite lookup_insert_eq. congruence.
    + rewrite lookup_insert_ne by exact Hk. apply Hs.
Qed.

(** X10.  A request for a tenant that is neither cached nor one of the two
    tenants of the directory fails and leaves no mark: [resolveTenant] throws
    ([Tenant not found: <id>], unless the identifier is a property name every
    object inherits, for which the lookup itself fails) and the world is as
    before, so the failure is not cached and the next request for that tenant
    repeats the lookup. *)
Theorem resolveTenant_unknown (event : APIGatewayProxyEvent) (w : World)
    (tenantId : string) :
  extractTenantId event = Some tenantId → tenantId ≠ "" →
  w_tenantCache w !! tenantId = None →
  tenantId ∉ ["acme-corp"; "shared-tenant"] →
  ∃ e, resolveTenant event w = (Throw e, w)
       ∧ (tenantId ∉ Object_prototype_keys → e = Error ("Tenant not found: " +:+ tenantId)).
Proof.
  intros E Hne Hc Hdir. unfold resolveTenant. rewrite E. cbn.
  destruct (String.eqb_spec tenantId "") as [->|_]; [congruence|]. cbn.
  unfold mbind, M_bind, bind, get. rewrite Hc.
  unfold loadTenantConfig. run_M.
  destruct (String.eqb_spec tenantId "acme-corp") as [->|_];
    [exfalso; apply Hdir; left|].
  destruct (String.eqb_spec tenantId "shared-tenant") as [->|_];
    [exfalso; apply Hdir; right; left|].
  case_bool_decide; run_M; eexists; (split; [reflexivity|]); [contradiction|reflexivity].
Qed.

End TenantIdentifiers.

(** ** Storage: pools, keys and the archive of failures *)

Lemma appended_trans (w w1 w2 : World) (e1 e2 : list Event) :
  appended w w1 e1 → appended w1 w2 e2 → appended w w2 (e1 ++ e2).
Proof. unfold appended. intros E1 E2. rewrite E2, E1, app_assoc. reflexivity. Qed.

Lemma append_assoc (a b c : string) : (a +:+ b) +:+ c = a +:+ b +:+ c.
Proof. induction a as [|x a IH]; [reflexivity|]. rewrite !append_cons, IH. reflexivity. Qed.

Lemma prefix_append (p s : string) : String.prefix p (p +:+ s) = true.
Proof.
  induction p as [|a p IH]; [destruct s; reflexivity|].
  rewrite append_cons. cbn.
  first [rewrite Ascii.eqb_refl; exact IH
        | destruct (ascii_dec a a); [exact IH|contradiction]].
Qed.

Lemma tenant_root_inj (a b r1 r2 : string) :
  occurs "/" a = false → occurs "/" b = false →
  ("tenants/" +:+ a +:+ "/") +:+ r1 = ("tenants/" +:+ b +:+ "/") +:+ r2 → a = b.
Proof.
  intros Ha Hb E. rewrite !append_assoc in E.
  apply (append_inj_l "tenants/") in E.
  apply (f_equal (JS.split "/")) in E.
  change ("/" +:+ r1) with (String "/" r1) in E.
  change ("/" +:+ r2) with (String "/" r2) in E.
  rewrite !split_app_sep in E by assumption. congruence.
Qed.

Section StorageRouting.
Context `{JSRuntime}.

Lemma dedicated_route (tenant : TenantContext) :
  shouldUseDedicatedTimescale tenant (getTenantUsageMetrics (tenant_id tenant))
  && bool_decide (deployment_type tenant = single_tenant) = dedicated tenant.
Proof.
  unfold dedicated, shouldUseDedicatedTimescale, getTenantUsageMetrics.
  destruct (String.eqb (tenant_id tenant) "acme-corp"); cbn.
  - rewrite andb_true_r. reflexivity.
  - destruct (String.eqb (tenant_id tenant) "shared-tenant"); cbn; apply andb_comm.
Qed.

(** X11.  Where the hot tier of a tenant is stored.  A single-tenant
    deployment on the enterprise tier, or [acme-corp], gets a pool of its own:
    the store is one [INSERT] without tenant column on that pool, and no
    session variable is set.  Every other tenant goes to the shared pool: a
    [SET] of the session variable, whose failure is only logged, then the
    [INSERT], which carries the tenant column for multi-tenant deployments
    only.  In both cases the store succeeds exactly when the [INSERT] is
    accepted. *)
Theorem storeToTimescale_route (r : SensorData) (tenant : TenantContext) (w : World) :
  ∃ c w' logged,
    let pool := if dedicated tenant then TenantPool (tenant_id tenant)
                else SharedTimescalePool in
    let insert := INSERT_sensor_data_raw
                    (bool_decide (deployment_type tenant = multi_tenant)) r in
    storeToTimescale r (Some tenant) w = (c, w')
    ∧ appended w w'
        (if dedicated tenant then [Pool_query pool insert]
         else Pool_query pool (SET_current_tenant_id (tenant_id tenant))
              :: logged ++ [Pool_query pool insert])
    ∧ (logged = [] ∨ ∃ message, logged = [Log_error "Failed to set tenant context:" message])
    ∧ (dedicated tenant = true → deployment_type tenant ≠ multi_tenant)
    ∧ (fulfilled c = true ↔ w_query_fails w pool insert = None).
Proof.
  assert (Hb : bool_decide (deployment_type <$> Some tenant = Some multi_tenant)
               = bool_decide (deployment_type tenant = multi_tenant)).
  { apply bool_decide_ext. cbn. split; congruence. }
  assert (Hd : dedicated tenant = true → deployment_type tenant ≠ multi_tenant).
  { unfold dedicated. intros [E _]%andb_true_iff. apply bool_decide_eq_true in E. congruence. }
  unfold storeToTimescale, getTenantAwareTimescalePool, getTimescalePool.
  rewrite dedicated_route, Hb.
  destruct (dedicated tenant) eqn:Ed.
  - unfold mbind, M_bind, bind at 1.
    destruct (ensurePool_returns (TenantPool (tenant_id tenant)) w) as (w0 & -> & Ht & Hf).
    unfold pool_query. run_M. unfold appended. rewrite Ht, Hf.
    destruct (w_query_fails w _ _); run_M; eexists _, _, [];
      (split; [reflexivity|]); (split; [reflexivity|]); (split; [auto|]);
      (split; [exact Hd|]); cbn; split; congruence.
  - unfold mbind, M_bind, bind at 1. unfold bind at 1.
    destruct (ensurePool_returns SharedTimescalePool w) as (w0 & -> & Ht & Hf).
    unfold pool_query. run_M. unfold appended. rewrite Ht, !Hf.
    destruct (w_query_fails w SharedTimescalePool (SET_current_tenant_id _)) as [e|];
      run_M; rewrite ?Hf;
      destruct (w_query_fails w SharedTimescalePool (INSERT_sensor_data_raw _ _));
      run_M; rewrite <- ?app_assoc; cbn.
    1,2: eexists _, _, [Log_error _ (error_message e)];
         (split; [reflexivity|]); (split; [reflexivity|]); (split; [eauto|]);
         (split; [exact Hd|]); cbn; split; congruence.
    1,2: eexists _, _, []; (split; [reflexivity|]); (split; [reflexivity|]);
         (split; [eauto|]); (split; [exact Hd|]); cbn; split; congruence.
Qed.

(** X12.  The warm tier of every tenant, single-tenant deployments included,
    goes through the one shared pool: a [SET] of the session variable, whose
    failure is only logged, then the [INSERT] of the equipment status; the
    store succeeds exactly when the [INSERT] is accepted. *)
Theorem storeToPostgres_route (r : SensorData) (tenant : TenantContext) (w : World) :
  ∃ c w' logged,
    storeToPostgres r (Some tenant) w = (c, w')
    ∧ appended w w'
        (Pool_query SharedPostgresPool (SET_current_tenant_id (tenant_id tenant))
         :: logged ++ [Pool_query SharedPostgresPool (INSERT_equipment_status r)])
    ∧ (logged = [] ∨ ∃ message, logged = [Log_error "Failed to set tenant context:" message])
    ∧ (fulfilled c = true
       ↔ w_query_fails w SharedPostgresPool (INSERT_equipment_status r) = None).
Proof.
  unfold storeToPostgres, getTenantAwarePostgresPool, getPostgresPool.
  unfold mbind, M_bind, bind at 1. unfold bind at 1.
  destruct (ensurePool_returns SharedPostgresPool w) as (w0 & -> & Ht & Hf).
  unfold pool_query. run_M. unfold appended. rewrite Ht, !Hf.
  destruct (w_query_fails w SharedPostgresPool (SET_current_tenant_id _)) as [e|];
    run_M; rewrite ?Hf;
    destruct (w_query_fails w SharedPostgresPool (INSERT_equipment_status _));
    run_M; rewrite <- ?app_assoc; cbn.
  1,2: eexists _, _, [Log_error _ (error_message e)];
       (split; [reflexivity|]); (split; [reflexivity|]); (split; [eauto|]);
       cbn; split; congruence.
  1,2: eexists _, _, []; (split; [reflexivity|]); (split; [reflexivity|]);
       (split; [eauto|]); cbn; split; congruence.
Qed.

(** *** Every store only adds to the trace *)

Ltac trace_grows :=
  eexists _, _, _; (split; [reflexivity|]); unfold appended; cbn;
  rewrite <- ?app_assoc; first [reflexivity | symmetry; apply app_nil_r].

Lemma storeToTimescale_appends (r : SensorData) (tenantContext : option TenantContext)
    (w : World) :
  ∃ c w' events, storeToTimescale r tenantContext w = (c, w') ∧ appended w w' events.
Proof.
  unfold storeToTimescale, getTenantAwareTimescalePool, getTimescalePool, ensurePool,
    pool_query.
  destruct tenantContext as [tenant|]; [destruct (_ && _)|]; run_M;
    repeat (match goal with
            | |- context [bool_decide (?p ∈ w_pools w)] =>
                destruct (bool_decide (p ∈ w_pools w))
            | |- context [w_query_fails w ?p ?s] => destruct (w_query_fails w p s)
            end; run_M);
    trace_grows.
Qed.

Lemma storeToPostgres_appends (r : SensorData) (tenantContext : option TenantContext)
    (w : World) :
  ∃ c w' events, storeToPostgres r tenantContext w = (c, w') ∧ appended w w' events.
Proof.
  unfold storeToPostgres, getTenantAwarePostgresPool, getPostgresPool, ensurePool,
    pool_query.
  destruct tenantContext as [tenant|]; run_M;
    repeat (match goal with
            | |- context [bool_decide (?p ∈ w_pools w)] =>
                destruct (bool_decide (p ∈ w_pools w))
            | |- context [w_query_fails w ?p ?s] => destruct (w_query_fails w p s)
            end; run_M);
    trace_grows.
Qed.

Lemma storageConfigOf_returns (tenantContext : option TenantContext) (w : World) :
  ∃ cfg, storageConfigOf tenantContext w = (Return cfg, w).
Proof.
  destruct tenantContext as [t|]; [|eexists; reflexivity].
  destruct (storageConfigOf_tenant t w) as (cfg & -> & _). eexists; reflexivity.
Qed.

Lemma rejection_appends {A} (label : string) (c : Completion A) (w : World) :
  ∃ failures w' events,
    rejection label c w = (Return failures, w')
    ∧ appended w w' events
    ∧ (failures = [] ↔ fulfilled c = true).
Proof.
  destruct c as [a|e]; run_M; eexists _, _, _; (split; [reflexivity|]); cbn.
  - split; [symmetry; apply app_nil_r|tauto].
  - split; [reflexivity|]. split; discriminate.
Qed.

(** The archiver of failures always returns; the first thing it leaves on
    the trace is the upload of the reading, marked as failed. *)
Lemma archiveErrorToS3_sends (r : SensorData) (tenantContext : option TenantContext)
    (w : World) :
  ∃ result w' command more archived_at,
    archiveErrorToS3 r tenantContext w = (Return result, w')
    ∧ appended w w' (S3_send command :: more)
    ∧ Body command = ErrorBody r archived_at (Key command) true
    ∧ ∃ root file, Key command = root +:+ "errors/" +:+ file.
Proof.
  unfold archiveErrorToS3, try_catch.
  destruct (storageConfigOf_returns tenantContext (set_reads (S (w_reads w)) w))
    as (cfg & Hcfg).
  unfold mbind, M_bind, bind at 1. unfold Date_now at 1.
  unfold bind at 1. rewrite Hcfg.
  unfold bind at 1. unfold Date_now at 1.
  unfold bind at 1.
  match goal with
  | |- context [bucketFor ?c ?g ?w0] =>
      destruct (bucketFor_returns c g w0) as (name & ->)
  end.
  unfold bind at 1.
  match goal with
  | |- context [s3_send ?c ?w0] =>
      destruct (s3_send_trace c w0) as ([[]|e] & ->)
  end; run_M; eexists _, _, _, _, _; (split; [reflexivity|]);
    (split; [unfold appended; cbn; rewrite <- ?app_assoc; reflexivity|]);
    (split; [reflexivity|]); cbn [Key];
    (destruct (bool_decide _); [exists ""|eexists]; eexists; reflexivity).
Qed.

Lemma archiveToS3_appends (r : SensorData) (tenantContext : option TenantContext)
    (w : World) :
  ∃ result w' events,
    archiveToS3 r tenantContext w = (Return result, w') ∧ appended w w' events.
Proof.
  unfold archiveToS3, try_catch.
  destruct (storageConfigOf_returns tenantContext w) as (cfg & Hcfg).
  unfold mbind, M_bind, bind at 1. rewrite Hcfg.
  unfold bind at 1. unfold Date_now at 1.
  unfold bind at 1.
  match goal with
  | |- context [bucketFor ?c ?g ?w0] =>
      destruct (bucketFor_returns c g w0) as (name & ->)
  end.
  unfold bind at 1. unfold Date_now at 1.
  unfold bind at 1.
  match goal with
  | |- context [s3_send ?c ?w0] =>
      destruct (s3_send_trace c w0) as ([[]|e] & ->)
  end; run_M.
  - eexists _, _, _. split; [reflexivity|].
    unfold appended. cbn. rewrite <- ?app_assoc. reflexivity.
  - match goal with
    | |- context [archiveErrorToS3 ?r ?c ?w0] =>
        destruct (archiveErrorToS3_returns r c w0) as (res & w1 & more & -> & Hmore)
    end.
    run_M. eexists _, _, _. split; [reflexivity|].
    unfold appended in *. cbn in *. rewrite Hmore, <- ?app_assoc. reflexivity.
Qed.

#[local] Opaque storeToTimescale storeToPostgres archiveToS3 rejection archiveErrorToS3.

(** X13.  The fan-out keeps what it could not store.  It always returns,
    with no error of its own, and only adds to the trace; whenever its result
    reports the hot or the warm tier as failed, the events it added include
    the upload of the reading to the archive of failures, under a key in
    [errors/] and with the body marked [processing_failed]. *)
Theorem storeSensorDataMultiTier_archives_failures (sensorData : SensorData)
    (tenantContext : option TenantContext) (w : World) :
  ∃ result w' events,
    storeSensorDataMultiTier sensorData tenantContext w = (Return result, w')
    ∧ appended w w' events
    ∧ sr_error result = None
    ∧ (timescale result = false ∨ postgres result = false →
         ∃ command archived_at root file,
           S3_send command ∈ events
           ∧ Body command = ErrorBody sensorData archived_at (Key command) true
           ∧ Key command = root +:+ "errors/" +:+ file).
Proof.
  unfold storeSensorDataMultiTier. run_M.
  destruct (storeToTimescale_appends sensorData tenantContext (set_reads (S (w_reads w)) w))
    as (hot & w1 & e1 & -> & A1).
  destruct (storeToPostgres_appends sensorData tenantContext w1)
    as (warm & w2 & e2 & -> & A2).
  destruct (archiveToS3_appends sensorData tenantContext w2) as (up & w3 & e3 & -> & A3).
  run_M.
  destruct (rejection_appends "TimescaleDB" hot (set_reads (S (w_reads w3)) w3))
    as (f1 & w4 & e4 & -> & A4 & F1).
  destruct (rejection_appends "PostgreSQL" warm w4) as (f2 & w5 & e5 & -> & A5 & F2).
  destruct (rejection_appends "S3" (Return up) w5) as (f3 & w6 & e6 & -> & A6 & F3).
  assert (A : appended w w6 (e1 ++ e2 ++ e3 ++ e4 ++ e5 ++ e6)).
  { unfold appended in *. cbn in *. rewrite A6, A5, A4, A3, A2, A1, <- !app_assoc.
    reflexivity. }
  case_bool_decide as Hfail; run_M.
  - destruct (archiveErrorToS3_sends sensorData tenantContext w6)
      as (res & w7 & command & more & at_ & -> & A7 & Hbody & root & file & Hkey).
    run_M. eexists _, w7, _. split; [reflexivity|].
    split; [exact (appended_trans _ _ _ _ _ A A7)|]. split; [reflexivity|].
    intros _. exists command, at_, root, file. split; [|split; [exact Hbody|exact Hkey]].
    apply elem_of_app. right. left.
  - eexists _, w6, _. split; [reflexivity|]. split; [exact A|]. split; [reflexivity|].
    cbn. intros Hflag. exfalso. apply Hfail.
    destruct f1; [|cbn; lia]. destruct f2; [|cbn; lia].
    destruct Hflag as [E|E];
      [rewrite (proj1 F1 eq_refl) in E|rewrite (proj1 F2 eq_refl) in E]; discriminate.
Qed.

#[local] Transparent archiveErrorToS3.

Lemma unknown_equipment (equipment : option string) :
  default "" (JS.or equipment (Some "unknown")) =
    match equipment with
    | Some e => if String.eqb e "" then "unknown" else e
    | None => "unknown"
    end.
Proof.
  unfold JS.or, JS.truthy. destruct equipment as [e|]; [|reflexivity].
  destruct (String.eqb e ""); reflexivity.
Qed.

(** X14.  The archive of failures.  For a reading and a tenant the archiver
    uploads one object, whose key is
    [errors/<YYYY>/<MM>/<DD>/<HH>/<equipment_id>-<epoch>.json], behind
    [tenants/<tenant_id>/] unless the deployment is single-tenant: the date
    is the current one, the epoch the current time in milliseconds, and a
    reading without equipment id is filed as [unknown].  The body is the
    reading marked [processing_failed].  The only other thing it leaves is
    one console line.  The archiver never throws, and its result reports
    success exactly when the upload was accepted. *)
Theorem archiveErrorToS3_key (r : SensorData) (tenant : TenantContext) (w : World) :
  ∃ command result w' logged,
    let now := w_clock w (w_reads w) in
    let epoch := w_clock w (S (w_reads w)) in
    archiveErrorToS3 r (Some tenant) w = (Return result, w')
    ∧ appended w w' [S3_send command; logged]
    ∧ Key command = error_key (key_root tenant) (Date_of_ms now) (equipment_id r) epoch
    ∧ Body command = ErrorBody r (toISOString now) (Key command) true
    ∧ (up_success result = true ↔ w_s3_fails w command = None)
    ∧ (up_success result = true → up_key result = Some (Key command))
    ∧ logged = match w_s3_fails w command with
               | None => Log_archived "Failed Data Archived:" (Key command) (Bucket command)
               | Some e => Log_error "Failed data archival error:" (error_message e)
               end.
Proof.
  assert (Hb : bool_decide (deployment_type <$> Some tenant = Some single_tenant)
               = bool_decide (deployment_type tenant = single_tenant)).
  { apply bool_decide_ext. cbn. split; congruence. }
  unfold archiveErrorToS3, try_catch, key_root, error_key.
  rewrite Hb, !unknown_equipment.
  unfold mbind, M_bind, bind at 1. unfold Date_now at 1.
  unfold bind at 1. unfold storageConfigOf, getStorageConfig.
  destruct (decide (deployment_type tenant = single_tenant)) as [Hd|Hd].
  - rewrite bool_decide_eq_true_2 by exact Hd. run_M.
    match goal with
    | |- context [bucketFor ?c ?g ?w0] =>
        destruct (bucketFor_returns c g w0) as (name & ->)
    end.
    unfold s3_send. run_M.
    match goal with
    | |- context [w_s3_fails w ?c] => destruct (w_s3_fails w c) eqn:Es3
    end; run_M; eexists _, _, _, _; (split; [reflexivity|]);
      unfold appended; cbn; rewrite <- ?app_assoc;
      (split; [reflexivity|]); (split; [reflexivity|]); (split; [reflexivity|]);
      rewrite Es3; (split; [split; intros; congruence|]);
      (split; [intros; first [reflexivity | congruence]|]); reflexivity.
  - rewrite bool_decide_eq_false_2 by exact Hd. run_M.
    match goal with
    | |- context [bucketFor ?c ?g ?w0] =>
        destruct (bucketFor_returns c g w0) as (name & ->)
    end.
    unfold s3_send. run_M.
    match goal with
    | |- context [w_s3_fails w ?c] => destruct (w_s3_fails w c) eqn:Es3
    end; run_M; eexists _, _, _, _; (split; [reflexivity|]);
      unfold appended; cbn; rewrite <- ?app_assoc;
      (split; [reflexivity|]); (split; [reflexivity|]); (split; [reflexivity|]);
      rewrite Es3; (split; [split; intros; congruence|]);
      (split; [intros; first [reflexivity | congruence]|]); reflexivity.
Qed.

Lemma storageConfigOf_root (tenant : TenantContext) (w w' : World) (cfg : StorageTarget) :
  deployment_type tenant ≠ single_tenant →
  storageConfigOf (Some tenant) w = (Return (Some cfg), w') →
  prefix cfg = "tenants/" +:+ tenant_id tenant +:+ "/".
Proof.
  intros Hd. unfold storageConfigOf, getStorageConfig.
  rewrite decide_False by exact Hd. run_M. intros [= <- _]. reflexivity.
Qed.

(** The key under which the archiver files a reading of a tenant that is not
    single-tenant starts with the root of that tenant. *)
Lemma archiveToS3_under_root (r : SensorData) (tenant : TenantContext) (w : World) :
  deployment_type tenant ≠ single_tenant →
  ∃ command result w' more rest,
    archiveToS3 r (Some tenant) w = (Return result, w')
    ∧ appended w w' (S3_send command :: more)
    ∧ Key command = ("tenants/" +:+ tenant_id tenant +:+ "/") +:+ rest.
Proof.
  intros Hd.
  destruct (archiveToS3_command r tenant w)
    as (cfg & bucketName & archived & archivedAt & result & w' & more
        & Hcfg & Hrun & Htrace).
  eexists _, result, w', more, _. split; [exact Hrun|]. split; [exact Htrace|].
  cbn [Key]. rewrite bool_decide_eq_false_2 by exact Hd.
  unfold tenantPrefixOf. cbn [fmap option_fmap option_map].
  rewrite (storageConfigOf_root _ _ _ _ Hd Hcfg). reflexivity.
Qed.

(** X15.  Tenants that share the bucket do not share keys.  For two tenants
    that are not single-tenant and whose identifiers differ and contain no
    slash, the object the archiver uploads for the one and the object it
    uploads for the other have different keys, whatever the readings: each
    key starts with [tenants/<tenant_id>/] of its own tenant. *)
Theorem archiveToS3_tenant_keys (r1 r2 : SensorData) (t1 t2 : TenantContext)
    (w1 w2 : World) :
  deployment_type t1 ≠ single_tenant → deployment_type t2 ≠ single_tenant →
  occurs "/" (tenant_id t1) = false → occurs "/" (tenant_id t2) = false →
  tenant_id t1 ≠ tenant_id t2 →
  ∃ c1 res1 w1' more1 c2 res2 w2' more2,
    archiveToS3 r1 (Some t1) w1 = (Return res1, w1')
    ∧ appended w1 w1' (S3_send c1 :: more1)
    ∧ archiveToS3 r2 (Some t2) w2 = (Return res2, w2')
    ∧ appended w2 w2' (S3_send c2 :: more2)
    ∧ String.prefix ("tenants/" +:+ tenant_id t1 +:+ "/") (Key c1) = true
    ∧ String.prefix ("tenants/" +:+ tenant_id t2 +:+ "/") (Key c2) = true
    ∧ Key c1 ≠ Key c2.
Proof.
  intros Hd1 Hd2 Hs1 Hs2 Hne.
  destruct (archiveToS3_under_root r1 t1 w1 Hd1)
    as (c1 & res1 & w1' & more1 & rest1 & Hrun1 & Htrace1 & Hkey1).
  destruct (archiveToS3_under_root r2 t2 w2 Hd2)
    as (c2 & res2 & w2' & more2 & rest2 & Hrun2 & Htrace2 & Hkey2).
  exists c1, res1, w1', more1, c2, res2, w2', more2.
  repeat (split; [assumption|]).
  rewrite Hkey1, Hkey2. split; [apply prefix_append|]. split; [apply prefix_append|].
  intros E. apply Hne. eapply tenant_root_inj; eassumption.
Qed.

End StorageRouting.

(** ** The handler: identifiers, responses, alerts and background work *)

Section HandlerRuns.
Context `{JSRuntime}.
Variable TH : Thresholds.

Lemma hex_digit_hex (v : Z) : 0 <= v < 16 → is_hex (hex_digit v) = true.
Proof.
  intros Hv.
  assert (Hn : (Z.to_nat v < 16)%nat) by lia.
  unfold hex_digit. destruct (Z.to_nat v) as [|n]; [reflexivity|].
  do 15 (destruct n as [|n]; [reflexivity|]). lia.
Qed.

Lemma hex_digit_variant (r : Z) :
  hex_digit (Z.lor (Z.land r 3) 8) ∈ list_ascii_of_string "89ab".
Proof.
  assert (Hr : 0 <= Z.land r 3 < 4).
  { split; [apply Z.land_nonneg; lia|].
    change 3 with (Z.ones 2). rewrite Z.land_ones by lia.
    apply Z.mod_pos_bound. reflexivity. }
  assert (Hc : Z.land r 3 = 0 ∨ Z.land r 3 = 1 ∨ Z.land r 3 = 2 ∨ Z.land r 3 = 3) by lia.
  cbn [list_ascii_of_string]. rewrite !elem_of_cons.
  destruct Hc as [E | [E | [E | E]]]; rewrite E; cbn; auto.
Qed.

Lemma length_list_ascii (s : string) : length (list_ascii_of_string s) = String.length s.
Proof. induction s as [|c s IH]; cbn; congruence. Qed.

Lemma fill_template_fills (template : string) (w : World) :
  (∀ n, 0 <= w_random w n < 16) →
  ∃ text w',
    fill_template template w = (Return text, w')
    ∧ fills template text
    ∧ w_draws w' = (w_draws w + drawn template)%nat
    ∧ w_random w' = w_random w
    ∧ w_trace w' = w_trace w.
Proof.
  intros Hr. revert w Hr.
  induction template as [|c rest IH]; intros w Hr.
  - eexists _, _. split; [reflexivity|]. split; [constructor|].
    split; [cbn; lia|]. split; reflexivity.
  - cbn [fill_template]. unfold fills, drawn. cbn [list_ascii_of_string].
    rewrite filter_cons.
    destruct (Ascii.eqb c "x") eqn:Ex; cbn [orb].
    + run_M.
      destruct (IH (set_draws (S (w_draws w)) w) Hr) as (t & w' & -> & Hf & Hd & Hrand & Ht).
      eexists _, _. split; [reflexivity|].
      split; [constructor; [rewrite Ex; apply hex_digit_hex, Hr|exact Hf]|].
      rewrite decide_True by reflexivity.
      split; [rewrite Hd; unfold drawn; cbn; lia|]. split; assumption.
    + destruct (Ascii.eqb c "y") eqn:Ey; cbn [orb].
      * run_M.
        destruct (IH (set_draws (S (w_draws w)) w) Hr)
          as (t & w' & -> & Hf & Hd & Hrand & Ht).
        eexists _, _. split; [reflexivity|].
        split; [constructor; [rewrite Ex, Ey; apply hex_digit_variant|exact Hf]|].
        rewrite decide_True by reflexivity.
        split; [rewrite Hd; unfold drawn; cbn; lia|]. split; assumption.
      * run_M.
        destruct (IH w Hr) as (t & w' & -> & Hf & Hd & Hrand & Ht).
        eexists _, _. split; [reflexivity|].
        split; [constructor; [rewrite Ex, Ey; reflexivity|exact Hf]|].
        rewrite decide_False by discriminate.
        split; [exact Hd|]. split; assumption.
Qed.

(** X16.  The identifier of an alert has the shape of a version 4 UUID.  With
    a random source that yields, as [Math.random() * 16 | 0] does, integers
    from 0 to 15, [generateUUID] returns 36 characters: lower-case
    hexadecimal digits, hyphens at positions 8, 13, 18 and 23, the digit [4]
    at position 14 and one of [8], [9], [a], [b] at position 19.  It takes 31
    draws and prints nothing. *)
Theorem generateUUID_version4 (w : World) :
  (∀ n, 0 <= w_random w n < 16) →
  ∃ uuid w',
    generateUUID w = (Return uuid, w')
    ∧ fills "xxxxxxxx-xxxx-4xxx-yxxx-xxxxxxxxxxxx" uuid
    ∧ String.length uuid = 36%nat
    ∧ w_draws w' = (w_draws w + 31)%nat
    ∧ w_trace w' = w_trace w.
Proof.
  intros Hr. unfold generateUUID.
  destruct (fill_template_fills "xxxxxxxx-xxxx-4xxx-yxxx-xxxxxxxxxxxx" w Hr)
    as (uuid & w' & Hrun & Hf & Hd & _ & Ht).
  exists uuid, w'. split; [exact Hrun|]. split; [exact Hf|].
  split; [|split; [exact Hd|exact Ht]].
  apply Forall2_length in Hf.
  rewrite <- length_list_ascii, <- Hf. reflexivity.
Qed.

Lemma fill_template_silent (template : string) (w : World) :
  ∃ text w', fill_template template w = (Return text, w') ∧ w_trace w' = w_trace w.
Proof.
  revert w. induction template as [|c rest IH]; intros w; cbn.
  - eexists _, _. split; reflexivity.
  - destruct (Ascii.eqb c "x" || Ascii.eqb c "y"); run_M.
    + destruct (IH (set_draws (S (w_draws w)) w)) as (u & w' & -> & Ht).
      eexists _, _. split; [reflexivity|exact Ht].
    + destruct (IH w) as (u & w' & -> & Ht).
      eexists _, _. split; [reflexivity|exact Ht].
Qed.

#[local] Opaque fill_template.

Lemma raise_alerts_trace (latency : Z) (todo : list Anomaly) (w : World) :
  ∃ ids w',
    raise_alerts latency todo w = (Return (), w')
    ∧ length ids = length todo
    ∧ appended w w' (alert_events latency (zip todo ids)).
Proof.
  revert w. induction todo as [|a todo IH]; intros w.
  - exists [], w. split; [reflexivity|]. split; [reflexivity|].
    unfold appended. cbn. symmetry. apply app_nil_r.
  - cbn [raise_alerts]. unfold generateUUID. run_M.
    destruct (fill_template_silent "xxxxxxxx-xxxx-4xxx-yxxx-xxxxxxxxxxxx" w)
      as (u & w1 & Hu & Hsilent).
    rewrite Hu.
    match goal with
    | |- context [raise_alerts latency todo ?w0] =>
        destruct (IH w0) as (ids & w' & -> & Hlen & Htrace)
    end.
    exists (u :: ids), w'. split; [reflexivity|]. split; [cbn; congruence|].
    unfold appended in *. cbn in *. rewrite Htrace, Hsilent, <- !app_assoc. reflexivity.
Qed.

Lemma alert_events_published (latency : Z) (raised : list (Anomaly * string)) :
  Forall2 (λ '(anomaly, id) '(topic, alert),
             topic = "manufacturing-alerts-priority" ∧ alert_of anomaly alert
             ∧ alert_id alert = id ∧ processing_latency_ms alert = latency)
          raised (published_alerts (alert_events latency raised))
  ∧ notified_alerts (alert_events latency raised)
    = zip (snd <$> published_alerts (alert_events latency raised)) (fst <$> raised)
  ∧ stores_launched (alert_events latency raised) = []
  ∧ readings_published (alert_events latency raised) = []
  ∧ detections (alert_events latency raised) = [].
Proof.
  induction raised as [|[anomaly id] raised (IH1 & IH2 & IH3 & IH4 & IH5)].
  - repeat split. constructor.
  - cbn. split; [|split].
    + constructor; [|exact IH1]. unfold alert_of. cbn. repeat split.
    + fold (alert_events latency raised). f_equal. exact IH2.
    + repeat split; assumption.
Qed.

#[local] Opaque detectAnomalies detectAnomalies_log raise_alerts alertable.

(** The three ways a request of a resolved tenant is answered. *)
Lemma handler_run_malformed (event : APIGatewayProxyEvent) (w w1 : World)
    (tenantContext : TenantContext) (message : string) :
  resolveTenant event w = (Return tenantContext, w1) →
  JSON_parse_reading (default "{}" (JS.or (body event) (Some "{}"))) = inl message →
  ∃ w' logged_at answered_at,
    handler TH event w =
      (Return {| statusCode := 500;
                 r_headers := response_headers;
                 r_body := {| success := false; data := None;
                              error := Some "Internal server error";
                              details := Some [message];
                              r_timestamp := answered_at |} |}, w')
    ∧ appended w1 w'
        [ Log_tenant_usage tenantContext "sensor-data-ingestion" 1 logged_at;
          Log_error "Error processing sensor data:" message ].
Proof.
  intros Hresolve Hparse.
  unfold handler, withTenantContext. run_M. rewrite Hresolve.
  unfold trackUsage. run_M. rewrite Hparse. run_M.
  unfold createErrorResponse. run_M.
  eexists _, _, _. split; [reflexivity|].
  unfold appended. cbn. rewrite <- !app_assoc. reflexivity.
Qed.

Lemma handler_run_missing (event : APIGatewayProxyEvent) (w w1 : World)
    (tenantContext : TenantContext) (sensorData : SensorData) :
  resolveTenant event w = (Return tenantContext, w1) →
  JSON_parse_reading (default "{}" (JS.or (body event) (Some "{}"))) = inr sensorData →
  JS.truthy (equipment_id sensorData) && JS.truthy (timestamp sensorData) = false →
  ∃ w' logged_at answered_at,
    handler TH event w =
      (Return {| statusCode := 400;
                 r_headers := response_headers;
                 r_body := {| success := false; data := None;
                              error := Some "Missing required fields: equipment_id, timestamp";
                              details := None;
                              r_timestamp := answered_at |} |}, w')
    ∧ appended w1 w'
        [ Log_tenant_usage tenantContext "sensor-data-ingestion" 1 logged_at ].
Proof.
  intros Hresolve Hparse Hmissing.
  unfold handler, withTenantContext. run_M. rewrite Hresolve.
  unfold trackUsage. run_M. rewrite Hparse.
  rewrite <- negb_andb, Hmissing. cbn [negb].
  unfold createErrorResponse. run_M.
  eexists _, _, _. split; reflexivity.
Qed.

Lemma handler_run_valid (event : APIGatewayProxyEvent) (w w1 : World)
    (tenantContext : TenantContext) (sensorData : SensorData) :
  resolveTenant event w = (Return tenantContext, w1) →
  JSON_parse_reading (default "{}" (JS.or (body event) (Some "{}"))) = inr sensorData →
  JS.truthy (equipment_id sensorData) && JS.truthy (timestamp sensorData) = true →
  ∃ w' d logged_at answered_at ingestion ids latency total,
    let found := detectAnomalies TH sensorData in
    let enriched := enrich sensorData ingestion "iot-webhook" in
    let stored := if bool_decide (0 < length found)%nat then attach enriched found
                  else enriched in
    handler TH event w =
      (Return {| statusCode := 200;
                 r_headers := response_headers;
                 r_body := {| success := true; data := Some d; error := None;
                              details := None; r_timestamp := answered_at |} |}, w')
    ∧ sd_timestamp d = Some ingestion
    ∧ length ids = length (filter (λ a, alertable a = true) found)
    ∧ appended w1 w'
        ([ Log_tenant_usage tenantContext "sensor-data-ingestion" 1 logged_at;
           Call_detectAnomalies enriched ]
         ++ match detectAnomalies_log TH sensorData with
            | Some line => [Log_critical_anomalies line]
            | None => []
            end
         ++ alert_events latency (zip (filter (λ a, alertable a = true) found) ids)
         ++ [ Launch_storeSensorDataMultiTier stored tenantContext;
              Launch_publishSensorData "sensor-data" stored;
              Log_processed (equipment_id sensorData) total ]).
Proof.
  intros Hresolve Hparse [Hid Hts]%andb_true_iff.
  unfold handler, withTenantContext. run_M. rewrite Hresolve.
  unfold trackUsage. run_M. rewrite Hparse, Hid, Hts. cbn.
  unfold call_detectAnomalies. run_M.
  change (detectAnomalies_log TH (enrich sensorData ?i ?s))
    with (detectAnomalies_log TH sensorData).
  change (detectAnomalies TH (enrich sensorData ?i ?s))
    with (detectAnomalies TH sensorData).
  set (found := detectAnomalies TH sensorData).
  destruct (detectAnomalies_log TH sensorData) as [line|]; run_M.
  all: destruct (bool_decide (0 < length found)%nat) eqn:Hfound; run_M.
  all: try match goal with
       | |- context [raise_alerts ?l ?t ?w0] =>
           destruct (raise_alerts_trace l t w0) as (ids & w2 & -> & Hlen & Htrace)
       end.
  all: unfold createSuccessResponse; run_M.
  1,3: eexists _, _, _, _, _, ids, _, _; split; [reflexivity|];
       split; [reflexivity|]; split; [exact Hlen|];
       unfold appended in *; cbn in *; rewrite Htrace, <- !app_assoc; reflexivity.
  all: assert (Hnil : found = [])
         by (apply bool_decide_eq_false in Hfound; destruct found; [reflexivity|cbn in *; lia]);
       eexists _, _, _, _, _, [], 0, _; split; [reflexivity|];
       split; [reflexivity|]; rewrite Hnil; split; [reflexivity|];
       unfold appended; cbn; rewrite <- !app_assoc; reflexivity.
Qed.

(** X17.  A body that is not JSON is answered 500.  When the tenant resolves
    and [JSON.parse] throws, the handler catches the error and answers 500
    with [success = false], the fixed text [Internal server error] and the
    parser's message as the only detail.  The run adds the usage line and the
    error line to the trace and nothing else: nothing is detected, alerted,
    stored or published. *)
Theorem handler_malformed_json (event : APIGatewayProxyEvent) (w w1 : World)
    (tenantContext : TenantContext) (message : string) :
  resolveTenant event w = (Return tenantContext, w1) →
  JSON_parse_reading (default "{}" (JS.or (body event) (Some "{}"))) = inl message →
  ∃ response w' logged_at,
    handler TH event w = (Return response, w')
    ∧ statusCode response = 500
    ∧ success (r_body response) = false
    ∧ error (r_body response) = Some "Internal server error"
    ∧ details (r_body response) = Some [message]
    ∧ appended w1 w'
        [ Log_tenant_usage tenantContext "sensor-data-ingestion" 1 logged_at;
          Log_error "Error processing sensor data:" message ]
    ∧ (∀ e, e ∈ w_trace w' → downstream e = true → e ∈ w_trace w1).
Proof.
  intros Hresolve Hparse.
  destruct (handler_run_malformed _ _ _ _ _ Hresolve Hparse)
    as (w' & logged_at & answered_at & Hrun & Htrace).
  eexists _, w', logged_at. split; [exact Hrun|].
  repeat (split; [reflexivity|]). split; [exact Htrace|].
  intros e He Hd. rewrite Htrace in He.
  apply elem_of_app in He as [He|He]; [exact He|].
  apply elem_of_cons in He as [->|He]; [discriminate|].
  apply list_elem_of_singleton in He. subst e. discriminate.
Qed.

(** X18.  Every outcome of the handler.  If it answers, the status is 200,
    400 or 500, the two response headers are the content type and the
    wildcard CORS origin, [success] holds exactly for 200, which is also
    exactly when the response carries data and no error text, and only a 500
    carries details.  If it does not answer, the error is the one tenant
    resolution threw, and the world is as it was before the request. *)
Theorem handler_outcomes (event : APIGatewayProxyEvent) (w : World) :
  match handler TH event w with
  | (Return response, _) =>
      statusCode response ∈ [200; 400; 500]
      ∧ r_headers response =
          [ ("Content-Type", "application/json"); ("Access-Control-Allow-Origin", "*") ]
      ∧ (success (r_body response) = true ↔ statusCode response = 200)
      ∧ (is_Some (data (r_body response)) ↔ statusCode response = 200)
      ∧ (is_Some (error (r_body response)) ↔ statusCode response ≠ 200)
      ∧ (is_Some (details (r_body response)) ↔ statusCode response = 500)
  | (Throw e, w') => resolveTenant event w = (Throw e, w) ∧ w' = w
  end.
Proof.
  destruct (resolveTenant event w) as [[tenantContext|e] w1] eqn:Hresolve.
  2:{ pose proof (resolveTenant_throw _ _ _ _ Hresolve) as ->.
      unfold handler, withTenantContext. run_M. rewrite Hresolve. auto. }
  destruct (JSON_parse_reading (default "{}" (JS.or (body event) (Some "{}"))))
    as [message|sensorData] eqn:Hparse.
  { destruct (handler_run_malformed _ _ _ _ _ Hresolve Hparse)
      as (w' & logged_at & answered_at & -> & _).
    cbn. repeat split; try discriminate; eauto; try (intros [? [=]]).
    right; right; left. }
  destruct (JS.truthy (equipment_id sensorData) && JS.truthy (timestamp sensorData))
    eqn:Hfields.
  - destruct (handler_run_valid _ _ _ _ _ Hresolve Hparse Hfields)
      as (w' & d & logged_at & answered_at & ingestion & ids & latency & total
          & -> & _).
    cbn. repeat split; try discriminate; eauto; try (intros [? [=]]); try congruence.
    left.
  - destruct (handler_run_missing _ _ _ _ _ Hresolve Hparse Hfields)
      as (w' & logged_at & answered_at & -> & _).
    cbn. repeat split; try discriminate; eauto; try (intros [? [=]]).
    right; left.
Qed.

Lemma published_alerts_app (a b : list Event) :
  published_alerts (a ++ b) = published_alerts a ++ published_alerts b.
Proof. apply omap_app. Qed.

Lemma notified_alerts_app (a b : list Event) :
  notified_alerts (a ++ b) = notified_alerts a ++ notified_alerts b.
Proof. apply omap_app. Qed.

Lemma stores_launched_app (a b : list Event) :
  stores_launched (a ++ b) = stores_launched a ++ stores_launched b.
Proof. apply omap_app. Qed.

Lemma readings_published_app (a b : list Event) :
  readings_published (a ++ b) = readings_published a ++ readings_published b.
Proof. apply omap_app. Qed.

Lemma detections_app (a b : list Event) :
  detections (a ++ b) = detections a ++ detections b.
Proof. apply omap_app. Qed.

Lemma alertable_filter (found : list Anomaly) :
  filter (λ a, alertable a = true) found
  = filter (λ a, a_severity a = critical ∨ a_severity a = high) found.
Proof. apply list_filter_iff. intros a. apply alertable_severity. Qed.

(** X19.  One alert per critical or high anomaly.  For a valid reading of a
    resolved tenant, the alerts the handler publishes are, in the order of
    detection, one for each anomaly whose severity is critical or high and
    for no other: each goes to the topic [manufacturing-alerts-priority],
    repeats the equipment, type, severity, message and timestamp of its
    anomaly and is neither acknowledged nor resolved, and all carry the same
    processing latency.  Each published alert is also handed, together with
    its anomaly, to the notification service. *)
Theorem handler_alerts (event : APIGatewayProxyEvent) (w w1 : World)
    (tenantContext : TenantContext) (sensorData : SensorData) :
  resolveTenant event w = (Return tenantContext, w1) →
  JSON_parse_reading (default "{}" (JS.or (body event) (Some "{}"))) = inr sensorData →
  JS.truthy (equipment_id sensorData) = true →
  JS.truthy (timestamp sensorData) = true →
  ∃ response w' events latency,
    let alerting := filter (λ a, a_severity a = critical ∨ a_severity a = high)
                           (detectAnomalies TH sensorData) in
    handler TH event w = (Return response, w')
    ∧ appended w1 w' events
    ∧ Forall2 (λ anomaly '(topic, alert),
                 topic = "manufacturing-alerts-priority" ∧ alert_of anomaly alert
                 ∧ processing_latency_ms alert = latency)
              alerting (published_alerts events)
    ∧ notified_alerts events = zip (snd <$> published_alerts events) alerting.
Proof.
  intros Hresolve Hparse Hid Hts.
  assert (Hfields : JS.truthy (equipment_id sensorData)
                    && JS.truthy (timestamp sensorData) = true)
    by (rewrite Hid, Hts; reflexivity).
  destruct (handler_run_valid _ _ _ _ _ Hresolve Hparse Hfields)
    as (w' & d & logged_at & answered_at & ingestion & ids & latency & total
        & Hrun & _ & Hlen & Htrace).
  cbv zeta in *. rewrite alertable_filter in Hlen, Htrace.
  set (alerting := filter _ (detectAnomalies TH sensorData)) in *.
  destruct (alert_events_published latency (zip alerting ids)) as (Hpub & Hnot & _).
  eexists _, w', _, latency. split; [exact Hrun|]. split; [exact Htrace|].
  rewrite !published_alerts_app, !notified_alerts_app.
  assert (Hlog : ∀ log : option string,
            published_alerts (match log with
                              | Some line => [Log_critical_anomalies line]
                              | None => []
                              end) = []
            ∧ notified_alerts (match log with
                               | Some line => [Log_critical_anomalies line]
                               | None => []
                               end) = [])
    by (intros [?|]; split; reflexivity).
  rewrite (proj1 (Hlog _)), (proj2 (Hlog _)).
  cbn [published_alerts notified_alerts omap app].
  fold (published_alerts (alert_events latency (zip alerting ids))).
  fold (notified_alerts (alert_events latency (zip alerting ids))).
  rewrite !app_nil_r.
  split.
  - rewrite <- (fst_zip alerting ids) at 1 by lia.
    apply Forall2_fmap_l.
    eapply Forall2_impl; [exact Hpub|].
    intros [anomaly id] [topic alert]. cbn. tauto.
  - rewrite Hnot, fst_zip by lia. reflexivity.
Qed.

(** X20.  The background work of a valid reading.  For a valid reading of a
    resolved tenant the handler asks for one detection, launches one store,
    for the resolved tenant, and one publication, on the topic [sensor-data],
    both of the same reading: the submitted one, stamped with the source
    [iot-webhook] and with the ingestion time that the response reports.
    When something was detected the stored reading is flagged and carries
    the anomalies; when nothing was, the flag and the list are as
    submitted. *)
Theorem handler_background_work (event : APIGatewayProxyEvent) (w w1 : World)
    (tenantContext : TenantContext) (sensorData : SensorData) :
  resolveTenant event w = (Return tenantContext, w1) →
  JSON_parse_reading (default "{}" (JS.or (body event) (Some "{}"))) = inr sensorData →
  JS.truthy (equipment_id sensorData) = true →
  JS.truthy (timestamp sensorData) = true →
  ∃ response w' events d stored ingestion,
    let found := detectAnomalies TH sensorData in
    handler TH event w = (Return response, w')
    ∧ appended w1 w' events
    ∧ data (r_body response) = Some d
    ∧ sd_timestamp d = Some ingestion
    ∧ detections events = [enrich sensorData ingestion "iot-webhook"]
    ∧ stores_launched events = [(stored, tenantContext)]
    ∧ readings_published events = [("sensor-data", stored)]
    ∧ stored = (if bool_decide (found = []) then enrich sensorData ingestion "iot-webhook"
                else attach (enrich sensorData ingestion "iot-webhook") found)
    ∧ equipment_id stored = equipment_id sensorData
    ∧ timestamp stored = timestamp sensorData
    ∧ source stored = Some "iot-webhook"
    ∧ ingestionTimestamp stored = Some ingestion
    ∧ (found ≠ [] → hasAnomalies stored = Some true ∧ anomalies stored = Some found)
    ∧ (found = [] → hasAnomalies stored = hasAnomalies sensorData
                    ∧ anomalies stored = anomalies sensorData).
Proof.
  intros Hresolve Hparse Hid Hts.
  assert (Hfields : JS.truthy (equipment_id sensorData)
                    && JS.truthy (timestamp sensorData) = true)
    by (rewrite Hid, Hts; reflexivity).
  destruct (handler_run_valid _ _ _ _ _ Hresolve Hparse Hfields)
    as (w' & d & logged_at & answered_at & ingestion & ids & latency & total
        & Hrun & Hstamp & Hlen & Htrace).
  cbv zeta in *.
  set (found := detectAnomalies TH sensorData) in *.
  destruct (alert_events_published latency
              (zip (filter (λ a, alertable a = true) found) ids))
    as (_ & _ & Hst & Hrp & Hdet).
  eexists _, w', _, d, _, ingestion. split; [exact Hrun|]. split; [exact Htrace|].
  split; [reflexivity|]. split; [exact Hstamp|].
  rewrite !detections_app, !stores_launched_app, !readings_published_app.
  assert (Hlog : ∀ log : option string,
            detections (match log with
                        | Some line => [Log_critical_anomalies line]
                        | None => []
                        end) = []
            ∧ stores_launched (match log with
                               | Some line => [Log_critical_anomalies line]
                               | None => []
                               end) = []
            ∧ readings_published (match log with
                                  | Some line => [Log_critical_anomalies line]
                                  | None => []
                                  end) = [])
    by (intros [?|]; repeat split; reflexivity).
  destruct (Hlog (detectAnomalies_log TH sensorData)) as (-> & -> & ->).
  rewrite Hst, Hrp, Hdet.
  split; [reflexivity|]. split; [reflexivity|]. split; [reflexivity|].
  destruct found as [|a found']; cbn; repeat split; try reflexivity; try congruence.
Qed.

End HandlerRuns.

(** ** Full validation *)

Section FullValidation.
Context `{JSRuntime}.

Lemma app_nil_iff {A} (l k : list A) : l ++ k = [] ↔ l = [] ∧ k = [].
Proof. destruct l; cbn; split; [auto|intros [_ ->]; reflexivity|discriminate|intros [[=] _]]. Qed.

(** X21.  What the full validation accepts.  [validateSensorData] reports a
    reading valid, which is when it lists no error, exactly when the
    equipment id and the timestamp are present and not empty, the timestamp
    parses as a date, and each measurement that is present lies in its
    range: temperature in [-273, 1000], vibration in [0, 100], pressure in
    [0, 10000].  A reading it accepts passes the test the handler makes in
    its place. *)
Theorem validateSensorData_accepts (data : SensorData) :
  (isValid (validateSensorData data) = true ↔ errors (validateSensorData data) = [])
  ∧ (isValid (validateSensorData data) = true
     ↔ JS.truthy (equipment_id data) = true
       ∧ (∃ ts date, timestamp data = Some ts ∧ ts ≠ "" ∧ Date_parse ts = Some date)
       ∧ (∀ t, temperature data = Some t → (-273 <= t)%Q ∧ (t <= 1000)%Q)
       ∧ (∀ v, vibration data = Some v → (0 <= v)%Q ∧ (v <= 100)%Q)
       ∧ (∀ p, pressure data = Some p → (0 <= p)%Q ∧ (p <= 10000)%Q))
  ∧ (isValid (validateSensorData data) = true →
       negb (JS.truthy (equipment_id data)) || negb (JS.truthy (timestamp data)) = false).
Proof.
  assert (Hlen : ∀ l : list string, bool_decide (length l = 0%nat) = true ↔ l = []).
  { intros l. rewrite bool_decide_eq_true. destruct l; cbn; split; congruence. }
  assert (Hmain : isValid (validateSensorData data) = true
     ↔ JS.truthy (equipment_id data) = true
       ∧ (∃ ts date, timestamp data = Some ts ∧ ts ≠ "" ∧ Date_parse ts = Some date)
       ∧ (∀ t, temperature data = Some t → (-273 <= t)%Q ∧ (t <= 1000)%Q)
       ∧ (∀ v, vibration data = Some v → (0 <= v)%Q ∧ (v <= 100)%Q)
       ∧ (∀ p, pressure data = Some p → (0 <= p)%Q ∧ (p <= 10000)%Q)).
  { unfold validateSensorData. cbn [isValid]. rewrite Hlen, !app_nil_iff.
    unfold isNaN_Date_parse.
    split.
    - intros (Hid & Hts & Hdate & Ht & Hv & Hp).
      destruct (JS.truthy (equipment_id data)); [|discriminate].
      destruct (JS.truthy (timestamp data)) eqn:Ets; [|discriminate].
      destruct (truthy_Some _ Ets) as (ts & Ets' & Hne). rewrite Ets' in Hdate.
      cbn in Hdate. destruct (Date_parse ts) as [date|] eqn:Ed; [|discriminate].
      split; [reflexivity|]. split; [eauto|].
      split; [|split].
      + intros t Et. rewrite Et in Ht.
        destruct (JS.lt t (-273)) eqn:E1, (JS.gt t 1000) eqn:E2; try discriminate.
        order_facts. auto.
      + intros v Ev. rewrite Ev in Hv.
        destruct (JS.lt v 0) eqn:E1, (JS.gt v 100) eqn:E2; try discriminate.
        order_facts. auto.
      + intros p Ep. rewrite Ep in Hp.
        destruct (JS.lt p 0) eqn:E1, (JS.gt p 10000) eqn:E2; try discriminate.
        order_facts. auto.
    - intros (Hid & (ts & date & Ets & Hne & Ed) & Ht & Hv & Hp).
      rewrite Hid, Ets. cbn.
      destruct (String.eqb_spec ts "") as [->|_]; [congruence|]. cbn. rewrite Ed.
      repeat split.
      + destruct (temperature data) as [t|]; [|reflexivity].
        destruct (Ht t eq_refl).
        destruct (JS.lt t (-273)) eqn:E1, (JS.gt t 1000) eqn:E2; order_facts;
          try reflexivity; lra.
      + destruct (vibration data) as [v|]; [|reflexivity].
        destruct (Hv v eq_refl).
        destruct (JS.lt v 0) eqn:E1, (JS.gt v 100) eqn:E2; order_facts;
          try reflexivity; lra.
      + destruct (pressure data) as [p|]; [|reflexivity].
        destruct (Hp p eq_refl).
        destruct (JS.lt p 0) eqn:E1, (JS.gt p 10000) eqn:E2; order_facts;
          try reflexivity; lra. }
  split; [apply Hlen|]. split; [exact Hmain|].
  intros (Hid & (ts & date & Ets & Hne & _) & _)%Hmain.
  rewrite Hid, Ets. cbn. destruct (String.eqb_spec ts ""); [contradiction|reflexivity].
Qed.

End FullValidation.

(** ** The deduplication hash *)

Lemma ToInt32_range (z : Z) : - 2 ^ 31 <= ToInt32 z < 2 ^ 31.
Proof.
  unfold ToInt32. pose proof (Z.mod_pos_bound (z + 2 ^ 31) (2 ^ 32) eq_refl). lia.
Qed.

Lemma ToInt32_small (z : Z) : - 2 ^ 31 <= z < 2 ^ 31 → ToInt32 z = z.
Proof. intros Hz. unfold ToInt32. rewrite Z.mod_small; lia. Qed.

Lemma ToInt32_congruent (a k : Z) : ToInt32 (a + 2 ^ 32 * k) = ToInt32 a.
Proof.
  unfold ToInt32. f_equal.
  replace (a + 2 ^ 32 * k + 2 ^ 31) with (a + 2 ^ 31 + k * 2 ^ 32) by lia.
  apply Z.mod_add. discriminate.
Qed.

Lemma ToInt32_wraps (z : Z) : ∃ k, ToInt32 z = z + 2 ^ 32 * k.
Proof.
  exists (- ((z + 2 ^ 31) / 2 ^ 32)). unfold ToInt32.
  pose proof (Z.div_mod (z + 2 ^ 31) (2 ^ 32)). lia.
Qed.

Lemma hash_step_polynomial (h c : Z) :
  hash_step (ToInt32 h) c = ToInt32 (31 * h + c).
Proof.
  unfold hash_step, band, shl.
  rewrite Z.land_diag, (ToInt32_small (ToInt32 h)) by apply ToInt32_range.
  rewrite Z.shiftl_mul_pow2 by lia.
  destruct (ToInt32_wraps h) as [k Hk].
  destruct (ToInt32_wraps (ToInt32 h * 2 ^ 5)) as [k' Hk'].
  rewrite Hk', Hk.
  replace ((h + 2 ^ 32 * k) * 2 ^ 5 + 2 ^ 32 * k' - (h + 2 ^ 32 * k) + c)
    with (31 * h + c + 2 ^ 32 * (31 * k + k')) by lia.
  apply ToInt32_congruent.
Qed.

Lemma hash_loop_from (codes : list Z) (h : Z) :
  fold_left hash_step codes (ToInt32 h)
  = ToInt32 (fold_left (λ hash char, 31 * hash + char) codes h).
Proof.
  revert h. induction codes as [|c codes IH]; intros h; [reflexivity|].
  cbn [fold_left]. rewrite hash_step_polynomial. apply IH.
Qed.

Section DataHashProperties.
Context `{JSRuntime}.

(** X22.  The deduplication hash is the polynomial hash of base 31 on 32
    bits.  The loop of shifts, subtractions and masks over the text
    [<equipment_id>-<timestamp>-<temperature>-<vibration>-<pressure>]
    computes the sum of [code * 31 ^ (n - 1 - i)] over its UTF-16 code units,
    wrapped to a signed 32-bit integer; the hash is that integer, which lies
    between [-2^31] and [2^31 - 1], written in base 36. *)
Theorem generateDataHash_polynomial (sensorData : SensorData) :
  let text := hashInput sensorData in
  let sum := fold_left (λ hash char, 31 * hash + char) (charCodes text) 0 in
  generateDataHash sensorData = Z_toString36 (ToInt32 sum)
  ∧ hash_loop text = ToInt32 sum
  ∧ - 2 ^ 31 <= hash_loop text < 2 ^ 31.
Proof.
  cbv zeta.
  assert (E : hash_loop (hashInput sensorData)
              = ToInt32 (fold_left (λ hash char, 31 * hash + char)
                                   (charCodes (hashInput sensorData)) 0)).
  { unfold hash_loop. change 0 with (ToInt32 0) at 1. apply hash_loop_from. }
  unfold generateDataHash. rewrite E.
  split; [reflexivity|]. split; [reflexivity|]. apply ToInt32_range.
Qed.

End DataHashProperties.

(** ** The health of an equipment *)

Section HealthStatus.
Context `{JSRuntime}.

(** X23.  When an equipment counts as reporting.  The status handler rates an
    equipment other than [offline] exactly when its status is neither
    [offline] nor [error] and its latest reading is between one and
    sixty-one minutes old, or dated in the future.  A reading less than one
    minute old gives an age of 0 minutes, which the test [!lastReadingAge]
    takes for a missing age: the equipment is rated [offline]. *)
Theorem determineHealthStatus_reporting (equipment : Equipment)
    (currentReading : option SensorData) (now : Z) (time : JS.Int) :
  (determineHealthStatus equipment currentReading (minutes_since now time) ≠ health_offline
   ↔ e_status equipment ≠ OFFLINE ∧ e_status equipment ≠ ERROR
     ∧ is_Some currentReading
     ∧ ∃ t, time = Some t ∧ (now - t < 0 ∨ 60000 <= now - t < 3660000))
  ∧ (∀ t, 0 <= now - t < 60000 →
       determineHealthStatus equipment currentReading (minutes_since now (Some t))
       = health_offline).
Proof.
  assert (Hage : ∀ t, ((now - t) / 60000 =? 0) || (60 <? (now - t) / 60000) = false
                      ↔ (now - t < 0 ∨ 60000 <= now - t < 3660000)).
  { intros t. rewrite orb_false_iff, Z.eqb_neq, Z.ltb_ge.
    pose proof (Z.div_mod (now - t) 60000 ltac:(lia)).
    pose proof (Z.mod_pos_bound (now - t) 60000 ltac:(lia)). lia. }
  unfold determineHealthStatus, minutes_since. split.
  - destruct (decide (e_status equipment = OFFLINE)) as [Eoff|Eoff].
    { rewrite bool_decide_eq_true_2 by exact Eoff. cbn.
      split; [intros Hn; exfalso; apply Hn; reflexivity|]. intros (? & _). contradiction. }
    destruct (decide (e_status equipment = ERROR)) as [Eerr|Eerr].
    { rewrite (bool_decide_eq_true_2 (e_status equipment = ERROR)) by exact Eerr.
      rewrite orb_true_r.
      split; [intros Hn; exfalso; apply Hn; reflexivity|]. intros (_ & ? & _). contradiction. }
    rewrite !bool_decide_eq_false_2 by assumption. cbn [orb].
    destruct currentReading as [r|].
    2:{ split; [intros Hn; exfalso; apply Hn; reflexivity|].
        intros (_ & _ & [? [=]] & _). }
    destruct time as [t|]; cbn [fmap option_fmap option_map].
    2:{ split; [intros Hn; exfalso; apply Hn; reflexivity|].
        intros (_ & _ & _ & ? & [=] & _). }
    specialize (Hage t).
    destruct (((now - t) / 60000 =? 0) || (60 <? (now - t) / 60000)).
    { split; [intros Hn; exfalso; apply Hn; reflexivity|].
      intros (_ & _ & _ & t' & [= <-] & Ht). apply Hage in Ht. discriminate. }
    split; [|intros _; repeat case_match; discriminate].
    intros _. repeat split; try assumption; [eauto|].
    exists t. split; [reflexivity|]. apply Hage. reflexivity.
  - intros t Ht. cbn.
    destruct (bool_decide _ || bool_decide _); [reflexivity|].
    destruct currentReading; [|reflexivity].
    replace ((now - t) / 60000) with 0; [reflexivity|].
    symmetry. apply Z.div_small. lia.
Qed.

Lemma critical_in_app (l k : list Anomaly) :
  (∃ a, a ∈ l ++ k ∧ a_severity a = critical)
  ↔ (∃ a, a ∈ l ∧ a_severity a = critical) ∨ (∃ a, a ∈ k ∧ a_severity a = critical).
Proof.
  split.
  - intros (a & [Ha|Ha]%elem_of_app & Hs); eauto.
  - intros [(a & Ha & Hs)|(a & Ha & Hs)]; exists a; rewrite elem_of_app; auto.
Qed.

Lemma temperature_critical (e ts : option string) (t : Q) :
  (∃ a, a ∈ detectTemperatureAnomalies THRESHOLDS e t ts ∧ a_severity a = critical)
  ↔ JS.gt t 180 = true.
Proof.
  unfold detectTemperatureAnomalies. cbn -[JS.gt JS.lt].
  destruct (JS.gt t 180); [split; [auto|]; intros _; eexists; split; [left|reflexivity]|].
  split; [|discriminate].
  intros (a & Ha & Hs). repeat case_match;
    try (apply list_elem_of_singleton in Ha; subst a; discriminate).
  apply elem_of_nil in Ha. contradiction.
Qed.

Lemma vibration_critical (e ts : option string) (v : Q) :
  (∃ a, a ∈ detectVibrationAnomalies THRESHOLDS e v ts ∧ a_severity a = critical)
  ↔ JS.gt v 5 = true.
Proof.
  unfold detectVibrationAnomalies. cbn -[JS.gt JS.lt].
  destruct (JS.gt v 5); [split; [auto|]; intros _; eexists; split; [left|reflexivity]|].
  split; [|discriminate].
  intros (a & Ha & Hs). repeat case_match;
    try (apply list_elem_of_singleton in Ha; subst a; discriminate).
  apply elem_of_nil in Ha. contradiction.
Qed.

Lemma pressure_critical (e ts : option string) (p : Q) :
  (∃ a, a ∈ detectPressureAnomalies THRESHOLDS e p ts ∧ a_severity a = critical)
  ↔ JS.gt p 800 = true.
Proof.
  unfold detectPressureAnomalies. cbn -[JS.gt JS.lt].
  destruct (JS.gt p 800); [split; [auto|]; intros _; eexists; split; [left|reflexivity]|].
  split; [|discriminate].
  intros (a & Ha & Hs). repeat case_match;
    try (apply list_elem_of_singleton in Ha; subst a; discriminate).
  apply elem_of_nil in Ha. contradiction.
Qed.

(** The readings under which the detector, with its default thresholds,
    finds something critical. *)
Lemma detectAnomalies_critical (r : SensorData) :
  (∃ a, a ∈ detectAnomalies THRESHOLDS r ∧ a_severity a = critical)
  ↔ from_option (λ t, JS.gt t 180) false (temperature r)
    || from_option (λ v, JS.gt v 5) false (vibration r)
    || from_option (λ p, JS.gt p 800) false (pressure r) = true.
Proof.
  rewrite detectAnomalies_parts, !critical_in_app, !orb_true_iff.
  assert (Hnil : (∃ a : Anomaly, a ∈ [] ∧ a_severity a = critical) ↔ false = true).
  { split; [intros (a & Ha & _); apply elem_of_nil in Ha; contradiction|discriminate]. }
  destruct (temperature r) as [t|], (vibration r) as [v|], (pressure r) as [p|];
    cbn [from_option];
    rewrite ?temperature_critical, ?vibration_critical, ?pressure_critical, ?Hnil;
    tauto.
Qed.

(** X24.  The status page and the detector agree on what is critical.  For an
    equipment that counts as reporting, the health is [critical] exactly
    when the detector, with its default thresholds, finds a critical anomaly
    in the latest reading; and a reading in which the detector finds nothing
    is rated [healthy]. *)
Theorem determineHealthStatus_critical (equipment : Equipment) (r : SensorData)
    (age : Z) :
  e_status equipment ≠ OFFLINE → e_status equipment ≠ ERROR →
  age ≠ 0 → age <= 60 →
  (determineHealthStatus equipment (Some r) (Some age) = health_critical
   ↔ assessOverallSeverity (detectAnomalies THRESHOLDS r) = critical)
  ∧ (detectAnomalies THRESHOLDS r = [] →
       determineHealthStatus equipment (Some r) (Some age) = health_healthy).
Proof.
  intros Hoff Herr Hage Hold.
  rewrite assessOverallSeverity_critical, detectAnomalies_critical.
  unfold determineHealthStatus.
  rewrite !bool_decide_eq_false_2 by assumption. cbn [orb].
  destruct (Z.eqb_spec age 0); [contradiction|].
  destruct (Z.ltb_spec 60 age); [lia|]. cbn [orb].
  split.
  - destruct (temperature r) as [t|], (vibration r) as [v|], (pressure r) as [p|];
      cbn [from_option];
      repeat match goal with
             | |- context [JS.gt ?x ?y] => destruct (JS.gt x y)
             | |- context [JS.lt ?x ?y] => destruct (JS.lt x y)
             end; cbn; split; congruence.
  - rewrite detectAnomalies_parts.
    intros (Ht & (Hv & Hp)%app_eq_nil)%app_eq_nil.
    assert (Et : from_option (λ t, JS.gt t 150) false (temperature r) = false
                 ∧ from_option (λ t, JS.gt t 180) false (temperature r) = false).
    { destruct (temperature r) as [t|]; [|auto]. cbn in *.
      unfold detectTemperatureAnomalies in Ht. cbn -[JS.gt JS.lt] in Ht.
      destruct (JS.gt t 180); [discriminate|].
      destruct (JS.gt t 150); [discriminate|]. auto. }
    assert (Ev : from_option (λ v, JS.gt v 2) false (vibration r) = false
                 ∧ from_option (λ v, JS.gt v 5) false (vibration r) = false).
    { destruct (vibration r) as [v|]; [|auto]. cbn in *.
      unfold detectVibrationAnomalies in Hv. cbn -[JS.gt JS.lt] in Hv.
      destruct (JS.gt v 5); [discriminate|].
      destruct (JS.gt v 2); [discriminate|]. auto. }
    assert (Ep : from_option (λ p, JS.gt p 500 || JS.lt p 50) false (pressure r) = false
                 ∧ from_option (λ p, JS.gt p 800) false (pressure r) = false).
    { destruct (pressure r) as [p|]; [|auto]. cbn in *.
      unfold detectPressureAnomalies in Hp. cbn -[JS.gt JS.lt] in Hp.
      destruct (JS.gt p 800); [discriminate|].
      destruct (JS.gt p 500 || JS.lt p 50); [discriminate|]. auto. }
    destruct Et as [Et1 Et2], Ev as [Ev1 Ev2], Ep as [Ep1 Ep2].
    destruct (temperature r), (vibration r), (pressure r); cbn in *;
      rewrite ?Et1, ?Et2, ?Ev1, ?Ev2, ?Ep1, ?Ep2; reflexivity.
Qed.

End HealthStatus.

(** ** The inline detector of the fast alert path *)

Section InlineDetector.
Context `{JSRuntime}.
Variable random_text : nat → string.

Lemma generateFastUUID_returns (w : World) :
  ∃ id w', generateFastUUID random_text w = (Return id, w') ∧ w_trace w' = w_trace w.
Proof. unfold generateFastUUID. run_M. eexists _, _. split; reflexivity. Qed.

#[local] Opaque generateFastUUID.

Lemma filter_critical_temperature (e ts : option string) (t : Q) :
  (λ a, (AnomalyType_value (a_type a), a_severity a, a_equipment_id a, a_timestamp a))
    <$> filter (λ a, a_severity a = critical) (detectTemperatureAnomalies THRESHOLDS e t ts)
  = if JS.gt t 180 then [("critical_temperature", critical, e, ts)] else [].
Proof.
  unfold detectTemperatureAnomalies. cbn -[JS.gt JS.lt].
  destruct (JS.gt t 180); [reflexivity|]. repeat case_match; reflexivity.
Qed.

Lemma filter_critical_vibration (e ts : option string) (v : Q) :
  (λ a, (AnomalyType_value (a_type a), a_severity a, a_equipment_id a, a_timestamp a))
    <$> filter (λ a, a_severity a = critical) (detectVibrationAnomalies THRESHOLDS e v ts)
  = if JS.gt v 5 then [("critical_vibration", critical, e, ts)] else [].
Proof.
  unfold detectVibrationAnomalies. cbn -[JS.gt JS.lt].
  destruct (JS.gt v 5); [reflexivity|]. repeat case_match; reflexivity.
Qed.

Lemma filter_critical_pressure (e ts : option string) (p : Q) :
  (λ a, (AnomalyType_value (a_type a), a_severity a, a_equipment_id a, a_timestamp a))
    <$> filter (λ a, a_severity a = critical) (detectPressureAnomalies THRESHOLDS e p ts)
  = if JS.gt p 800 then [("critical_pressure", critical, e, ts)] else [].
Proof.
  unfold detectPressureAnomalies. cbn -[JS.gt JS.lt].
  destruct (JS.gt p 800); [reflexivity|]. repeat case_match; reflexivity.
Qed.

(** X25.  The fast path and the detector raise the same critical alerts.
    For every reading the inline detector of the fast alert path returns, in
    the same order, one alert for each critical anomaly that the anomaly
    service finds with its default thresholds, and nothing else: same type,
    severity [critical], same equipment and timestamp.  It always returns
    and prints nothing. *)
Theorem detectCriticalAnomaliesInline_agrees (data : SensorData) (startTime : Z)
    (w : World) :
  ∃ alerts w',
    detectCriticalAnomaliesInline random_text data startTime w = (Return alerts, w')
    ∧ (λ a, (uf_type a, uf_severity a, uf_equipment_id a, uf_timestamp a)) <$> alerts
      = (λ a, (AnomalyType_value (a_type a), a_severity a, a_equipment_id a, a_timestamp a))
          <$> filter (λ a, a_severity a = critical) (detectAnomalies THRESHOLDS data)
    ∧ w_trace w' = w_trace w.
Proof.
  rewrite detectAnomalies_parts, !filter_app, !fmap_app.
  unfold detectCriticalAnomaliesInline.
  destruct (temperature data) as [t|]; cbn [from_option];
    rewrite ?filter_critical_temperature;
    (destruct (vibration data) as [v|]; cbn [from_option];
     rewrite ?filter_critical_vibration);
    (destruct (pressure data) as [p|]; cbn [from_option];
     rewrite ?filter_critical_pressure);
    repeat match goal with
           | |- context [JS.gt ?x ?y] => destruct (JS.gt x y)
           end;
    run_M;
    repeat (match goal with
            | |- context [generateFastUUID random_text ?w0] =>
                destruct (generateFastUUID_returns w0) as (? & ? & -> & ?)
            end; run_M);
    eexists _, _; (split; [reflexivity|]); (split; [reflexivity|]);
    cbn in *; congruence.
Qed.

End InlineDetector.

(** ** Notification of critical alerts *)

Section Notification.
Context `{JSRuntime}.
Variable env : gmap string string.
Variable clock : nat → Z.
Variable cloudWatch_fails : PutMetricDataCommand → option JSError.
Variable sns_answers : PublishCommand → JSError + string.
Variable toLocaleString : option string → string.
Variable toUpperCase : string → string.
Variable deviation_toFixed1 : Q → Q → string.

Lemma first_hit_truthy (sources : list (option string)) (s : string) :
  first_hit sources = Some s → JS.truthy (Some s) = true.
Proof.
  induction sources as [|o sources IH]; cbn [first_hit]; [discriminate|].
  destruct (JS.truthy o) eqn:E; [intros ->; exact E|exact IH].
Qed.

(** X26.  What the flags of a notification mean.  [processCriticalAlert]
    never fails and reports no error.  It sends one batch of metrics to
    CloudWatch, two metrics for the alert and a third when an anomaly is
    given, and its [cloudwatch] flag says whether the batch was accepted.
    When a topic is configured, under [ALERTS_TOPIC_ARN] or else under
    [CRITICAL_ALERTS_SNS_TOPIC], it publishes one message to that topic and
    its [sns] flag says whether the message was accepted.  When no topic is
    configured it publishes nothing and the [sns] flag is [true] all the
    same.  [success] is the conjunction of the two flags, and
    [channels_notified] lists the flags that are set. *)
Theorem processCriticalAlert_flags (alert : Alert) (anomaly : option Anomaly) :
  let run := processCriticalAlert env clock cloudWatch_fails sns_answers
               toLocaleString toUpperCase deviation_toFixed1 alert anomaly in
  let result := fst run in
  let events := snd run in
  n_error result = None
  ∧ n_success result = cloudwatch result && sns result
  ∧ channels_notified result
    = (if cloudwatch result then ["cloudwatch"] else [])
      ++ (if sns result then ["sns"] else [])
  ∧ (∃ batch, metrics_sent events = [batch]
              ∧ Namespace batch = "Manufacturing/Alerts"
              ∧ length (MetricData batch) = match anomaly with Some _ => 3%nat | None => 2%nat end
              ∧ (cloudwatch result = true ↔ cloudWatch_fails batch = None))
  ∧ match first_hit [env !! "ALERTS_TOPIC_ARN"; env !! "CRITICAL_ALERTS_SNS_TOPIC"] with
    | Some topic =>
        ∃ message, messages_sent events = [message]
                   ∧ TopicArn message = topic
                   ∧ (sns result = true ↔ ∃ id, sns_answers message = inr id)
    | None => messages_sent events = [] ∧ sns result = true
    end.
Proof.
  cbv zeta. unfold processCriticalAlert.
  destruct (publishToCloudWatch _ _ _) as [cw sent_metrics] eqn:Ecw.
  destruct (sendSNSNotification _ _ _ _ _ _ _) as [sn sent_message] eqn:Esn.
  cbn [fst snd n_error n_success channels_notified cloudwatch sns].
  split; [reflexivity|]. split; [reflexivity|]. split; [reflexivity|].
  assert (Hcw : ∃ batch, metrics_sent sent_metrics = [batch]
              ∧ messages_sent sent_metrics = []
              ∧ Namespace batch = "Manufacturing/Alerts"
              ∧ length (MetricData batch) = match anomaly with Some _ => 3%nat | None => 2%nat end
              ∧ (fulfilled cw = true ↔ cloudWatch_fails batch = None)).
  { unfold publishToCloudWatch in Ecw.
    destruct (cloudWatch_fails _) as [e|] eqn:Ef; injection Ecw as <- <-;
      (eexists; split; [reflexivity|]; split; [reflexivity|]; split; [reflexivity|];
       split; [destruct anomaly; reflexivity|]; rewrite Ef; cbn; split; congruence). }
  assert (Hsn : metrics_sent sent_message = []
            ∧ match first_hit [env !! "ALERTS_TOPIC_ARN";
                               env !! "CRITICAL_ALERTS_SNS_TOPIC"] with
              | Some topic =>
                  ∃ message, messages_sent sent_message = [message]
                             ∧ TopicArn message = topic
                             ∧ (fulfilled sn = true ↔ ∃ id, sns_answers message = inr id)
              | None => messages_sent sent_message = [] ∧ fulfilled sn = true
              end).
  { unfold sendSNSNotification in Esn.
    destruct (or_first_hit (env !! "ALERTS_TOPIC_ARN") (env !! "CRITICAL_ALERTS_SNS_TOPIC"))
      as [T V].
    destruct (JS.truthy (JS.or _ _)) eqn:Etopic; cbn [negb] in Esn.
    - rewrite (V eq_refl) in Esn. symmetry in T.
      destruct (truthy_Some _ T) as (topic & Etop & _). rewrite Etop in *.
      cbn [default from_option id] in Esn.
      destruct (sns_answers _) as [e|id] eqn:Ea; injection Esn as <- <-;
        (split; [reflexivity|]; eexists; split; [reflexivity|]; split; [reflexivity|];
         rewrite Ea; cbn; split; [|eauto; intros [? [=]]]; eauto; try discriminate).
    - injection Esn as <- <-. split; [reflexivity|].
      destruct (first_hit _) as [topic|] eqn:Ehit; [|split; reflexivity].
      apply first_hit_truthy in Ehit. congruence. }
  destruct Hcw as (batch & Hb1 & Hb2 & Hb3 & Hb4 & Hb5). destruct Hsn as (Hs1 & Hs2).
  unfold metrics_sent, messages_sent in *.
  rewrite !omap_app, Hb1, Hb2, Hs1.
  assert (Htail : ∀ (A : Type) (f : NotifyEvent → option A) (c : Completion ()) label,
            (∀ x y, f (Console_error x y) = None) →
            omap f (match c with
                    | Return _ => []
                    | Throw e => [Console_error label (error_message e)]
                    end) = []).
  { intros A f [[]|e] label Hf; cbn; [reflexivity|]. rewrite Hf. reflexivity. }
  rewrite !Htail by reflexivity. cbn [app]. rewrite !app_nil_r.
  split; [exists batch; auto|].
  destruct (first_hit _) as [topic|].
  - destruct Hs2 as (message & -> & ? & ?). exists message. auto.
  - destruct Hs2 as [-> ?]. auto.
Qed.

End Notification.

(** ** Worked runs

    The services on the requests, readings and worlds of [Examples]. *)

Import Examples.

(** *** The detector on the readings of the sample events *)

Example detect_critical_temperature :
  kinds (detectAnomalies THRESHOLDS (measured (Some (1957 # 10)%Q) None None))
  = [("critical_temperature", critical)].
Proof. reflexivity. Qed.

Example detect_critical_temperature_message :
  a_message <$> detectAnomalies THRESHOLDS (measured (Some (1957 # 10)%Q) None None)
  = ["Critical temperature detected: 195.7°C (threshold: 180°C)"].
Proof. vm_compute. reflexivity. Qed.

Example detect_high_temperature :
  kinds (detectAnomalies THRESHOLDS (measured (Some (1653 # 10)%Q) None None))
  = [("high_temperature", high)].
Proof. reflexivity. Qed.

Example detect_low_temperature :
  kinds (detectAnomalies THRESHOLDS (measured (Some (-152 # 10)%Q) None None))
  = [("high_temperature", medium)].
Proof. reflexivity. Qed.

Example detect_at_thresholds :
  kinds (detectAnomalies THRESHOLDS (measured (Some 180%Q) (Some 5%Q) (Some 800%Q)))
  = [("high_temperature", high); ("high_vibration", high); ("abnormal_pressure", medium)]
  ∧ kinds (detectAnomalies THRESHOLDS (measured (Some 150%Q) (Some 2%Q) (Some 500%Q)))
    = []
  ∧ kinds (detectAnomalies THRESHOLDS (measured (Some 0%Q) (Some 0%Q) (Some 50%Q)))
    = [].
Proof. repeat split; reflexivity. Qed.

Example detect_multiple_critical :
  kinds (detectAnomalies THRESHOLDS
           (measured (Some (2059 # 10)%Q) (Some (82 # 10)%Q) (Some 1150%Q)))
  = [("critical_temperature", critical); ("critical_vibration", critical);
     ("critical_pressure", critical)].
Proof. reflexivity. Qed.

Example detect_pressure_thresholds :
  a_threshold <$> detectAnomalies THRESHOLDS (measured None None (Some (6753 # 10)%Q))
  = [500%Q]
  ∧ a_threshold <$> detectAnomalies THRESHOLDS (measured None None (Some (125 # 10)%Q))
    = [50%Q].
Proof. split; reflexivity. Qed.

Example detect_power_only :
  detectAnomalies THRESHOLDS power_reading = [].
Proof. reflexivity. Qed.

(** *** The handler *)

Lemma handler_valid_reading_witness :
  ∃ w1,
    resolveTenant normal_event fresh = (Return acme, w1)
    ∧ JSON_parse_reading (default "{}" (JS.or (body normal_event) (Some "{}")))
      = inr normal_reading
    ∧ JS.truthy (equipment_id normal_reading) = true
    ∧ JS.truthy (timestamp normal_reading) = true
    ∧ ∃ response w' d,
        handler THRESHOLDS normal_event fresh = (Return response, w')
        ∧ statusCode response = 200
        ∧ success (r_body response) = true
        ∧ data (r_body response) = Some d
        ∧ sd_equipment_id d = Some "PUMP_001"
        ∧ sd_anomalies_detected d = length (detectAnomalies THRESHOLDS normal_reading)
        ∧ sd_alerts_created d =
            length (filter (λ a, a_severity a = critical ∨ a_severity a = high)
                           (detectAnomalies THRESHOLDS normal_reading))
        ∧ (sd_sla_compliant d = true ↔ sd_processing_latency_ms d < 500).
Proof.
  assert (Hresolve : resolveTenant normal_event fresh
                     = (Return acme, snd (resolveTenant normal_event fresh)))
    by (apply run_completion; vm_compute; reflexivity).
  assert (Hparse : JSON_parse_reading
                     (default "{}" (JS.or (body normal_event) (Some "{}")))
                   = inr normal_reading)
    by (vm_compute; reflexivity).
  eexists. split; [exact Hresolve|]. split; [exact Hparse|].
  split; [reflexivity|]. split; [reflexivity|].
  exact (handler_valid_reading THRESHOLDS normal_event fresh _ acme normal_reading
           Hresolve Hparse eq_refl eq_refl).
Defined.

(** A well-formed reading sent for a tenant the directory does not know:
    the handler gives no response, it fails with the resolver's error. *)
Lemma handler_unknown_tenant_no_response :
  JSON_parse_reading (default "{}" (JS.or (body unknown_tenant_event) (Some "{}")))
  = inr normal_reading
  ∧ JS.truthy (equipment_id normal_reading) = true
  ∧ JS.truthy (timestamp normal_reading) = true
  ∧ ¬ ∃ response w',
        handler THRESHOLDS unknown_tenant_event fresh = (Return response, w')
        ∧ statusCode response = 200.
Proof.
  split; [vm_compute; reflexivity|].
  split; [reflexivity|]. split; [reflexivity|].
  intros (response & w' & Hrun & _).
  assert (Hthrow : fst (handler THRESHOLDS unknown_tenant_event fresh)
                   = Throw (Error "Tenant not found: unknown-tenant"))
    by (vm_compute; reflexivity).
  rewrite Hrun in Hthrow. discriminate.
Qed.

Lemma handler_tenant_missing_witness :
  no_tenant_identifier no_tenant_event
  ∧ handler THRESHOLDS no_tenant_event fresh
    = (Throw (Error "Tenant ID not found in request"), fresh).
Proof.
  assert (Hnone : no_tenant_identifier no_tenant_event)
    by (repeat split; vm_compute; reflexivity).
  split; [exact Hnone|].
  exact (handler_tenant_missing THRESHOLDS no_tenant_event fresh Hnone).
Defined.

(** A request without tenant identifier gets no response envelope from the
    handler, and so no 400. *)
Lemma handler_tenant_missing_no_envelope :
  no_tenant_identifier no_tenant_event
  ∧ ¬ ∃ response w',
        handler THRESHOLDS no_tenant_event fresh = (Return response, w')
        ∧ statusCode response = 400.
Proof.
  split; [repeat split; vm_compute; reflexivity|].
  intros (response & w' & Hrun & _).
  assert (Hthrow : fst (handler THRESHOLDS no_tenant_event fresh)
                   = Throw (Error "Tenant ID not found in request"))
    by (vm_compute; reflexivity).
  rewrite Hrun in Hthrow. discriminate.
Qed.

Lemma handler_missing_fields_witness :
  ∃ w1,
    resolveTenant anonymous_event fresh = (Return acme, w1)
    ∧ JSON_parse_reading (default "{}" (JS.or (body anonymous_event) (Some "{}")))
      = inr anonymous_reading
    ∧ (JS.truthy (equipment_id anonymous_reading) = false
       ∨ JS.truthy (timestamp anonymous_reading) = false)
    ∧ ∃ response w' logged_at,
        handler THRESHOLDS anonymous_event fresh = (Return response, w')
        ∧ statusCode response = 400
        ∧ success (r_body response) = false
        ∧ error (r_body response)
          = Some "Missing required fields: equipment_id, timestamp"
        ∧ details (r_body response) = None
        ∧ appended w1 w' [Log_tenant_usage acme "sensor-data-ingestion" 1 logged_at]
        ∧ (∀ e, e ∈ w_trace w' → downstream e = true → e ∈ w_trace w1).
Proof.
  assert (Hresolve : resolveTenant anonymous_event fresh
                     = (Return acme, snd (resolveTenant anonymous_event fresh)))
    by (apply run_completion; vm_compute; reflexivity).
  assert (Hparse : JSON_parse_reading
                     (default "{}" (JS.or (body anonymous_event) (Some "{}")))
                   = inr anonymous_reading)
    by (vm_compute; reflexivity).
  eexists. split; [exact Hresolve|]. split; [exact Hparse|].
  split; [left; reflexivity|].
  exact (handler_missing_fields THRESHOLDS anonymous_event fresh _ acme
           anonymous_reading Hresolve Hparse (or_introl eq_refl)).
Defined.

(** A body that has a timestamp and no equipment id: the 400 carries no
    details list at all, and its error text names the timestamp too. *)
Lemma handler_missing_fields_no_details :
  JSON_parse_reading (default "{}" (JS.or (body anonymous_event) (Some "{}")))
  = inr anonymous_reading
  ∧ equipment_id anonymous_reading = None
  ∧ JS.truthy (timestamp anonymous_reading) = true
  ∧ ¬ ∃ response w' missing,
        handler THRESHOLDS anonymous_event fresh = (Return response, w')
        ∧ statusCode response = 400
        ∧ details (r_body response) = Some missing.
Proof.
  split; [vm_compute; reflexivity|].
  split; [reflexivity|]. split; [reflexivity|].
  intros (response & w' & missing & Hrun & _ & Hdetails).
  assert (Hnone : match fst (handler THRESHOLDS anonymous_event fresh) with
                  | Return r => details (r_body r)
                  | Throw _ => None
                  end = None)
    by (vm_compute; reflexivity).
  rewrite Hrun in Hnone. cbn in Hnone. congruence.
Qed.

(** *** Tenant resolution *)

(** The tenant header in upper case is the same header to a
    case-insensitive reader; the resolver does not see it. *)
Lemma extractTenantId_upper_case_header :
  String_toLowerCase "X-TENANT-ID" = String_toLowerCase "X-Tenant-ID"
  ∧ header upper_case_event "X-TENANT-ID" = Some "acme-corp"
  ∧ extractTenantId upper_case_event = None.
Proof. repeat split; vm_compute; reflexivity. Qed.

(** The five sources, each shadowing the ones after it. *)
Example extractTenantId_priority :
  extractTenantId (sources_event five_sources true) = Some "from-header"
  ∧ extractTenantId (sources_event (base.delete "X-Tenant-ID" five_sources) true)
    = Some "acme-corp"
  ∧ extractTenantId
      (sources_event
         (base.delete "Authorization" (base.delete "X-Tenant-ID" five_sources)) true)
    = Some "from-host"
  ∧ extractTenantId (sources_event {[ "X-API-Key" := "from-key_uuid_randomstring" ]} true)
    = Some "from-query"
  ∧ extractTenantId (sources_event {[ "X-API-Key" := "from-key_uuid_randomstring" ]} false)
    = Some "from-key"
  ∧ extractTenantId (sources_event {[ "x-api-key" := "keywithoutunderscore" ]} false)
    = None.
Proof. repeat split; vm_compute; reflexivity. Qed.

Lemma resolveTenant_cache_witness :
  ∃ w1,
    (* the first request of a process misses *)
    extractTenantId normal_event = Some "acme-corp"
    ∧ "acme-corp" ≠ ""
    ∧ timers_consistent fresh
    ∧ w_tenantCache fresh !! "acme-corp" = None
    ∧ resolveTenant normal_event fresh = (Return acme, w1)
    ∧ (∃ more, appended fresh w1 (Log_rate_limit_check "acme-corp" 10000 :: more))
    ∧ w_tenantCache w1 !! "acme-corp" = Some acme
    ∧ w_timers w1 = [ {| delay := 300000; key := "acme-corp" |} ]
    ∧ timers_consistent w1
    ∧ (∀ dt, dt < 300000 → w_tenantCache (elapse dt w1) !! "acme-corp" = Some acme)
    ∧ (∀ dt, 300000 <= dt → w_tenantCache (elapse dt w1) !! "acme-corp" = None)
    (* the second hits *)
    ∧ resolveTenant normal_event w1 = (Return acme, w1).
Proof.
  assert (Hid : extractTenantId normal_event = Some "acme-corp")
    by (vm_compute; reflexivity).
  assert (Hne : "acme-corp" ≠ "") by discriminate.
  assert (Hfresh : timers_consistent fresh).
  { split; [constructor|]. intros t Ht. cbn in Ht. inversion Ht. }
  assert (Hmiss : w_tenantCache fresh !! "acme-corp" = None) by reflexivity.
  assert (Hrun : resolveTenant normal_event fresh
                 = (Return acme, snd (resolveTenant normal_event fresh)))
    by (apply run_completion; vm_compute; reflexivity).
  destruct (resolveTenant_cache normal_event fresh "acme-corp" Hid Hne Hfresh)
    as (_ & Hloaded & _).
  destruct (Hloaded acme _ Hmiss Hrun)
    as (Hlog & Hcached & Htimers & Hconsistent & Hbefore & Hafter).
  destruct (resolveTenant_cache normal_event (snd (resolveTenant normal_event fresh))
              "acme-corp" Hid Hne Hconsistent) as (Hhit & _ & _).
  exists (snd (resolveTenant normal_event fresh)).
  split; [exact Hid|]. split; [exact Hne|]. split; [exact Hfresh|].
  split; [exact Hmiss|]. split; [exact Hrun|]. split; [exact Hlog|].
  split; [exact Hcached|]. split; [exact Htimers|]. split; [exact Hconsistent|].
  split; [exact Hbefore|]. split; [exact Hafter|].
  exact (Hhit acme Hcached).
Defined.

(** A miss followed by a hit: the second resolution returns the cached
    context and changes nothing; five minutes later the entry is gone. *)
Example resolveTenant_twice :
  ∃ w1,
    resolveTenant normal_event fresh = (Return acme, w1)
    ∧ resolveTenant normal_event w1 = (Return acme, w1)
    ∧ w_tenantCache (elapse 299999 w1) !! "acme-corp" = Some acme
    ∧ w_tenantCache (elapse 300000 w1) !! "acme-corp" = None.
Proof.
  exists (snd (resolveTenant normal_event fresh)).
  split; [apply run_completion; vm_compute; reflexivity|].
  split; [|split; vm_compute; reflexivity].
  apply resolveTenant_hit with (tenantId := "acme-corp");
    [vm_compute; reflexivity | discriminate | vm_compute; reflexivity].
Qed.

(** *** The storage fan-out *)

Lemma archiveToS3_key_witness :
  equipment_id normal_reading = Some "PUMP_001"
  ∧ timestamp normal_reading = Some "2025-11-23T10:30:00.000Z"
  ∧ tenant_id acme ≠ ""
  ∧ ∃ command result w' more archivedAt,
      archiveToS3 normal_reading (Some acme) fresh = (Return result, w')
      ∧ appended fresh w' (S3_send command :: more)
      ∧ (∀ date, Date_parse "2025-11-23T10:30:00.000Z" = Some date →
           (deployment_type acme = single_tenant →
              Key command =
                cold_key "" (facility_of normal_reading) "PUMP_001" date
                  "2025-11-23T10:30:00.000Z")
           ∧ (deployment_type acme = multi_tenant →
                Key command =
                  cold_key ("tenants/" +:+ tenant_id acme +:+ "/")
                    (facility_of normal_reading) "PUMP_001" date
                    "2025-11-23T10:30:00.000Z"))
      ∧ (Date_parse "2025-11-23T10:30:00.000Z" = None →
           (deployment_type acme = single_tenant →
              Key command =
                undated_key "" (facility_of normal_reading) "PUMP_001"
                  "2025-11-23T10:30:00.000Z")
           ∧ (deployment_type acme = multi_tenant →
                Key command =
                  undated_key ("tenants/" +:+ tenant_id acme +:+ "/")
                    (facility_of normal_reading) "PUMP_001"
                    "2025-11-23T10:30:00.000Z"))
      ∧ Metadata command =
          [ ("equipmentId", "PUMP_001"); ("tenantId", tenant_id acme);
            ("sensorType", "manufacturing"); ("archivedAt", archivedAt) ].
Proof.
  assert (Hne : tenant_id acme ≠ "") by discriminate.
  split; [reflexivity|]. split; [reflexivity|]. split; [exact Hne|].
  exact (archiveToS3_key normal_reading acme fresh "PUMP_001"
           "2025-11-23T10:30:00.000Z" eq_refl eq_refl Hne).
Defined.

(** A reading the handler accepts, its timestamp being present and not
    empty, and whose timestamp is no date: the key the archiver writes has
    no year, month, day or hour, under either kind of context. *)
Lemma archiveToS3_key_not_a_date :
  JS.truthy (equipment_id undated_reading) && JS.truthy (timestamp undated_reading) = true
  ∧ timestamp undated_reading ≫= Date_parse = None
  ∧ uploaded_keys (w_trace (snd (archiveToS3 undated_reading (Some acme) fresh)))
    = ["FAC_CHICAGO_01/PUMP_001/NaN/NaN/NaN/NaN/not-a-date.json"]
  ∧ uploaded_keys (w_trace (snd (archiveToS3 undated_reading (Some shared_tenant) fresh)))
    = ["tenants/shared-tenant/FAC_CHICAGO_01/PUMP_001/NaN/NaN/NaN/NaN/not-a-date.json"]
  ∧ fst (archiveToS3 undated_reading (Some acme) fresh)
    = Return {| up_success := true;
                up_key := Some "FAC_CHICAGO_01/PUMP_001/NaN/NaN/NaN/NaN/not-a-date.json";
                up_bucket :=
                  Some "manufacturing-platform-archival-development-535002890929";
                up_error := None |}.
Proof. repeat split; vm_compute; reflexivity. Qed.

(** The keys of the normal reading, for a single-tenant and for a
    multi-tenant context. *)
Example archiveToS3_keys :
  uploaded_keys (w_trace (snd (archiveToS3 normal_reading (Some acme) fresh)))
  = ["FAC_CHICAGO_01/PUMP_001/2025/11/23/10/2025-11-23T10:30:00.000Z.json"]
  ∧ uploaded_keys (w_trace (snd (archiveToS3 normal_reading (Some shared_tenant) fresh)))
    = ["tenants/shared-tenant/FAC_CHICAGO_01/PUMP_001/2025/11/23/10/2025-11-23T10:30:00.000Z.json"].
Proof. split; vm_compute; reflexivity. Qed.

(** Month, day and hour take two digits. *)
Example two_digits_pads :
  two_digits <$> [0; 1; 9; 10; 12; 23; 31]
  = ["00"; "01"; "09"; "10"; "12"; "23"; "31"].
Proof. vm_compute. reflexivity. Qed.

(** C3, where the code departs from it.  The object store refuses the
    upload of a reading; the hot and the warm tier accept it.  The fan-out
    returns, the upload and then the error upload are logged as failed, and
    the [s3] flag of the result is [true]. *)
Theorem storeSensorDataMultiTier_s3_flag_after_failed_upload :
  ∃ result w',
    storeSensorDataMultiTier normal_reading (Some acme) s3_down = (Return result, w')
    ∧ s3 result = true
    ∧ timescale result = true
    ∧ postgres result = true
    ∧ errors_logged (w_trace w')
      = [ ("S3 upload failed:", "ServiceUnavailable");
          ("Failed data archival error:", "ServiceUnavailable") ]
    ∧ uploaded_keys (w_trace w')
      = [ "FAC_CHICAGO_01/PUMP_001/2025/11/23/10/2025-11-23T10:30:00.000Z.json";
          "errors/2025/11/23/10/PUMP_001-1763893800015.json" ].
Proof.
  exists {| timescale := true; postgres := true; s3 := true; latency_ms := 18;
            sr_error := None |},
         (snd (storeSensorDataMultiTier normal_reading (Some acme) s3_down)).
  split; [apply run_completion; vm_compute; reflexivity|].
  repeat split; vm_compute; reflexivity.
Qed.

(** C8, where the code departs from it.  Two readings are stored in the hot
    tier, one for tenant [test-tenant] and then one for tenant
    [shared-tenant], both in shared mode.  The storage service hands the
    shared pool four queries: for each tenant a [SET] of the session variable
    and then the [INSERT], each through [pool.query].  On a pool of two
    connections that serves the first [SET] on connection 1 and the first
    [INSERT] on connection 0, then the second [SET] on connection 0 and the
    second [INSERT] on connection 1, the first [INSERT] runs where the variable
    was never set and the second, made for [shared-tenant], runs where it
    was last set for [test-tenant].  No statement is rejected in this
    run. *)
Theorem shared_pool_session_of_other_tenant :
  ∃ w1 w2,
    snd (storeToTimescale normal_reading (Some test_tenant) fresh) = w1
    ∧ snd (storeToTimescale normal_reading (Some shared_tenant) w1) = w2
    ∧ PgPool.queries_to SharedTimescalePool (w_trace w2)
      = [ SET_current_tenant_id "test-tenant";
          INSERT_sensor_data_raw true normal_reading;
          SET_current_tenant_id "shared-tenant";
          INSERT_sensor_data_raw true normal_reading ]
    ∧ PgPool.serves (w_query_fails fresh SharedTimescalePool) [None; None]
        (PgPool.queries_to SharedTimescalePool (w_trace w2))
        [ {| PgPool.connection := 1;
             PgPool.statement := SET_current_tenant_id "test-tenant";
             PgPool.session := None |};
          {| PgPool.connection := 0;
             PgPool.statement := INSERT_sensor_data_raw true normal_reading;
             PgPool.session := None |};
          {| PgPool.connection := 0;
             PgPool.statement := SET_current_tenant_id "shared-tenant";
             PgPool.session := None |};
          {| PgPool.connection := 1;
             PgPool.statement := INSERT_sensor_data_raw true normal_reading;
             PgPool.session := Some "test-tenant" |} ].
Proof.
  eexists _, _. split; [reflexivity|]. split; [reflexivity|].
  assert (Hq : PgPool.queries_to SharedTimescalePool
                 (w_trace (snd (storeToTimescale normal_reading (Some shared_tenant)
                            (snd (storeToTimescale normal_reading (Some test_tenant)
                                    fresh)))))
               = [ SET_current_tenant_id "test-tenant";
                   INSERT_sensor_data_raw true normal_reading;
                   SET_current_tenant_id "shared-tenant";
                   INSERT_sensor_data_raw true normal_reading ])
    by (vm_compute; reflexivity).
  split; [exact Hq|]. rewrite Hq.
  repeat (eapply PgPool.serves_next; [reflexivity|cbn]).
  apply PgPool.serves_done.
Qed.

(** *** Severity, thresholds and limits *)

Example assessOverallSeverity_of_readings :
  assessOverallSeverity (detectAnomalies THRESHOLDS critical_reading) = critical
  ∧ assessOverallSeverity (detectAnomalies THRESHOLDS vibration_reading) = high
  ∧ assessOverallSeverity (detectAnomalies THRESHOLDS normal_reading) = low.
Proof. repeat split; vm_compute; reflexivity. Qed.

(** An update of the temperature band and a reading without temperature. *)
Lemma updateThresholds_other_metrics_witness :
  (is_Some (Some {| min := 0; max := 50; criticalMax := 70 |}) →
     temperature vibration_reading = None)
  ∧ (is_Some (@None Band) → vibration vibration_reading = None)
  ∧ (is_Some (@None Band) → pressure vibration_reading = None)
  ∧ detectAnomalies lowered vibration_reading
    = detectAnomalies THRESHOLDS vibration_reading.
Proof.
  assert (Ht : is_Some (Some {| min := 0; max := 50; criticalMax := 70 |}) →
               temperature vibration_reading = None) by reflexivity.
  assert (Hv : is_Some (@None Band) → vibration vibration_reading = None)
    by (intros [? [=]]).
  assert (Hp : is_Some (@None Band) → pressure vibration_reading = None)
    by reflexivity.
  split; [exact Ht|]. split; [exact Hv|]. split; [exact Hp|].
  exact (updateThresholds_other_metrics
           {| new_temperature := Some {| min := 0; max := 50; criticalMax := 70 |};
              new_vibration := None;
              new_pressure := None |}
           THRESHOLDS vibration_reading Ht Hv Hp).
Defined.

(** The same update on a reading that has a temperature: the normal reading
    becomes critical. *)
Example updateThresholds_lowered :
  kinds (detectAnomalies THRESHOLDS normal_reading) = []
  ∧ kinds (detectAnomalies lowered normal_reading) = [("critical_temperature", critical)].
Proof. split; vm_compute; reflexivity. Qed.

(** A tenant at its limit is refused; a limit of 0 refuses nothing. *)
Example checkLimits_at_limit :
  checkLimits shared_tenant "equipment-count" 100
  = (false, Some "Tenant shared-tenant exceeded limit for equipment-count: 100/100")
  ∧ checkLimits shared_tenant "equipment-count" 99 = (true, None)
  ∧ checkLimits small_single_tenant "equipment-count" 5000 = (true, None)
  ∧ checkLimits shared_tenant "storage-gb" 1000000 = (true, None).
Proof. repeat split; vm_compute; reflexivity. Qed.

(** *** Tenant identifiers and the cache *)

Example extractFromSubdomain_hosts :
  extractFromSubdomain "acme.manufacturing.com" = Some "acme"
  ∧ extractFromSubdomain "acme.manufacturing.example.org" = Some "acme"
  ∧ extractFromSubdomain "manufacturing.com" = None
  ∧ extractFromSubdomain "acme.factory.com" = None.
Proof. repeat split; vm_compute; reflexivity. Qed.

Example extractFromApiKey_keys :
  extractFromApiKey "acme-corp_9f8e7d" = Some "acme-corp"
  ∧ extractFromApiKey "acme_corp_9f8e7d" = Some "acme"
  ∧ extractFromApiKey "9f8e7d" = None.
Proof. repeat split; vm_compute; reflexivity. Qed.

Lemma resolveTenant_own_context_witness :
  ∃ w1,
    cache_sound fresh
    ∧ resolveTenant normal_event fresh = (Return acme, w1)
    ∧ extractTenantId normal_event = Some (tenant_id acme)
    ∧ w_tenantCache w1 !! tenant_id acme = Some acme
    ∧ cache_sound w1.
Proof.
  assert (Hsound : cache_sound fresh).
  { intros k t. cbn. rewrite lookup_empty. discriminate. }
  assert (Hresolve : resolveTenant normal_event fresh
                     = (Return acme, snd (resolveTenant normal_event fresh)))
    by (apply run_completion; vm_compute; reflexivity).
  eexists. split; [exact Hsound|]. split; [exact Hresolve|].
  exact (resolveTenant_own_context normal_event fresh _ acme Hsound Hresolve).
Defined.

Lemma resolveTenant_unknown_witness :
  extractTenantId unknown_tenant_event = Some "unknown-tenant"
  ∧ "unknown-tenant" ≠ ""
  ∧ w_tenantCache fresh !! "unknown-tenant" = None
  ∧ ("unknown-tenant" ∉ ["acme-corp"; "shared-tenant"])
  ∧ ∃ e, resolveTenant unknown_tenant_event fresh = (Throw e, fresh)
         ∧ ("unknown-tenant" ∉ Object_prototype_keys →
              e = Error ("Tenant not found: " +:+ "unknown-tenant")).
Proof.
  assert (Hid : extractTenantId unknown_tenant_event = Some "unknown-tenant")
    by (vm_compute; reflexivity).
  assert (Hne : "unknown-tenant" ≠ "") by discriminate.
  assert (Hmiss : w_tenantCache fresh !! "unknown-tenant" = None) by reflexivity.
  assert (Hdir : "unknown-tenant" ∉ ["acme-corp"; "shared-tenant"]).
  { rewrite !elem_of_cons, elem_of_nil. intros [E|[E|[]]]; discriminate. }
  split; [exact Hid|]. split; [exact Hne|]. split; [exact Hmiss|]. split; [exact Hdir|].
  exact (resolveTenant_unknown unknown_tenant_event fresh "unknown-tenant"
           Hid Hne Hmiss Hdir).
Defined.

(** *** Pools, keys and the archive of failures *)

(** A single-tenant deployment below the enterprise tier stores its hot tier
    through the shared pool, with an [INSERT] that has no tenant column. *)
Example storeToTimescale_small_single_tenant :
  dedicated small_single_tenant = false
  ∧ dedicated acme = true
  ∧ PgPool.queries_to SharedTimescalePool
      (w_trace (snd (storeToTimescale normal_reading (Some small_single_tenant) fresh)))
    = [ SET_current_tenant_id "globex"; INSERT_sensor_data_raw false normal_reading ]
  ∧ PgPool.queries_to (TenantPool "acme-corp")
      (w_trace (snd (storeToTimescale normal_reading (Some acme) fresh)))
    = [ INSERT_sensor_data_raw false normal_reading ].
Proof. repeat split; vm_compute; reflexivity. Qed.

(** With the hot store down the fan-out reports it and files the reading
    under [errors/], after the regular archive. *)
Example storeSensorDataMultiTier_hot_store_down :
  fst (storeSensorDataMultiTier normal_reading (Some test_tenant) timescale_down)
  = Return {| timescale := false; postgres := true; s3 := true; latency_ms := 12;
              sr_error := None |}
  ∧ uploaded_keys
      (w_trace (snd (storeSensorDataMultiTier normal_reading (Some test_tenant)
                       timescale_down)))
    = [ "tenants/test-tenant/FAC_CHICAGO_01/PUMP_001/2025/11/23/10/2025-11-23T10:30:00.000Z.json";
        "tenants/test-tenant/errors/2025/11/23/10/PUMP_001-1763893800018.json" ].
Proof. split; vm_compute; reflexivity. Qed.

Lemma archiveToS3_tenant_keys_witness :
  deployment_type shared_tenant ≠ single_tenant
  ∧ deployment_type test_tenant ≠ single_tenant
  ∧ occurs "/" (tenant_id shared_tenant) = false
  ∧ occurs "/" (tenant_id test_tenant) = false
  ∧ tenant_id shared_tenant ≠ tenant_id test_tenant
  ∧ ∃ c1 res1 w1' more1 c2 res2 w2' more2,
      archiveToS3 normal_reading (Some shared_tenant) fresh = (Return res1, w1')
      ∧ appended fresh w1' (S3_send c1 :: more1)
      ∧ archiveToS3 normal_reading (Some test_tenant) fresh = (Return res2, w2')
      ∧ appended fresh w2' (S3_send c2 :: more2)
      ∧ String.prefix ("tenants/" +:+ tenant_id shared_tenant +:+ "/") (Key c1) = true
      ∧ String.prefix ("tenants/" +:+ tenant_id test_tenant +:+ "/") (Key c2) = true
      ∧ Key c1 ≠ Key c2.
Proof.
  assert (H1 : deployment_type shared_tenant ≠ single_tenant) by discriminate.
  assert (H2 : deployment_type test_tenant ≠ single_tenant) by discriminate.
  assert (H3 : tenant_id shared_tenant ≠ tenant_id test_tenant) by discriminate.
  split; [exact H1|]. split; [exact H2|]. split; [reflexivity|]. split; [reflexivity|].
  split; [exact H3|].
  exact (archiveToS3_tenant_keys normal_reading normal_reading shared_tenant test_tenant
           fresh fresh H1 H2 eq_refl eq_refl H3).
Defined.

Example generateDataHash_normal_reading :
  hashInput normal_reading = "PUMP_001-2025-11-23T10:30:00.000Z-75.5-1.2-250.8"
  ∧ hash_loop (hashInput normal_reading) = 1478157485
  ∧ generateDataHash normal_reading = "og21m5"
  ∧ hash_loop "ab" = 97 * 31 + 98
  ∧ Z_toString36 (-2147483648) = "-zik0zk".
Proof. repeat split; vm_compute; reflexivity. Qed.

(** Characters outside ASCII count by their UTF-16 code units. *)
Example generateDataHash_code_units :
  charCodes "PÜMP" = [80; 220; 77; 80]
  ∧ charCodes "°C" = [176; 67]
  ∧ charCodes "€" = [8364]
  ∧ charCodes "😀" = [55357; 56832]
  ∧ generateDataHash umlaut_reading = "kycgl0".
Proof. repeat split; vm_compute; reflexivity. Qed.

(** *** The handler *)

Lemma generateUUID_version4_witness :
  (∀ n, 0 <= w_random fresh n < 16)
  ∧ ∃ uuid w',
      generateUUID fresh = (Return uuid, w')
      ∧ fills "xxxxxxxx-xxxx-4xxx-yxxx-xxxxxxxxxxxx" uuid
      ∧ String.length uuid = 36%nat
      ∧ w_draws w' = (w_draws fresh + 31)%nat
      ∧ w_trace w' = w_trace fresh.
Proof.
  assert (Hr : ∀ n, 0 <= w_random fresh n < 16).
  { intros n. cbn. apply Z.mod_pos_bound. reflexivity. }
  split; [exact Hr|].
  exact (generateUUID_version4 fresh Hr).
Defined.

Example generateUUID_fresh :
  fst (generateUUID fresh) = Return "01234567-89ab-4cde-b012-3456789abcde".
Proof. vm_compute. reflexivity. Qed.

Lemma handler_malformed_json_witness :
  ∃ w1,
    resolveTenant malformed_event fresh = (Return acme, w1)
    ∧ JSON_parse_reading (default "{}" (JS.or (body malformed_event) (Some "{}")))
      = inl "Unexpected token in JSON"
    ∧ ∃ response w' logged_at,
        handler THRESHOLDS malformed_event fresh = (Return response, w')
        ∧ statusCode response = 500
        ∧ success (r_body response) = false
        ∧ error (r_body response) = Some "Internal server error"
        ∧ details (r_body response) = Some ["Unexpected token in JSON"]
        ∧ appended w1 w'
            [ Log_tenant_usage acme "sensor-data-ingestion" 1 logged_at;
              Log_error "Error processing sensor data:" "Unexpected token in JSON" ]
        ∧ (∀ e, e ∈ w_trace w' → downstream e = true → e ∈ w_trace w1).
Proof.
  assert (Hresolve : resolveTenant malformed_event fresh
                     = (Return acme, snd (resolveTenant malformed_event fresh)))
    by (apply run_completion; vm_compute; reflexivity).
  assert (Hparse : JSON_parse_reading
                     (default "{}" (JS.or (body malformed_event) (Some "{}")))
                   = inl "Unexpected token in JSON")
    by (vm_compute; reflexivity).
  eexists. split; [exact Hresolve|]. split; [exact Hparse|].
  exact (handler_malformed_json THRESHOLDS malformed_event fresh _ acme
           "Unexpected token in JSON" Hresolve Hparse).
Defined.

Lemma handler_alerts_witness :
  ∃ w1,
    resolveTenant normal_event fresh = (Return acme, w1)
    ∧ JSON_parse_reading (default "{}" (JS.or (body normal_event) (Some "{}")))
      = inr normal_reading
    ∧ JS.truthy (equipment_id normal_reading) = true
    ∧ JS.truthy (timestamp normal_reading) = true
    ∧ ∃ response w' events latency,
        handler lowered normal_event fresh = (Return response, w')
        ∧ appended w1 w' events
        ∧ Forall2 (λ anomaly '(topic, alert),
                     topic = "manufacturing-alerts-priority" ∧ alert_of anomaly alert
                     ∧ processing_latency_ms alert = latency)
                  (filter (λ a, a_severity a = critical ∨ a_severity a = high)
                          (detectAnomalies lowered normal_reading))
                  (published_alerts events)
        ∧ notified_alerts events
          = zip (snd <$> published_alerts events)
                (filter (λ a, a_severity a = critical ∨ a_severity a = high)
                        (detectAnomalies lowered normal_reading)).
Proof.
  assert (Hresolve : resolveTenant normal_event fresh
                     = (Return acme, snd (resolveTenant normal_event fresh)))
    by (apply run_completion; vm_compute; reflexivity).
  assert (Hparse : JSON_parse_reading
                     (default "{}" (JS.or (body normal_event) (Some "{}")))
                   = inr normal_reading)
    by (vm_compute; reflexivity).
  eexists. split; [exact Hresolve|]. split; [exact Hparse|].
  split; [reflexivity|]. split; [reflexivity|].
  exact (handler_alerts lowered normal_event fresh _ acme normal_reading
           Hresolve Hparse eq_refl eq_refl).
Defined.

(** The alert of that run. *)
Example handler_alerts_lowered :
  published_alerts (w_trace (snd (handler lowered normal_event fresh)))
  = [ ("manufacturing-alerts-priority",
       {| alert_id := "01234567-89ab-4cde-b012-3456789abcde";
          al_equipment_id := Some "PUMP_001";
          al_type := CRITICAL_TEMPERATURE;
          al_severity := critical;
          al_message := "Critical temperature detected: 75.5°C (threshold: 70°C)";
          al_timestamp := Some "2025-11-23T10:30:00.000Z";
          acknowledged := false;
          resolved := false;
          processing_latency_ms := 9 |}) ]
  ∧ published_alerts (w_trace (snd (handler THRESHOLDS normal_event fresh))) = [].
Proof. split; vm_compute; reflexivity. Qed.

Lemma handler_background_work_witness :
  ∃ w1,
    resolveTenant normal_event fresh = (Return acme, w1)
    ∧ JSON_parse_reading (default "{}" (JS.or (body normal_event) (Some "{}")))
      = inr normal_reading
    ∧ JS.truthy (equipment_id normal_reading) = true
    ∧ JS.truthy (timestamp normal_reading) = true
    ∧ ∃ response w' events d stored ingestion,
        handler lowered normal_event fresh = (Return response, w')
        ∧ appended w1 w' events
        ∧ data (r_body response) = Some d
        ∧ sd_timestamp d = Some ingestion
        ∧ detections events = [enrich normal_reading ingestion "iot-webhook"]
        ∧ stores_launched events = [(stored, acme)]
        ∧ readings_published events = [("sensor-data", stored)]
        ∧ stored = (if bool_decide (detectAnomalies lowered normal_reading = [])
                    then enrich normal_reading ingestion "iot-webhook"
                    else attach (enrich normal_reading ingestion "iot-webhook")
                           (detectAnomalies lowered normal_reading))
        ∧ equipment_id stored = equipment_id normal_reading
        ∧ timestamp stored = timestamp normal_reading
        ∧ source stored = Some "iot-webhook"
        ∧ ingestionTimestamp stored = Some ingestion
        ∧ (detectAnomalies lowered normal_reading ≠ [] →
             hasAnomalies stored = Some true
             ∧ anomalies stored = Some (detectAnomalies lowered normal_reading))
        ∧ (detectAnomalies lowered normal_reading = [] →
             hasAnomalies stored = hasAnomalies normal_reading
             ∧ anomalies stored = anomalies normal_reading).
Proof.
  assert (Hresolve : resolveTenant normal_event fresh
                     = (Return acme, snd (resolveTenant normal_event fresh)))
    by (apply run_completion; vm_compute; reflexivity).
  assert (Hparse : JSON_parse_reading
                     (default "{}" (JS.or (body normal_event) (Some "{}")))
                   = inr normal_reading)
    by (vm_compute; reflexivity).
  eexists. split; [exact Hresolve|]. split; [exact Hparse|].
  split; [reflexivity|]. split; [reflexivity|].
  exact (handler_background_work lowered normal_event fresh _ acme normal_reading
           Hresolve Hparse eq_refl eq_refl).
Defined.

(** The full validation rejects readings that the handler accepts. *)
Example validateSensorData_out_of_range :
  errors (validateSensorData implausible_reading)
  = [ "temperature out of valid range (-273 to 1000)";
      "vibration out of valid range (0 to 100)" ]
  ∧ errors (validateSensorData no_reading)
    = [ "equipment_id is required"; "timestamp is required" ]
  ∧ validateSensorData normal_reading = {| isValid := true; errors := [] |}.
Proof. repeat split; vm_compute; reflexivity. Qed.

(** *** Health, the fast path and notifications *)

Lemma determineHealthStatus_critical_witness :
  e_status pump ≠ OFFLINE ∧ e_status pump ≠ ERROR ∧ 5 ≠ 0 ∧ 5 <= 60
  ∧ (determineHealthStatus pump (Some critical_reading) (Some 5) = health_critical
     ↔ assessOverallSeverity (detectAnomalies THRESHOLDS critical_reading) = critical)
  ∧ (detectAnomalies THRESHOLDS critical_reading = [] →
       determineHealthStatus pump (Some critical_reading) (Some 5) = health_healthy).
Proof.
  assert (H1 : e_status pump ≠ OFFLINE) by discriminate.
  assert (H2 : e_status pump ≠ ERROR) by discriminate.
  assert (H3 : 5 ≠ 0) by lia.
  assert (H4 : 5 <= 60) by lia.
  split; [exact H1|]. split; [exact H2|]. split; [exact H3|]. split; [exact H4|].
  exact (determineHealthStatus_critical pump critical_reading 5 H1 H2 H3 H4).
Defined.

(** A reading that arrived thirty seconds ago, and one that arrived ninety
    seconds ago. *)
Example determineHealthStatus_fresh_reading :
  determineHealthStatus pump (Some normal_reading)
    (minutes_since (epoch + 30000) (Some epoch)) = health_offline
  ∧ determineHealthStatus pump (Some normal_reading)
      (minutes_since (epoch + 90000) (Some epoch)) = health_healthy
  ∧ determineHealthStatus pump (Some critical_reading)
      (minutes_since (epoch + 90000) (Some epoch)) = health_critical
  ∧ determineHealthStatus pump (Some (measured (Some (-5)%Q) None None))
      (minutes_since (epoch + 90000) (Some epoch)) = health_healthy
  ∧ kinds (detectAnomalies THRESHOLDS (measured (Some (-5)%Q) None None))
    = [("high_temperature", medium)].
Proof. repeat split; vm_compute; reflexivity. Qed.

Example detectCriticalAnomaliesInline_critical_reading :
  (λ a, (uf_alert_id a, uf_type a, uf_message a, uf_processing_latency_ms a))
    <$> default []
          (match fst (detectCriticalAnomaliesInline (λ n, "r" +:+ pretty n)
                        critical_reading epoch fresh) with
           | Return alerts => Some alerts
           | Throw _ => None
           end)
  = [ ("mibktqo0r0", "critical_temperature",
       "CRITICAL: Temperature 195°C exceeds limit", 3);
      ("mibktqo6r1", "critical_vibration", "CRITICAL: Vibration 6.2 exceeds limit", 9);
      ("mibktqocr2", "critical_pressure",
       "CRITICAL: Pressure 850 PSI exceeds limit", 15) ].
Proof. vm_compute. reflexivity. Qed.

(** With no topic configured the SNS client is not called, and the
    notification counts as sent. *)
Example processCriticalAlert_without_topic :
  let run := processCriticalAlert ∅ (w_clock fresh) (λ _, None)
               (λ _, inl (Error "no such topic")) (λ _, "") String_toLowerCase
               (λ _ _, "") hot_alert None in
  fst run = {| n_success := true; channels_notified := ["cloudwatch"; "sns"];
               cloudwatch := true; sns := true; n_latency_ms := 3; n_error := None |}
  ∧ messages_sent (snd run) = []
  ∧ (MetricName <$> (metrics_sent (snd run) ≫= MetricData))
    = ["CriticalAlerts"; "EquipmentHealth"].
Proof. repeat split; vm_compute; reflexivity. Qed.

Example processCriticalAlert_with_failing_topic :
  let run := processCriticalAlert {[ "ALERTS_TOPIC_ARN" := "arn:aws:sns:alerts" ]}
               (w_clock fresh) (λ _, None)
               (λ _, inl (Error "no such topic")) (λ _, "") String_toLowerCase
               (λ _ _, "") hot_alert None in
  (n_success (fst run), cloudwatch (fst run), sns (fst run), channels_notified (fst run))
  = (false, true, false, ["cloudwatch"])
  ∧ TopicArn <$> messages_sent (snd run) = ["arn:aws:sns:alerts"].
Proof. repeat split; vm_compute; reflexivity. Qed.
